(** * altair_transform/utils/timeunit.py

    A shallow embedding of the three public operations of the module
    ([date_to_timestamp], [timestamp_to_date], [compute_timeunit]) and of
    its two private helpers ([_parse_timeunit_string], [_compute_timeunit]),
    together with the part of pandas, dateutil and [re] that they call.

    Conventions.
    - A Python call that may raise is a value of [result]; exceptions carry
      their class and message.
    - A pandas timestamp is its [int64] count of nanoseconds ([value]) and an
      optional zone tag, exactly as pandas stores it: UTC nanoseconds since
      the epoch when tagged, wall-clock nanoseconds when naive.
    - The zone returned by [tzlocal()] is configuration of the process, not
      code of the module: it is the parameter [local] of every definition
      that consults it.
    - A Python float is the rational it denotes ([Q]); an operation on
      floats rounds its exact result to the nearest binary64 number, ties to
      even ([fl]).  The exponent range is not bounded: no overflow,
      underflow, infinity or NaN. *)

From Stdlib Require Import ZArith QArith Qround Qabs Qpower List String Ascii.
From Stdlib Require Import Bool Lia Lqa.
From Stdlib Require Import DecimalString DecimalPos DecimalZ.
Import ListNotations.

Local Open Scope string_scope.
Local Open Scope Z_scope.

(* ================================================================== *)
(** ** Python results *)

Inductive exc_class : Type :=
| ValueError
| NotImplementedError
| TypeError
| AttributeError
| IndexError
| KeyError
| OutOfBoundsDatetime.

Inductive result (A : Type) : Type :=
| Ok (a : A)
| Raise (c : exc_class) (msg : string).

Arguments Ok {A} a.
Arguments Raise {A} c msg.

Definition bind {A B : Type} (r : result A) (k : A -> result B) : result B :=
  match r with
  | Ok a => k a
  | Raise c msg => Raise c msg
  end.

Notation "x <- e ;; k" := (bind e (fun x => k))
  (at level 61, e at next level, right associativity).

Fixpoint mapM {A B : Type} (f : A -> result B) (l : list A) : result (list B) :=
  match l with
  | [] => Ok []
  | a :: l' => b <- f a ;; bs <- mapM f l' ;; Ok (b :: bs)
  end.

(** Python's [repr] of a [str] without quotes or backslashes inside. *)
Definition repr (s : string) : string := "'" ++ s ++ "'".

(* ================================================================== *)
(** ** The proleptic Gregorian calendar

    pandas reads calendar fields off the day count since 1970-01-01.  The
    conversion between day counts and civil dates is the usual one on
    400-year eras with the year starting on 1 March. *)

Module Calendar.

Definition is_leap (y : Z) : bool :=
  ((y mod 4 =? 0) && negb (y mod 100 =? 0)) || (y mod 400 =? 0).

Definition days_in_month (y m : Z) : Z :=
  if m =? 2 then (if is_leap y then 29 else 28)
  else if (m =? 4) || (m =? 6) || (m =? 9) || (m =? 11) then 30 else 31.

(** Months counted from March: March is 0, February is 11. *)
Definition month_index (m : Z) : Z := if 2 <? m then m - 3 else m + 9.

Definition yoe_of_doe (doe : Z) : Z :=
  (doe - doe / 1460 + doe / 36524 - doe / 146096) / 365.

Definition days_from_civil (y m d : Z) : Z :=
  let y' := if m <=? 2 then y - 1 else y in
  let era := y' / 400 in
  let yoe := y' - era * 400 in
  let mp := month_index m in
  let doy := (153 * mp + 2) / 5 + d - 1 in
  let doe := yoe * 365 + yoe / 4 - yoe / 100 + doy in
  era * 146097 + doe - 719468.

Definition civil_from_days (z : Z) : Z * Z * Z :=
  let z' := z + 719468 in
  let era := z' / 146097 in
  let doe := z' - era * 146097 in
  let yoe := yoe_of_doe doe in
  let doy := doe - (365 * yoe + yoe / 4 - yoe / 100) in
  let mp := (5 * doy + 2) / 153 in
  let d := doy - (153 * mp + 2) / 5 + 1 in
  let m := if mp <? 10 then mp + 3 else mp - 9 in
  (yoe + era * 400 + (if m <=? 2 then 1 else 0), m, d).

(** Monday is 0; 1970-01-01 was a Thursday. *)
Definition weekday_of_days (z : Z) : Z := (z + 3) mod 7.

End Calendar.

(* ================================================================== *)
(** ** Python strings *)

Module Str.

(** [str(n)] for an [int]. *)
Definition str (n : Z) : string := NilZero.string_of_int (Z.to_int n).

Fixpoint zeros (n : nat) : string :=
  match n with
  | O => ""
  | S n' => String "0" (zeros n')
  end.

(** pandas' [Series.str.zfill(width)]: pad with ["0"] on the left. *)
Definition zfill (width : nat) (s : string) : string :=
  zeros (width - String.length s) ++ s.

Definition is_digit (c : ascii) : bool :=
  let n := nat_of_ascii c in (48 <=? n)%nat && (n <=? 57)%nat.

(** The longest prefix of decimal digits, and what follows it. *)
Fixpoint span_digits (s : string) : string * string :=
  match s with
  | "" => ("", "")
  | String c r =>
      if is_digit c
      then let (ds, rest) := span_digits r in (String c ds, rest)
      else ("", s)
  end.

Definition digits_value (ds : string) : option Z :=
  option_map Z.of_uint (NilEmpty.uint_of_string ds).

(** [s.startswith(p)] gives [Some] of what follows [p]. *)
Fixpoint strip_prefix (p s : string) : option string :=
  match p with
  | "" => Some s
  | String a p' =>
      match s with
      | "" => None
      | String b s' => if Ascii.eqb a b then strip_prefix p' s' else None
      end
  end.

Definition startswith (s p : string) : bool :=
  match strip_prefix p s with Some _ => true | None => false end.

Fixpoint join (l : list string) : string :=
  match l with
  | [] => ""
  | s :: l' => s ++ join l'
  end.

End Str.

(* ================================================================== *)
(** ** pandas and dateutil, as far as the module uses them *)

Module pd.

Import Calendar Str.

Definition ns_per_us : Z := 1000.
Definition ns_per_ms : Z := 1000000.
Definition ns_per_s : Z := 1000000000.
Definition ns_per_min : Z := 60 * ns_per_s.
Definition ns_per_hour : Z := 60 * ns_per_min.
Definition ns_per_day : Z := 24 * ns_per_hour.

(** The two zone objects the module passes around: the string ['UTC'] and
    the object [tzlocal()]. *)
Inductive tzinfo : Type := UTC | tzlocal.

(** What the process knows of its local zone: the offset from UTC in force
    at a UTC instant, and the offset [tzlocal().utcoffset] reports for a
    naive wall-clock reading.  Instants and readings are in nanoseconds;
    offsets are whole seconds, east positive, as [time.timezone] and
    [time.altzone] are. *)
Record zone : Type := {
  utcoffset : Z -> Z;
  wall_utcoffset : Z -> Z
}.

(** A zone without transitions, [o] seconds east of UTC. *)
Definition fixed_offset (o : Z) : zone :=
  {| utcoffset := fun _ => o; wall_utcoffset := fun _ => o |}.

(** [pd.Timestamp]. *)
Record Timestamp : Type := {
  value : Z;
  tz : option tzinfo
}.

(** [pd.Series] of datetimes ([index = Some labels]) or [pd.DatetimeIndex]
    ([index = None]); the zone belongs to the dtype, not to the elements. *)
Record DatetimeArray : Type := {
  index : option (list Z);
  i8 : list Z;
  dtype_tz : option tzinfo
}.

(** [Date = Union[pd.Series, pd.DatetimeIndex, pd.Timestamp]]. *)
Inductive Date : Type :=
| DTimestamp (t : Timestamp)
| DArray (a : DatetimeArray).

(** A [pd.Series] ([cindex = Some labels]) or [pd.Index] ([cindex = None])
    of integers or of strings. *)
Record Column (A : Type) : Type := {
  cindex : option (list Z);
  cdata : list A
}.
Arguments cindex {A} c.
Arguments cdata {A} c.

(** A Python value that is either one [A] or a column of them. *)
Inductive Broadcast (A : Type) : Type :=
| One (a : A)
| Col (c : Column A).
Arguments One {A} a.
Arguments Col {A} c.

(** [float] or an array of them. *)
Inductive Number : Type :=
| Num (q : Q)
| NumArray (l : list Q).

Definition isinstance_Series (d : Date) : bool :=
  match d with
  | DArray a => match index a with Some _ => true | None => false end
  | DTimestamp _ => false
  end.

(** [date.tz], also reached as [date.dt.tz] and [date.tzinfo]. *)
Definition tz_of (d : Date) : option tzinfo :=
  match d with
  | DTimestamp t => tz t
  | DArray a => dtype_tz a
  end.

Definition col_map {A B : Type} (f : A -> B) (c : Column A) : Column B :=
  {| cindex := cindex c; cdata := map f (cdata c) |}.

(** Element-wise operation on two columns with the same labels. *)
Fixpoint zip_with {A B C : Type} (f : A -> B -> C) (l : list A) (l' : list B)
  : list C :=
  match l, l' with
  | a :: t, b :: t' => f a b :: zip_with f t t'
  | _, _ => []
  end.

(** Python's [+] on [str], [pd.Index] and [pd.Series] of [str]. *)
Definition add (x y : Broadcast string) : Broadcast string :=
  match x, y with
  | One a, One b => One (a ++ b)
  | Col c, One b => Col (col_map (fun a => a ++ b) c)
  | One a, Col c => Col (col_map (fun b => a ++ b) c)
  | Col c, Col c' =>
      Col {| cindex := cindex c;
             cdata := zip_with String.append (cdata c) (cdata c') |}
  end.

(** *** Calendar fields of a wall-clock reading in nanoseconds *)

Definition year_of (w : Z) : Z :=
  let '(y, _, _) := civil_from_days (w / ns_per_day) in y.
Definition month_of (w : Z) : Z :=
  let '(_, m, _) := civil_from_days (w / ns_per_day) in m.
Definition day_of (w : Z) : Z :=
  let '(_, _, d) := civil_from_days (w / ns_per_day) in d.
Definition hour_of (w : Z) : Z := (w mod ns_per_day) / ns_per_hour.
Definition minute_of (w : Z) : Z := ((w mod ns_per_day) / ns_per_min) mod 60.
Definition second_of (w : Z) : Z := ((w mod ns_per_day) / ns_per_s) mod 60.
Definition microsecond_of (w : Z) : Z :=
  ((w mod ns_per_day) / ns_per_us) mod 1000000.
Definition dayofweek_of (w : Z) : Z := weekday_of_days (w / ns_per_day).

(** *** Parsing the date strings the module builds

    [pd.to_datetime] on a string, for the ISO 8601 shapes that occur:
    [YYYY-MM-DD], optionally followed by a blank or [T] and [hh:mm:ss],
    optionally followed by a point and one to nine digits. *)

Definition read_digits (width : nat) (s : string) : option (Z * string) :=
  let (ds, rest) := span_digits s in
  if (String.length ds =? width)%nat
  then match digits_value ds with
       | Some n => Some (n, rest)
       | None => None
       end
  else None.

Definition read_char (c : ascii) (s : string) : option string :=
  match s with
  | String c' r => if Ascii.eqb c c' then Some r else None
  | "" => None
  end.

(** The digits after the point, scaled to nanoseconds. *)
Definition read_fraction (s : string) : option (Z * string) :=
  let (ds, rest) := span_digits s in
  let n := String.length ds in
  if (1 <=? n)%nat && (n <=? 9)%nat
  then match digits_value ds with
       | Some f => Some (f * 10 ^ Z.of_nat (9 - n), rest)
       | None => None
       end
  else None.

Record fields : Type := {
  f_year : Z; f_month : Z; f_day : Z;
  f_hour : Z; f_minute : Z; f_second : Z;
  f_nanos : Z
}.

Definition parse_time (y m d : Z) (s : string) : option fields :=
  match read_digits 2 s with
  | Some (hh, s1) =>
    match read_char ":" s1 with
    | Some s2 =>
      match read_digits 2 s2 with
      | Some (mi, s3) =>
        match read_char ":" s3 with
        | Some s4 =>
          match read_digits 2 s4 with
          | Some (ss, s5) =>
            match s5 with
            | "" => Some {| f_year := y; f_month := m; f_day := d;
                            f_hour := hh; f_minute := mi; f_second := ss;
                            f_nanos := 0 |}
            | String c s6 =>
                if Ascii.eqb c "."
                then match read_fraction s6 with
                     | Some (f, "") =>
                         Some {| f_year := y; f_month := m; f_day := d;
                                 f_hour := hh; f_minute := mi; f_second := ss;
                                 f_nanos := f |}
                     | _ => None
                     end
                else None
            end
          | None => None
          end
        | None => None
        end
      | None => None
      end
    | None => None
    end
  | None => None
  end.

Definition parse_iso8601 (s : string) : option fields :=
  match read_digits 4 s with
  | Some (y, s1) =>
    match read_char "-" s1 with
    | Some s2 =>
      match read_digits 2 s2 with
      | Some (m, s3) =>
        match read_char "-" s3 with
        | Some s4 =>
          match read_digits 2 s4 with
          | Some (d, s5) =>
            match s5 with
            | "" => Some {| f_year := y; f_month := m; f_day := d;
                            f_hour := 0; f_minute := 0; f_second := 0;
                            f_nanos := 0 |}
            | String c s6 =>
                if Ascii.eqb c " " || Ascii.eqb c "T"
                then parse_time y m d s6
                else None
            end
          | None => None
          end
        | None => None
        end
      | None => None
      end
    | None => None
    end
  | None => None
  end.

Definition valid_fields (f : fields) : bool :=
  (1 <=? f_year f) &&
  (1 <=? f_month f) && (f_month f <=? 12) &&
  (1 <=? f_day f) && (f_day f <=? days_in_month (f_year f) (f_month f)) &&
  (f_hour f <? 24) && (f_minute f <? 60) && (f_second f <? 60).

Definition value_of_fields (f : fields) : Z :=
  days_from_civil (f_year f) (f_month f) (f_day f) * ns_per_day
  + f_hour f * ns_per_hour + f_minute f * ns_per_min
  + f_second f * ns_per_s + f_nanos f.

Definition Timestamp_min : Z := - (2 ^ 63 - 1).
Definition Timestamp_max : Z := 2 ^ 63 - 1.

(** [pd.to_datetime(s)] for one string: a naive [pd.Timestamp]. *)
Definition to_datetime_str (s : string) : result Timestamp :=
  match parse_iso8601 s with
  | None => Raise ValueError ("Unknown datetime string format: " ++ s)
  | Some f =>
      if valid_fields f
      then let v := value_of_fields f in
           if (Timestamp_min <=? v) && (v <=? Timestamp_max)
           then Ok {| value := v; tz := None |}
           else Raise OutOfBoundsDatetime
                  ("Out of bounds nanosecond timestamp: " ++ s)
      else Raise ValueError ("value out of range: " ++ s)
  end.

(** [pd.to_datetime(x)] where [x] is a string or a column of strings. *)
Definition to_datetime (x : Broadcast string) : result Date :=
  match x with
  | One s => t <- to_datetime_str s ;; Ok (DTimestamp t)
  | Col c =>
      vs <- mapM (fun s => t <- to_datetime_str s ;; Ok (value t)) (cdata c) ;;
      Ok (DArray {| index := cindex c; i8 := vs; dtype_tz := None |})
  end.

(** [pd.to_timedelta(c, 'D')]: whole days as nanoseconds. *)
Definition to_timedelta_D (c : Column Z) : Column Z :=
  col_map (fun n => n * ns_per_day) c.

(** [t + c] for a timestamp [t] and a column [c] of timedeltas. *)
Definition Timestamp_add (t : Timestamp) (c : Column Z) : Date :=
  DArray {| index := cindex c;
            i8 := map (fun d => value t + d) (cdata c);
            dtype_tz := tz t |}.

(** [pd.DatetimeIndex([t])]. *)
Definition DatetimeIndex (l : list Timestamp) : DatetimeArray :=
  {| index := None;
     i8 := map value l;
     dtype_tz := match l with t :: _ => tz t | [] => None end |}.

Fixpoint RangeIndex (start : Z) (n : nat) : list Z :=
  match n with
  | O => []
  | S n' => start :: RangeIndex (start + 1) n'
  end.

(** [pd.Series(x)]. *)
Definition Series (x : Date) : Date :=
  match x with
  | DTimestamp t =>
      DArray {| index := Some [0]; i8 := [value t]; dtype_tz := tz t |}
  | DArray a =>
      match index a with
      | Some _ => DArray a
      | None =>
          DArray {| index := Some (RangeIndex 0 (List.length (i8 a)));
                    i8 := i8 a; dtype_tz := dtype_tz a |}
      end
  end.

Fixpoint lookup_label (k : Z) (labels vs : list Z) : option Z :=
  match labels, vs with
  | l :: labels', v :: vs' => if l =? k then Some v else lookup_label k labels' vs'
  | _, _ => None
  end.

(** [x[0]]. *)
Definition getitem0 (x : Date) : result Date :=
  match x with
  | DTimestamp _ => Raise TypeError "'Timestamp' object is not subscriptable"
  | DArray a =>
      match index a with
      | None =>
          match i8 a with
          | v :: _ => Ok (DTimestamp {| value := v; tz := dtype_tz a |})
          | [] => Raise IndexError "index 0 is out of bounds for axis 0 with size 0"
          end
      | Some labels =>
          match lookup_label 0 labels (i8 a) with
          | Some v => Ok (DTimestamp {| value := v; tz := dtype_tz a |})
          | None => Raise KeyError "0"
          end
      end
  end.

(** *** Floats

    A float is the rational it denotes; every operation rounds to
    binary64. *)

(** C's cast of a double to [int64]: toward zero. *)
Definition trunc (q : Q) : Z :=
  if Qle_bool 0 q then Qfloor q else Qceiling q.

Definition round_half_even (q : Q) : Z :=
  let f := Qfloor q in
  match Qcompare (q - inject_Z f) (1 # 2) with
  | Lt => f
  | Gt => f + 1
  | Eq => if Z.even f then f else f + 1
  end.

(** [q] rounded to [ndigits] decimal places, in exact arithmetic. *)
Definition round (q : Q) (ndigits : Z) : Q :=
  (inject_Z (round_half_even (q * inject_Z (10 ^ ndigits)))
   / inject_Z (10 ^ ndigits))%Q.

(** [2 ^ e] for an exponent of either sign. *)
Definition pow2 (e : Z) : Q := Qpower 2 e.

(** The exponent of the leading bit of [q], for [q] other than zero:
    [2 ^ ilog2 q <= |q| < 2 ^ (ilog2 q + 1)]. *)
Definition ilog2 (q : Q) : Z :=
  let l := Z.log2 (Z.abs (Qnum q)) - Z.log2 (Zpos (Qden q)) in
  if Qle_bool (pow2 l) (Qabs q) then l else l - 1.

(** The binary64 number nearest to [q], ties to even: 53 significant
    bits. *)
Definition fl (q : Q) : Q :=
  if Qeq_bool q 0 then 0%Q
  else
    let e := ilog2 q - 52 in
    Qred (inject_Z (round_half_even (q / pow2 e)) * pow2 e)%Q.

(** [float(z)], and [*], [/] and [-] on floats. *)
Definition float_of_int (z : Z) : Q := fl (inject_Z z).
Definition fmul (x y : Q) : Q := fl (x * y).
Definition fdiv (x y : Q) : Q := fl (x / y).
Definition fsub (x y : Q) : Q := fl (x - y).

(** Python's [round(x, ndigits)] on a float: the float nearest to the
    decimal rounding of the exact value of [x]. *)
Definition float_round (x : Q) (ndigits : Z) : Q := fl (round x ndigits).

(** [Timestamp.timestamp()]: [round(value / 1e9, 6)], POSIX seconds to the
    microsecond. *)
Definition timestamp (t : Timestamp) : Q :=
  float_round (fdiv (float_of_int (value t)) (inject_Z ns_per_s)) 6.

(** pandas' conversion of a float in milliseconds to nanoseconds: whole
    part and fraction are scaled separately, [base = int(ts)],
    [frac = round(ts - base, 6)], [int(base * m) + int(frac * m)]. *)
Definition cast_from_unit_ms (ts : Q) : Z :=
  let base := trunc ts in
  let frac := float_round (fsub ts (float_of_int base)) 6 in
  trunc (inject_Z base * inject_Z ns_per_ms)%Q
  + trunc (fmul frac (inject_Z ns_per_ms)).

(** [pd.to_datetime(x, unit='ms')]. *)
Definition to_datetime_ms (x : Number) : Date :=
  match x with
  | Num q => DTimestamp {| value := cast_from_unit_ms q; tz := None |}
  | NumArray l =>
      DArray {| index := None; i8 := map cast_from_unit_ms l; dtype_tz := None |}
  end.

(** *** Operations that consult the local zone *)

Section LocalZone.

Variable local : zone.

(** Offset in force at UTC instant [v] in the zone of the tag. *)
Definition offset_at (z : option tzinfo) (v : Z) : Z :=
  match z with
  | Some tzlocal => utcoffset local v * ns_per_s
  | Some UTC => 0
  | None => 0
  end.

(** Offset chosen for the wall-clock reading [w] when it is localised. *)
Definition offset_of_wall (z : tzinfo) (w : Z) : Z :=
  match z with
  | tzlocal => wall_utcoffset local w * ns_per_s
  | UTC => 0
  end.

(** The wall-clock reading pandas derives every field from. *)
Definition wall (z : option tzinfo) (v : Z) : Z := v + offset_at z v.

Definition localize (z : tzinfo) (w : Z) : Z := w - offset_of_wall z w.

(** [date.tz_localize(z)], also [date.dt.tz_localize(z)]. *)
Definition tz_localize (d : Date) (z : option tzinfo) : result Date :=
  match z with
  | Some z' =>
      match tz_of d with
      | Some _ =>
          Raise TypeError "Already tz-aware, use tz_convert to convert."
      | None =>
          match d with
          | DTimestamp t =>
              Ok (DTimestamp {| value := localize z' (value t); tz := Some z' |})
          | DArray a =>
              Ok (DArray {| index := index a;
                            i8 := map (localize z') (i8 a);
                            dtype_tz := Some z' |})
          end
      end
  | None =>
      match d with
      | DTimestamp t =>
          Ok (DTimestamp {| value := wall (tz t) (value t); tz := None |})
      | DArray a =>
          Ok (DArray {| index := index a;
                        i8 := map (wall (dtype_tz a)) (i8 a);
                        dtype_tz := None |})
      end
  end.

(** [date.tz_convert(z)], also [date.dt.tz_convert(z)]. *)
Definition tz_convert (d : Date) (z : tzinfo) : result Date :=
  match tz_of d with
  | None =>
      Raise TypeError
        "Cannot convert tz-naive timestamps, use tz_localize to localize"
  | Some _ =>
      match d with
      | DTimestamp t => Ok (DTimestamp {| value := value t; tz := Some z |})
      | DArray a =>
          Ok (DArray {| index := index a; i8 := i8 a; dtype_tz := Some z |})
      end
  end.

(** Field accessors of a [DatetimeIndex] or of [Series.dt]. *)
Definition accessor {A : Type} (f : Z -> A) (a : DatetimeArray) : Column A :=
  {| cindex := index a; cdata := map (fun v => f (wall (dtype_tz a) v)) (i8 a) |}.

Definition year := accessor year_of.
Definition month := accessor month_of.
Definition day := accessor day_of.
Definition hour := accessor hour_of.
Definition minute := accessor minute_of.
Definition second := accessor second_of.
Definition microsecond := accessor microsecond_of.
Definition dayofweek := accessor dayofweek_of.

End LocalZone.

End pd.

(* ================================================================== *)
(** ** The regular expression of the module

    [_timeunit_regex] is [^(?P<utc>utc)?(?P<year>year)?...$]: a sequence of
    optional named groups, each a literal.  An optional group is greedy: the
    matcher first tries to consume the literal and backtracks to the empty
    alternative when the rest fails.  The final [$] matches at the end of
    the string and also just before a newline that ends the string.
    [regex_match] returns the [groupdict()] of the match. *)

Module re.

Import Str.

Definition newline : string := String "010" "".

(** What [$] accepts. *)
Definition at_end (s : string) : bool :=
  String.eqb s "" || String.eqb s newline.

Fixpoint regex_match (names : list string) (s : string)
  : option (list (string * option string)) :=
  match names with
  | [] => if at_end s then Some [] else None
  | n :: names' =>
      let skip := option_map (cons (n, None)) (regex_match names' s) in
      match strip_prefix n s with
      | Some rest =>
          match regex_match names' rest with
          | Some g => Some ((n, Some n) :: g)
          | None => skip
          end
      | None => skip
      end
  end.

End re.

(* ================================================================== *)
(** ** The module itself *)

Import pd.

Definition mem (k : string) (units : list string) : bool :=
  existsb (String.eqb k) units.

Definition _simple_timeunits : list string :=
  ["utc"; "year"; "quarter"; "month"; "day"; "date";
   "hours"; "minutes"; "seconds"; "milliseconds"].

Definition _timeunit_regex (s : string) : option (list (string * option string)) :=
  re.regex_match _simple_timeunits s.

(** Python truthiness of a group's value. *)
Definition truthy (v : option string) : bool :=
  match v with
  | Some s => negb (String.eqb s "")
  | None => false
  end.

(** The set of timeunit keys in a specification string; the set is kept as
    the list of its members. *)
Definition _parse_timeunit_string (timeunit : string) : result (list string) :=
  match _timeunit_regex timeunit with
  | None => Raise ValueError ("Unrecognized timeUnit: " ++ repr timeunit)
  | Some groupdict =>
      Ok (map fst (filter (fun kv => truthy (snd kv)) groupdict))
  end.

Definition quarter (month : Z) : Z := month - (month - 1) mod 3.

(** [c.astype(str)]. *)
Definition astype_str (c : Column Z) : Column string := col_map Str.str c.

(** [c.str.zfill(width)]. *)
Definition str_zfill (width : nat) (c : Column string) : Column string :=
  col_map (Str.zfill width) c.

Infix "+s" := add (at level 50, left associativity).

Section timeunit.

(** The zone [tzlocal()] returns. *)
Variable local : zone.

Definition date_to_timestamp (date : Date) : result Number :=
  if isinstance_Series date
  then Raise AttributeError "'Series' object has no attribute 'tzinfo'"
  else
    date <- match tz_of date with
            | None => tz_localize local date (Some tzlocal)
            | Some _ => Ok date
            end ;;
    match date with
    | DTimestamp t => Ok (Num (fmul (timestamp t) (inject_Z 1000)))
    | DArray a =>
        Ok (NumArray (map (fun v => fmul (float_of_int v) (fl (1 # 1000000)))
                          (i8 a)))
    end.

Definition timestamp_to_date (timestamp : Number) (tz utc : bool)
  : result Date :=
  dates <- tz_localize local (to_datetime_ms timestamp) (Some UTC) ;;
  if utc then Ok dates
  else if tz then tz_convert dates tzlocal
  else d <- tz_convert dates tzlocal ;; tz_localize local d None.

(** Workhorse for [compute_timeunit]. *)
Definition _compute_timeunit (name : string) (date : DatetimeArray)
  : result Date :=
  if existsb (String.eqb name) ["day"; "utcday"]
  then
    anchor <- to_datetime_str "2006-01-01" ;;
    Ok (Timestamp_add anchor
          (to_timedelta_D
             (col_map (fun d => (d + 1) mod 7) (dayofweek local date))))
  else
    units <- _parse_timeunit_string name ;;
    if mem "day" units
    then Raise NotImplementedError "quarter and day timeunit"
    else
      match units with
      | [] => Raise ValueError "0 is not a recognized timeunit"
      | _ =>
        let Y := if mem "year" units
                 then Col (astype_str (year local date))
                 else One "1900" in
        let M := if mem "month" units
                 then Col (str_zfill 2 (astype_str (month local date)))
                 else if mem "quarter" units
                 then Col (str_zfill 2
                             (astype_str (col_map quarter (month local date))))
                 else One "01" in
        let D := if mem "date" units
                 then Col (str_zfill 2 (astype_str (day local date)))
                 else One "01" in
        let h := if mem "hours" units
                 then Col (str_zfill 2 (astype_str (hour local date)))
                 else One "00" in
        let m := if mem "minutes" units
                 then Col (str_zfill 2 (astype_str (minute local date)))
                 else One "00" in
        let s := if mem "seconds" units
                 then Col (str_zfill 2 (astype_str (second local date)))
                 else One "00" in
        let ms := if mem "milliseconds" units
                  then Col (str_zfill 3
                              (astype_str
                                 (col_map (fun us => us / 1000)
                                    (microsecond local date))))
                  else One "00" in
        to_datetime (Y +s One "-" +s M +s One "-" +s D +s One " " +s
                     h +s One ":" +s m +s One ":" +s s +s One "." +s ms)
      end.

(** [date.dt if isinstance(date, pd.Series) else date]: a [DatetimeArray]
    with labels stands for the series and for its [.dt] accessor alike. *)
Definition dt (date : Date) : Date := date.

(** Evaluate a timeUnit transform. *)
Definition compute_timeunit (date : Date) (timeunit : string) : result Date :=
  date <- match tz_of (dt date) with
          | None => tz_localize local (dt date) (Some tzlocal)
          | Some _ => Ok date
          end ;;
  let timezone := if Str.startswith timeunit "utc" then UTC else tzlocal in
  date <- tz_convert (dt date) timezone ;;
  match date with
  | DArray a =>
      if isinstance_Series date
      then r <- _compute_timeunit timeunit a ;; Ok (Series r)
      else _compute_timeunit timeunit a
  | DTimestamp t =>
      r <- _compute_timeunit timeunit (DatetimeIndex [t]) ;; getitem0 r
  end.

End timeunit.

(* ================================================================== *)
(** ** Vocabulary of the properties *)

Section Vocabulary.

Variable local : zone.

(** [timestamp_to_date(date_to_timestamp(T))] with the default arguments. *)
Definition roundtrip (T : Timestamp) : result Date :=
  n <- date_to_timestamp local (DTimestamp T) ;;
  timestamp_to_date local n false false.

(** The sub-millisecond part of [T] is zero. *)
Definition ms_resolution (T : Timestamp) : Prop :=
  value T mod ns_per_ms = 0.

(** The UTC instant a timestamp stands for when it is consumed: a naive
    one is read as local time. *)
Definition instant (T : Timestamp) : Z :=
  match tz T with
  | None => localize local tzlocal (value T)
  | Some _ => value T
  end.

(** The wall-clock reading of [T] and its UTC instant determine each other
    in the local zone (the reading is neither skipped nor repeated by a
    transition): localising the reading and reading the local clock at the
    instant are inverse at [T]. *)
Definition regular_at (T : Timestamp) : Prop :=
  match tz T with
  | None =>
      wall local (Some tzlocal) (localize local tzlocal (value T)) = value T
  | Some _ =>
      localize local tzlocal (wall local (Some tzlocal) (value T)) = value T
  end.

(** The wall-clock reading of [T] in the local zone; a naive [T] is one. *)
Definition local_reading (T : Timestamp) : Z :=
  match tz T with
  | None => value T
  | Some _ => wall local (Some tzlocal) (value T)
  end.

(** The instant of [T] and its local reading are values of
    [pd.Timestamp], a millisecond or more inside its range. *)
Definition in_range (T : Timestamp) : Prop :=
  Timestamp_min + ns_per_ms <= instant T <= Timestamp_max - ns_per_ms /\
  Timestamp_min + ns_per_ms <= local_reading T <= Timestamp_max - ns_per_ms.

(** No transition of the local zone within a millisecond of the instant of
    [T]: the offset in force is the same all around it. *)
Definition steady_at (T : Timestamp) : Prop :=
  forall u, Z.abs (u - instant T) < ns_per_ms ->
            utcoffset local u = utcoffset local (instant T).

End Vocabulary.

(** The instant that comes back when the instant [u] is converted to
    float milliseconds and these to a timestamp again. *)
Definition returned_instant (u : Z) : Z :=
  cast_from_unit_ms
    (fmul (timestamp {| value := u; tz := Some UTC |}) (inject_Z 1000)).

(** The naive reading 2004-03-09 05:31:00.548. *)
Definition march_2004 : Timestamp :=
  {| value := 1078810260548000000; tz := None |}.

(** A zone whose clocks move from offset [std] to offset [dst] at the UTC
    instant [transition]; a wall-clock reading is resolved with the offset
    in force when the reading is taken as standard time. *)
Definition spring_forward (std dst transition : Z) : zone :=
  {| utcoffset := fun u => if u <? transition then std else dst;
     wall_utcoffset := fun w => if w - std * ns_per_s <? transition then std else dst |}.

(** US Eastern time around 2021-03-14T07:00:00Z, when clocks went from
    02:00 EST to 03:00 EDT. *)
Definition us_eastern_spring_2021 : zone :=
  spring_forward (-5 * 3600) (-4 * 3600) (1615705200 * ns_per_s).

(** Cuban time around 2021-03-14T05:00:00Z, when clocks went from 00:00 CST
    to 01:00 CDT. *)
Definition havana_spring_2021 : zone :=
  spring_forward (-5 * 3600) (-4 * 3600) (1615698000 * ns_per_s).

(** The naive reading 2021-03-14 02:30:00, which no Eastern clock showed. *)
Definition skipped_reading : Timestamp :=
  {| value := 1615689000 * ns_per_s; tz := None |}.

Section Normalisation.

Variable local : zone.

(** The zone [compute_timeunit] re-expresses its argument in. *)
Definition timezone_of (timeunit : string) : tzinfo :=
  if Str.startswith timeunit "utc" then UTC else tzlocal.

(** The UTC value of a stored value under its tag: a naive value is
    localised first. *)
Definition utc_value (z : option tzinfo) (v : Z) : Z :=
  match z with
  | None => localize local tzlocal v
  | Some _ => v
  end.

(** The argument of [_compute_timeunit]: what the first three statements of
    [compute_timeunit] make of an array. *)
Definition normalize (timeunit : string) (a : DatetimeArray) : DatetimeArray :=
  {| index := index a;
     i8 := map (utc_value (dtype_tz a)) (i8 a);
     dtype_tz := Some (timezone_of timeunit) |}.

(** The wall-clock reading the fields of a timestamp are read from. *)
Definition reading (timeunit : string) (t : Timestamp) : Z :=
  wall local (Some (timezone_of timeunit)) (utc_value (tz t) (value t)).

(** [weekday_index] of a timestamp for the [day] timeunit: Monday is 0. *)
Definition weekday_index (t : Timestamp) : Z :=
  dayofweek_of (reading "day" t).

End Normalisation.

(** 2021-07-15T13:45:30.250 UTC. *)
Definition scenario_instant : Timestamp :=
  {| value := 1626356730250000000; tz := Some UTC |}.

(** 2021-01-01T00:00:00.000, without a zone and tagged UTC. *)
Definition new_year_2021 : Timestamp :=
  {| value := 1609459200000000000; tz := None |}.
Definition new_year_2021_utc : Timestamp :=
  {| value := 1609459200000000000; tz := Some UTC |}.

(** 1900-01-01T00:00:00.000, the bucket of the defaults. *)
Definition epoch_1900 : Timestamp :=
  {| value := -2208988800000000000; tz := None |}.

(** 2006-01-01T00:00:00, the anchor of the [day] timeunit. *)
Definition day_anchor : Timestamp :=
  {| value := 1136073600000000000; tz := None |}.

(** The [k]-th day after the anchor. *)
Definition anchor_plus (k : Z) : Timestamp :=
  {| value := value day_anchor + k * ns_per_day; tz := None |}.

(** The granularity tokens: every token but the zone selector [utc]. *)
Definition granularity_tokens : list string :=
  ["year"; "quarter"; "month"; "day"; "date";
   "hours"; "minutes"; "seconds"; "milliseconds"].

(** A spec written as a sequence of tokens, in any order. *)
Definition all_tokens (toks : list string) : bool :=
  forallb (fun t => mem t _simple_timeunits) toks.

(** [toks] holds a granularity token other than [day]. *)
Definition has_other_granularity (toks : list string) : bool :=
  existsb (fun t => mem t granularity_tokens && negb (String.eqb t "day")) toks.

(** Does [s] contain the letters [ay] next to each other?  [seen_a] tells
    whether the letter before [s] was an [a].  Among the tokens only [day]
    contains them, and no token ends in [a]. *)
Fixpoint contains_ay (seen_a : bool) (s : string) : bool :=
  match s with
  | "" => false
  | String c r =>
      (seen_a && Ascii.eqb c "y") || contains_ay (Ascii.eqb c "a") r
  end.

(** The groups that took part in a match. *)
Definition keys (g : list (string * option string)) : list string :=
  map fst (filter (fun kv => truthy (snd kv)) g).

Fixpoint all_digits (s : string) : bool :=
  match s with
  | "" => true
  | String c r => Str.is_digit c && all_digits r
  end.

(** [s] is empty or begins with a character that is not a digit. *)
Definition no_leading_digit (s : string) : bool :=
  match s with
  | "" => true
  | String c _ => negb (Str.is_digit c)
  end.

(** *** One reading at a time

    The numbers [_compute_timeunit] prints for a wall-clock reading [w],
    the string it assembles from them, and the value [pd.to_datetime] reads
    back. *)

Definition Y_of (units : list string) (w : Z) : Z :=
  if mem "year" units then year_of w else 1900.
Definition M_of (units : list string) (w : Z) : Z :=
  if mem "month" units then month_of w
  else if mem "quarter" units then quarter (month_of w) else 1.
Definition D_of (units : list string) (w : Z) : Z :=
  if mem "date" units then day_of w else 1.
Definition h_of (units : list string) (w : Z) : Z :=
  if mem "hours" units then hour_of w else 0.
Definition m_of (units : list string) (w : Z) : Z :=
  if mem "minutes" units then minute_of w else 0.
Definition s_of (units : list string) (w : Z) : Z :=
  if mem "seconds" units then second_of w else 0.
Definition ms_of (units : list string) (w : Z) : Z :=
  if mem "milliseconds" units then microsecond_of w / 1000 else 0.
Definition ms_width (units : list string) : nat :=
  if mem "milliseconds" units then 3%nat else 2%nat.

Definition render (units : list string) (w : Z) : string :=
  (Str.str (Y_of units w) ++ "-" ++
   Str.zfill 2 (Str.str (M_of units w)) ++ "-" ++
   Str.zfill 2 (Str.str (D_of units w)) ++ " " ++
   Str.zfill 2 (Str.str (h_of units w)) ++ ":" ++
   Str.zfill 2 (Str.str (m_of units w)) ++ ":" ++
   Str.zfill 2 (Str.str (s_of units w)) ++ "." ++
   Str.zfill (ms_width units) (Str.str (ms_of units w)))%string.

(** The bucket of one reading under a field set. *)
Definition stamp (units : list string) (w : Z) : result Z :=
  t <- to_datetime_str (render units w) ;; Ok (value t).

(** The bucket of one reading under [day]. *)
Definition day_bucket (w : Z) : Z :=
  value day_anchor + ((dayofweek_of w + 1) mod 7) * ns_per_day.

(** Does the field set select a calendar field? *)
Definition has_field (units : list string) : bool :=
  mem "year" units || mem "month" units || mem "quarter" units ||
  mem "date" units || mem "hours" units || mem "minutes" units ||
  mem "seconds" units || mem "milliseconds" units.

Section Readings.

Variable local : zone.

(** The wall-clock readings of the elements of an array. *)
Definition walls (a : DatetimeArray) : list Z :=
  map (wall local (dtype_tz a)) (i8 a).

(** A component of the date string: a column over the readings of [a] when
    its field is selected, a plain string otherwise. *)
Definition lift (a : DatetimeArray) (sel : bool) (f : Z -> string)
  : Broadcast string :=
  if sel
  then Col {| cindex := index a; cdata := map f (walls a) |}
  else One (f 0).

End Readings.

(** [f] does not depend on the reading unless its field is selected. *)
Definition constant_unless (sel : bool) (f : Z -> string) : Prop :=
  sel = false -> forall w, f w = f 0.

(** [x] is the component [lift a sel f]. *)
Definition Lifted (local : zone) (a : DatetimeArray) (x : Broadcast string)
  (sel : bool) (f : Z -> string) : Prop :=
  x = lift local a sel f /\ constant_unless sel f.

(** The local zone reads every naive value back unchanged in the calendar
    that [timeunit] selects: localising a reading and re-expressing it
    gives the reading. *)
Definition reads_back (local : zone) (timeunit : string) : Prop :=
  forall v, wall local (Some (timezone_of timeunit)) (localize local tzlocal v) = v.

(** The bucket of one wall-clock reading under a timeunit. *)
Definition bucket (timeunit : string) (w : Z) : result Z :=
  if existsb (String.eqb timeunit) ["day"; "utcday"]
  then Ok (day_bucket w)
  else units <- _parse_timeunit_string timeunit ;; stamp units w.

(* ================================================================== *)
(** ** Vocabulary of the further properties *)

(** [sel] selects some of the elements of [l], in their order. *)
Inductive selection {A : Type} : list A -> list A -> Prop :=
| sel_nil : selection [] []
| sel_take x s l : selection s l -> selection (x :: s) (x :: l)
| sel_skip x s l : selection s l -> selection s (x :: l).

(** All selections of [l]. *)
Fixpoint selections {A : Type} (l : list A) : list (list A) :=
  match l with
  | [] => [[]]
  | x :: l' => (map (cons x) (selections l') ++ selections l')%list
  end.

Fixpoint list_eqb (l l' : list string) : bool :=
  match l, l' with
  | [], [] => true
  | x :: t, y :: t' => String.eqb x y && list_eqb t t'
  | _, _ => false
  end.

(** Does the parser give back the selection [sel] on the string that
    spells it followed by [tail]? *)
Definition parses_back (tail : string) (sel : list string) : bool :=
  match _parse_timeunit_string (Str.join sel ++ tail) with
  | Ok units => list_eqb units sel
  | Raise _ _ => false
  end.

(** The calendar fields [_compute_timeunit] prints for a reading. *)
Definition fields_of (units : list string) (w : Z) : fields :=
  {| f_year := Y_of units w; f_month := M_of units w; f_day := D_of units w;
     f_hour := h_of units w; f_minute := m_of units w;
     f_second := s_of units w; f_nanos := ms_of units w * 1000000 |}.

(** The leap day cannot be written into the default year 1900: the reading
    is a 29 February and the field set prints month and day of the month
    without the year. *)
Definition leap_day_without_year (units : list string) (w : Z) : bool :=
  mem "month" units && mem "date" units && negb (mem "year" units) &&
  (month_of w =? 2) && (day_of w =? 29).

(** The 31st cannot be written into April: the reading is a 31 May and the
    field set prints the day of the month under the quarter's first month. *)
Definition may_31_in_quarter (units : list string) (w : Z) : bool :=
  mem "quarter" units && negb (mem "month" units) && mem "date" units &&
  (month_of w =? 5) && (day_of w =? 31).

(** The timeunit that keeps every field. *)
Definition full_timeunit : string :=
  "yearmonthdatehoursminutessecondsmilliseconds".

(** The stored values of a date. *)
Definition values_of (d : Date) : list Z :=
  match d with
  | DTimestamp t => [value t]
  | DArray a => i8 a
  end.

(** The labels of a date: [None] for a scalar and for a [DatetimeIndex]. *)
Definition labels_of (d : Date) : option (list Z) :=
  match d with
  | DTimestamp _ => None
  | DArray a => index a
  end.

Definition is_scalar (d : Date) : bool :=
  match d with
  | DTimestamp _ => true
  | DArray _ => false
  end.

(** How many numbers a [Number] holds. *)
Definition numbers_of (n : Number) : list Q :=
  match n with
  | Num q => [q]
  | NumArray l => l
  end.

Section FurtherReadings.

Variable local : zone.

(** The wall-clock readings [compute_timeunit] extracts the fields of its
    argument from, one for a scalar and one per element of a sequence. *)
Definition readings (timeunit : string) (x : Date) : list Z :=
  match x with
  | DTimestamp t => [reading local timeunit t]
  | DArray a =>
      map (fun v => wall local (Some (timezone_of timeunit))
                      (utc_value local (dtype_tz a) v)) (i8 a)
  end.

End FurtherReadings.

(** A naive date of the shape and labels of [x] holding the values [vs]. *)
Definition with_values (x : Date) (vs : list Z) : Date :=
  match x with
  | DTimestamp _ => DTimestamp {| value := hd 0 vs; tz := None |}
  | DArray a => DArray {| index := index a; i8 := vs; dtype_tz := None |}
  end.

(** The call raises an exception of class [c]. *)
Definition raises {A : Type} (r : result A) (c : exc_class) : Prop :=
  exists msg, r = Raise c msg.

(** One of the two days that the defaults cannot hold. *)
Definition unprintable (units : list string) (w : Z) : bool :=
  leap_day_without_year units w || may_31_in_quarter units w.

(** A printed year stays inside the range of [pd.Timestamp]. *)
Definition year_in_range (units : list string) (w : Z) : Prop :=
  mem "year" units = true -> 1678 <= year_of w <= 2261.


(** On the string that spells [sel] followed by [tail], the test
    [timeunit.startswith('utc')] agrees with the membership of [utc]. *)
Definition utc_consistent (tail : string) (sel : list string) : bool :=
  Bool.eqb (Str.startswith (Str.join sel ++ tail) "utc") (mem "utc" sel).

(** [timeunit] is some of the ten tokens in their canonical order, written
    out without separators and possibly followed by one newline. *)
Definition spelled (timeunit : string) : Prop :=
  exists sel, selection sel _simple_timeunits /\
              (timeunit = Str.join sel \/
               timeunit = (Str.join sel ++ re.newline)%string).

(** [compute_timeunit(timestamp_to_date(n, tz, utc), u)]. *)
Definition bucket_of_number (local : zone) (n : Number) (tz utc : bool)
  (timeunit : string) : result Date :=
  d <- timestamp_to_date local n tz utc ;; compute_timeunit local d timeunit.

(** Every instant is the reading of its own local wall-clock time: no
    reading is shown twice by the local clock. *)
Definition unambiguous (local : zone) : Prop :=
  forall v, localize local tzlocal (wall local (Some tzlocal) v) = v.

(** The timeunits that keep the date and the time of day down to some
    unit, with the length of that unit in nanoseconds. *)
Definition truncating_timeunits : list (string * Z) :=
  [("yearmonthdate", ns_per_day);
   ("yearmonthdatehours", ns_per_hour);
   ("yearmonthdatehoursminutes", ns_per_min);
   ("yearmonthdatehoursminutesseconds", ns_per_s);
   (full_timeunit, ns_per_ms);
   ("utcyearmonthdate", ns_per_day);
   ("utcyearmonthdatehours", ns_per_hour);
   ("utcyearmonthdatehoursminutes", ns_per_min);
   ("utcyearmonthdatehoursminutesseconds", ns_per_s);
   ("utcyearmonthdatehoursminutessecondsmilliseconds", ns_per_ms)].

(* ================================================================== *)
(** * Properties *)

(* ================================================================== *)
(** ** Strings *)

Lemma append_assoc (a b c : string) : ((a ++ b) ++ c = a ++ (b ++ c))%string.
Proof. induction a as [|x a IH]; cbn; [reflexivity | now rewrite IH]. Qed.

Lemma append_nil_r (a : string) : (a ++ "" = a)%string.
Proof. induction a as [|x a IH]; cbn; [reflexivity | now rewrite IH]. Qed.

Lemma length_append (a b : string) :
  String.length (a ++ b) = (String.length a + String.length b)%nat.
Proof. induction a as [|x a IH]; cbn; [reflexivity | now rewrite IH]. Qed.

Lemma strip_prefix_append p s rest :
  Str.strip_prefix p s = Some rest -> s = (p ++ rest)%string.
Proof.
  revert s. induction p as [|a p IH]; intros s H; cbn in *.
  - now injection H.
  - destruct s as [|b s]; [discriminate|].
    destruct (Ascii.eqb a b) eqn:E; [|discriminate].
    apply Ascii.eqb_eq in E. subst b. now rewrite (IH s H).
Qed.

(* ================================================================== *)
(** ** Rounding errors of the timestamp conversions *)

Section Rounding.

Local Open Scope Q_scope.

Lemma Qfloor_of_Z q z : q == inject_Z z -> Qfloor q = z.
Proof. intros H. rewrite H. apply Qfloor_Z. Qed.

Lemma trunc_of_Z q z : q == inject_Z z -> trunc q = z.
Proof.
  intros H. unfold trunc.
  rewrite (Qfloor_comp _ _ H), (Qceiling_comp _ _ H), Qfloor_Z, Qceiling_Z.
  destruct (Qle_bool 0 q); reflexivity.
Qed.

Lemma floor_between q :
  inject_Z (Qfloor q) <= q /\ q < inject_Z (Qfloor q) + 1.
Proof.
  split; [apply Qfloor_le|].
  pose proof (Qlt_floor q) as H. rewrite inject_Z_plus in H.
  change (inject_Z 1) with 1 in H. exact H.
Qed.

Lemma ceiling_between q :
  q <= inject_Z (Qceiling q) /\ inject_Z (Qceiling q) - 1 < q.
Proof.
  split; [apply Qle_ceiling|].
  pose proof (Qceiling_lt q) as H. unfold Z.sub in H.
  rewrite inject_Z_plus, inject_Z_opp in H.
  change (inject_Z 1) with 1 in H. exact H.
Qed.

(** A cast to [int64] moves a float by less than one. *)
Lemma trunc_between q :
  q - 1 < inject_Z (trunc q) /\ inject_Z (trunc q) < q + 1.
Proof.
  unfold trunc. destruct (floor_between q), (ceiling_between q).
  destruct (Qle_bool 0 q); split; lra.
Qed.

Lemma round_half_even_between q :
  q - (1 # 2) <= inject_Z (round_half_even q) /\
  inject_Z (round_half_even q) <= q + (1 # 2).
Proof.
  unfold round_half_even. destruct (floor_between q) as [H1 H2].
  set (f := Qfloor q) in *.
  destruct (Qcompare (q - inject_Z f) (1 # 2)) eqn:E.
  - apply Qeq_alt in E.
    destruct (Z.even f); [|rewrite inject_Z_plus; change (inject_Z 1) with 1];
      split; lra.
  - apply Qlt_alt in E. split; lra.
  - apply Qgt_alt in E. rewrite inject_Z_plus. change (inject_Z 1) with 1.
    split; lra.
Qed.

(** Rounding to six decimal places moves a number by at most half a
    millionth. *)
Lemma round_between q :
  q - (1 # 2000000) <= round q 6 /\ round q 6 <= q + (1 # 2000000).
Proof.
  unfold round. change (inject_Z (10 ^ 6)) with (1000000 # 1).
  destruct (round_half_even_between (q * (1000000 # 1))) as [H1 H2].
  set (m := inject_Z (round_half_even (q * (1000000 # 1)))) in *.
  assert (E : m / (1000000 # 1) == m * (1 # 1000000)) by (field; discriminate).
  rewrite E. split; lra.
Qed.

Lemma pow2_pos e : 0 < pow2 e.
Proof. apply Qpower_0_lt. reflexivity. Qed.

Lemma two_not_0 : ~ 2 == 0.
Proof. intros H. discriminate H. Qed.

Lemma pow2_add a b : pow2 (a + b) == pow2 a * pow2 b.
Proof. apply Qpower_plus, two_not_0. Qed.

Lemma pow2_Z n : (0 <= n)%Z -> pow2 n == inject_Z (2 ^ n).
Proof. intros H. symmetry. apply (Zpower_Qpower 2 n H). Qed.

Lemma Qdiv_le_cross a b c d :
  (0 < b)%Z -> (0 < d)%Z -> (a * d <= c * b)%Z ->
  inject_Z a / inject_Z b <= inject_Z c / inject_Z d.
Proof.
  intros Hb Hd H.
  assert (Hb' : 0 < inject_Z b) by (rewrite Zlt_Qlt in Hb; exact Hb).
  assert (Hd' : 0 < inject_Z d) by (rewrite Zlt_Qlt in Hd; exact Hd).
  apply Qle_shift_div_r; [exact Hb'|].
  assert (E : inject_Z c / inject_Z d * inject_Z b
              == inject_Z c * inject_Z b / inject_Z d)
    by (field; intros H0; rewrite H0 in Hd'; discriminate Hd').
  rewrite E. apply Qle_shift_div_l; [exact Hd'|].
  rewrite <- !inject_Z_mult. rewrite Zle_Qle in H. exact H.
Qed.

(** The leading bit is not above the number. *)
Lemma ilog2_le q : ~ q == 0 -> pow2 (ilog2 q) <= Qabs q.
Proof.
  intros Hq. unfold ilog2.
  set (n := Z.abs (Qnum q)). set (d := Zpos (Qden q)).
  destruct (Qle_bool (pow2 (Z.log2 n - Z.log2 d)) (Qabs q)) eqn:E.
  - now apply Qle_bool_iff.
  - clear E.
    assert (Hn : (0 < n)%Z).
    { subst n. destruct q as [[|p|p] dq]; cbn; try lia.
      destruct Hq. reflexivity. }
    assert (Hd : (0 < d)%Z) by (subst d; lia).
    destruct (Z.log2_spec n Hn) as [Hn1 _].
    destruct (Z.log2_spec d Hd) as [_ Hd2].
    pose proof (Z.log2_nonneg n) as Ln. pose proof (Z.log2_nonneg d) as Ld.
    replace (Z.log2 n - Z.log2 d - 1)%Z
      with (Z.log2 n - Z.succ (Z.log2 d))%Z by lia.
    unfold pow2. rewrite (Qpower_minus 2 _ _ two_not_0).
    fold (pow2 (Z.log2 n)). fold (pow2 (Z.succ (Z.log2 d))).
    rewrite (pow2_Z (Z.log2 n)) by lia.
    rewrite (pow2_Z (Z.succ (Z.log2 d))) by lia.
    assert (Ea : Qabs q == inject_Z n / inject_Z d).
    { subst n d. destruct q as [qn qd]. cbn [Qabs Qnum Qden].
      apply Qmake_Qdiv. }
    rewrite Ea. apply Qdiv_le_cross; [lia | exact Hd |].
    assert (0 < 2 ^ Z.log2 n)%Z by (apply Z.pow_pos_nonneg; lia).
    nia.
Qed.

(** The relative error of a rounding is at most [2 ^ -53]: on a number
    bounded by [M] the float is within [M * 2 ^ -53] of it. *)
Lemma fl_between q M :
  - M <= q <= M ->
  q - M * (1 # 9007199254740992) <= fl q /\
  fl q <= q + M * (1 # 9007199254740992).
Proof.
  intros HM. unfold fl. destruct (Qeq_bool q 0) eqn:E.
  - apply Qeq_bool_iff in E. split; lra.
  - assert (Hq : ~ q == 0).
    { intros H. apply Qeq_bool_iff in H. congruence. }
    set (e := (ilog2 q - 52)%Z). rewrite Qred_correct.
    pose proof (pow2_pos e) as HP. pose proof (ilog2_le q Hq) as HL.
    assert (E2 : pow2 (ilog2 q) == pow2 e * (4503599627370496 # 1)).
    { replace (ilog2 q) with (e + 52)%Z at 1 by (subst e; lia).
      rewrite pow2_add. apply Qmult_comp; [reflexivity|].
      vm_compute. reflexivity. }
    destruct (round_half_even_between (q / pow2 e)) as [R1 R2].
    set (m := inject_Z (round_half_even (q / pow2 e))) in *.
    assert (Ex : q == (q / pow2 e) * pow2 e) by (field; intros H0; lra).
    set (x := q / pow2 e) in *. set (P := pow2 e) in *.
    assert (U : m * P <= (x + (1 # 2)) * P)
      by (apply Qmult_le_compat_r; lra).
    assert (L : (x - (1 # 2)) * P <= m * P)
      by (apply Qmult_le_compat_r; lra).
    assert (HM' : P * (4503599627370496 # 1) <= M).
    { rewrite <- E2. apply Qle_trans with (Qabs q); [exact HL|].
      apply Qabs_Qle_condition. lra. }
    assert (A1 : (x + (1 # 2)) * P == x * P + (1 # 2) * P) by ring.
    assert (A2 : (x - (1 # 2)) * P == x * P - (1 # 2) * P) by ring.
    rewrite A1 in U. rewrite A2 in L. rewrite <- Ex in U, L.
    split; lra.
Qed.

(** Seconds as a float rounded to the microsecond, then milliseconds, then
    nanoseconds again: over the whole range of [int64] the roundings add up
    to less than six microseconds. *)
Lemma returned_instant_near u :
  (- 2 ^ 63 <= u <= 2 ^ 63)%Z -> (Z.abs (returned_instant u - u) < 6000)%Z.
Proof.
  intros Hv.
  unfold returned_instant, cast_from_unit_ms, timestamp, float_round, fdiv,
    fmul, fsub, float_of_int. cbn [value].
  assert (HV : - (9223372036854775808 # 1) <= inject_Z u
               /\ inject_Z u <= 9223372036854775808 # 1).
  { destruct Hv as [H1 H2]. rewrite Zle_Qle in H1, H2. split; assumption. }
  set (V := inject_Z u) in *.
  (* seconds *)
  destruct (fl_between V _ HV) as [a1 a2]. set (a := fl V) in *.
  assert (E1 : a / inject_Z ns_per_s == a * (1 # 1000000000))
    by reflexivity.
  set (x1 := a / inject_Z ns_per_s) in *.
  assert (B1 : - (9223372037 # 1) <= x1 <= 9223372037 # 1) by lra.
  destruct (fl_between x1 _ B1) as [b1 b2]. set (b := fl x1) in *.
  destruct (round_between b) as [c1 c2]. set (c0 := round b 6) in *.
  assert (B2 : - (9223372038 # 1) <= c0 <= 9223372038 # 1) by lra.
  destruct (fl_between c0 _ B2) as [d1 d2]. set (c := fl c0) in *.
  (* milliseconds *)
  change (inject_Z 1000) with (1000 # 1).
  set (x2 := c * (1000 # 1)) in *.
  assert (B3 : - (9223372039000 # 1) <= x2 <= 9223372039000 # 1)
    by (subst x2; lra).
  destruct (fl_between x2 _ B3) as [e1 e2]. set (ts := fl x2) in *.
  (* and back *)
  destruct (trunc_between ts) as [t1 t2]. set (base := trunc ts) in *.
  assert (B4 : - (9223372039002 # 1) <= inject_Z base <= 9223372039002 # 1)
    by (subst x2; lra).
  destruct (fl_between (inject_Z base) _ B4) as [f1 f2].
  set (fb := fl (inject_Z base)) in *.
  set (x3 := ts - fb) in *.
  assert (B5 : - (2 # 1) <= x3 <= 2 # 1) by (subst x3; lra).
  destruct (fl_between x3 _ B5) as [g1 g2]. set (f := fl x3) in *.
  destruct (round_between f) as [h1 h2]. set (g0 := round f 6) in *.
  assert (B6 : - (3 # 1) <= g0 <= 3 # 1) by lra.
  destruct (fl_between g0 _ B6) as [i1 i2]. set (g := fl g0) in *.
  change (inject_Z ns_per_ms) with (1000000 # 1).
  set (x4 := g * (1000000 # 1)) in *.
  assert (B7 : - (4000000 # 1) <= x4 <= 4000000 # 1) by (subst x4; lra).
  destruct (fl_between x4 _ B7) as [j1 j2]. set (h := fl x4) in *.
  destruct (trunc_between h) as [k1 k2]. set (n := trunc h) in *.
  rewrite (trunc_of_Z _ (base * 1000000))
    by (rewrite inject_Z_mult; reflexivity).
  assert (R : - (6000 # 1) < inject_Z (base * 1000000 + n - u)
              /\ inject_Z (base * 1000000 + n - u) < 6000 # 1).
  { unfold Z.sub. rewrite !inject_Z_plus, inject_Z_mult, inject_Z_opp.
    change (inject_Z 1000000) with (1000000 # 1). fold V.
    subst x2 x3 x4. split; lra. }
  destruct R as [R1 R2].
  change (- (6000 # 1)) with (inject_Z (- 6000)) in R1.
  change (6000 # 1) with (inject_Z 6000) in R2.
  rewrite <- Zlt_Qlt in R1, R2. lia.
Qed.

End Rounding.

(* ================================================================== *)
(** ** Round trip of the two conversions *)

(** The round trip returns the naive local reading of the instant that
    comes back from the instant of [T]. *)
Lemma roundtrip_value local T :
  roundtrip local T =
  Ok (DTimestamp
        {| value := wall local (Some tzlocal)
                      (returned_instant (instant local T));
           tz := None |}).
Proof.
  destruct T as [v [z|]];
    unfold roundtrip, date_to_timestamp, timestamp_to_date, instant,
      returned_instant;
    cbn -[timestamp cast_from_unit_ms fmul inject_Z wall localize];
    unfold localize at 1; cbn [offset_of_wall]; rewrite Z.sub_0_r;
    reflexivity.
Qed.

Lemma roundtrip_near local T :
  in_range local T -> regular_at local T -> steady_at local T ->
  exists r,
    roundtrip local T = Ok (DTimestamp r) /\
    tz r = None /\
    value r - local_reading local T
    = returned_instant (instant local T) - instant local T /\
    Z.abs (value r - local_reading local T) < 6000.
Proof.
  intros Hrange Hreg Hsteady. eexists. split; [apply roundtrip_value|].
  split; [reflexivity|]. cbn [value].
  assert (Hnear : Z.abs (returned_instant (instant local T) - instant local T)
                  < 6000).
  { apply returned_instant_near.
    unfold in_range, Timestamp_min, Timestamp_max, ns_per_ms in Hrange. lia. }
  assert (Hoff : utcoffset local (returned_instant (instant local T))
                 = utcoffset local (instant local T)).
  { apply Hsteady. unfold ns_per_ms. lia. }
  assert (E : wall local (Some tzlocal) (returned_instant (instant local T))
              - local_reading local T
              = returned_instant (instant local T) - instant local T).
  { unfold wall at 1. cbn [offset_at]. rewrite Hoff.
    unfold local_reading, regular_at, instant in *.
    destruct T as [v [z|]]; cbn [tz value] in *.
    - unfold wall. cbn [offset_at]. lia.
    - unfold wall in Hreg. cbn [offset_at] in Hreg. lia. }
  split; [exact E|]. rewrite E. exact Hnear.
Qed.

(** C1 (as amended).  For every timestamp [T], at millisecond resolution or
    not, that lies in the range of [pd.Timestamp], whose wall-clock reading
    and UTC instant determine each other in the local zone, and with no
    transition of the zone within a millisecond of it,
    [timestamp_to_date(date_to_timestamp(T))] with the default arguments is
    a naive timestamp within 1 ms of the local reading of [T], hence of a
    naive [T] itself: the difference is what the float roundings leave,
    less than 6 microseconds. *)
Theorem roundtrip_regular local T :
  in_range local T -> regular_at local T -> steady_at local T ->
  exists r,
    roundtrip local T = Ok (DTimestamp r) /\
    tz r = None /\
    Z.abs (value r - local_reading local T) < ns_per_ms /\
    Z.abs (value r - local_reading local T) < 6000 /\
    (tz T = None -> Z.abs (value r - value T) < ns_per_ms).
Proof.
  intros Hrange Hreg Hsteady.
  destruct (roundtrip_near local T Hrange Hreg Hsteady)
    as (r & Hr & Hn & _ & Hnear).
  exists r. split; [exact Hr|]. split; [exact Hn|].
  split; [unfold ns_per_ms; lia|]. split; [exact Hnear|].
  intros Hnaive. unfold local_reading in Hnear. rewrite Hnaive in Hnear.
  unfold ns_per_ms. lia.
Qed.

(** Every reading is regular in a zone without transitions. *)
Lemma fixed_offset_regular o T : regular_at (fixed_offset o) T.
Proof.
  unfold regular_at, wall, localize, offset_at, offset_of_wall.
  destruct T as [v [z|]]; cbn; lia.
Qed.

Lemma fixed_offset_steady o T : steady_at (fixed_offset o) T.
Proof. intros u _. reflexivity. Qed.

(** In a zone without transitions the round trip is within six
    microseconds for every timestamp in range. *)
Corollary roundtrip_fixed_offset o T :
  in_range (fixed_offset o) T ->
  exists r,
    roundtrip (fixed_offset o) T = Ok (DTimestamp r) /\
    tz r = None /\
    Z.abs (value r - local_reading (fixed_offset o) T) < 6000.
Proof.
  intros Hrange.
  destruct (roundtrip_near (fixed_offset o) T Hrange
              (fixed_offset_regular o T) (fixed_offset_steady o T))
    as (r & Hr & Hn & _ & Hnear).
  now exists r.
Qed.

Lemma roundtrip_regular_witness :
  exists r,
    roundtrip us_eastern_spring_2021
      {| value := 1626356730250000000; tz := None |} = Ok (DTimestamp r) /\
    tz r = None /\
    Z.abs (value r
           - local_reading us_eastern_spring_2021
               {| value := 1626356730250000000; tz := None |}) < ns_per_ms /\
    Z.abs (value r
           - local_reading us_eastern_spring_2021
               {| value := 1626356730250000000; tz := None |}) < 6000 /\
    (tz {| value := 1626356730250000000; tz := None |} = None ->
     Z.abs (value r - value {| value := 1626356730250000000; tz := None |})
     < ns_per_ms).
Proof.
  apply (roundtrip_regular us_eastern_spring_2021
           {| value := 1626356730250000000; tz := None |}).
  - vm_compute. repeat split; discriminate.
  - reflexivity.
  - intros u Hu. unfold ns_per_ms in Hu.
    change (instant us_eastern_spring_2021
              {| value := 1626356730250000000; tz := None |})
      with 1626371130250000000 in *.
    unfold us_eastern_spring_2021, spring_forward. cbn [utcoffset].
    change (1615705200 * ns_per_s) with 1615705200000000000.
    destruct (Z.ltb_spec u 1615705200000000000); [lia | reflexivity].
Defined.

(** C1 (as stated) fails twice.  Under US Eastern time the naive reading
    2021-03-14 02:30:00, which the clocks skipped, comes back as 01:30:00,
    an hour away.  In a zone without transitions the naive reading
    2004-03-09 05:31:00.548 comes back 122 nanoseconds later: its
    milliseconds are the float 1078810260548.0001220703125. *)
Lemma roundtrip_not_unchanged :
  (ms_resolution skipped_reading /\
   roundtrip us_eastern_spring_2021 skipped_reading
   = Ok (DTimestamp {| value := value skipped_reading - 3600 * ns_per_s;
                       tz := None |}) /\
   ~ (exists r, roundtrip us_eastern_spring_2021 skipped_reading
                = Ok (DTimestamp r) /\
                Z.abs (value r - value skipped_reading) < ns_per_ms)) /\
  (ms_resolution march_2004 /\
   date_to_timestamp (fixed_offset 0) (DTimestamp march_2004)
   = Ok (Num (8837613654409217 # 8192)) /\
   roundtrip (fixed_offset 0) march_2004
   = Ok (DTimestamp {| value := value march_2004 + 122; tz := None |}) /\
   ~ (exists r, roundtrip (fixed_offset 0) march_2004 = Ok (DTimestamp r) /\
                (tz march_2004 = None -> r = march_2004))).
Proof.
  assert (E1 : roundtrip us_eastern_spring_2021 skipped_reading
               = Ok (DTimestamp {| value := value skipped_reading - 3600 * ns_per_s;
                                   tz := None |}))
    by (vm_compute; reflexivity).
  assert (E2 : roundtrip (fixed_offset 0) march_2004
               = Ok (DTimestamp {| value := value march_2004 + 122; tz := None |}))
    by (vm_compute; reflexivity).
  split.
  - split; [reflexivity|]. split; [exact E1|].
    intros (r & Hr & Hnear). rewrite E1 in Hr. injection Hr as <-.
    vm_compute in Hnear. discriminate Hnear.
  - split; [reflexivity|]. split; [vm_compute; reflexivity|].
    split; [exact E2|].
    intros (r & Hr & Hsame). rewrite E2 in Hr. injection Hr as <-.
    specialize (Hsame eq_refl). discriminate Hsame.
Qed.

(* ================================================================== *)
(** ** The shape of [compute_timeunit] *)

Lemma compute_timeunit_array local a timeunit :
  compute_timeunit local (DArray a) timeunit =
  match index a with
  | Some _ =>
      r <- _compute_timeunit local timeunit (normalize local timeunit a) ;;
      Ok (Series r)
  | None => _compute_timeunit local timeunit (normalize local timeunit a)
  end.
Proof.
  unfold compute_timeunit, dt, normalize, timezone_of, utc_value.
  destruct a as [ix vs [z|]]; cbn [tz_of dtype_tz index i8 bind tz_localize tz_convert].
  - rewrite map_id. destruct ix; reflexivity.
  - destruct ix; reflexivity.
Qed.

Lemma compute_timeunit_scalar local t timeunit :
  compute_timeunit local (DTimestamp t) timeunit =
  r <- _compute_timeunit local timeunit
         (normalize local timeunit (DatetimeIndex [t])) ;;
  getitem0 r.
Proof.
  unfold compute_timeunit, dt, normalize, timezone_of, utc_value.
  destruct t as [v [z|]]; reflexivity.
Qed.

(** C9.  The scalar result is element 0 of the result on the one-element
    [DatetimeIndex]: [compute_timeunit(t, u)] is
    [compute_timeunit(pd.DatetimeIndex([t]), u)[0]], whether the call
    returns or raises. *)
Theorem scalar_is_element_0 local t u :
  compute_timeunit local (DTimestamp t) u =
  r <- compute_timeunit local (DArray (DatetimeIndex [t])) u ;; getitem0 r.
Proof.
  rewrite compute_timeunit_scalar, compute_timeunit_array. reflexivity.
Qed.

(* ================================================================== *)
(** ** Scenario B *)

Lemma scenario_instant_reads :
  to_datetime_str "2021-07-15 13:45:30.250"
  = Ok {| value := value scenario_instant; tz := None |} /\
  to_datetime_str "2021-01-01 00:00:00.000" = Ok new_year_2021.
Proof. split; vm_compute; reflexivity. Qed.

Lemma utcyear_of_scenario_instant local :
  compute_timeunit local (DTimestamp scenario_instant) "utcyear"
  = Ok (DTimestamp new_year_2021).
Proof. vm_compute. reflexivity. Qed.

(** C2 (as amended).  [compute_timeunit] applied to 2021-07-15T13:45:30.250
    tagged UTC with timeunit ["utcyear"] returns 2021-01-01T00:00:00.000 as a
    naive timestamp: the fields are read from the UTC calendar and the
    result carries no zone. *)
Theorem scenario_B_naive local :
  compute_timeunit local (DTimestamp scenario_instant) "utcyear"
  = Ok (DTimestamp new_year_2021) /\
  tz new_year_2021 = None.
Proof. split; [apply utcyear_of_scenario_instant | reflexivity]. Qed.

(** C2 (as stated) fails: the result is not tagged UTC, whatever the local
    zone. *)
Lemma scenario_B_not_tagged :
  ~ (exists local,
       compute_timeunit local (DTimestamp scenario_instant) "utcyear"
       = Ok (DTimestamp new_year_2021_utc)).
Proof.
  intros [local H]. rewrite utcyear_of_scenario_instant in H. discriminate H.
Qed.

(* ================================================================== *)
(** ** The bare [utc] timeunit *)

Lemma parse_utc : _parse_timeunit_string "utc" = Ok ["utc"].
Proof. reflexivity. Qed.

(** With no calendar field selected every component is a plain string, and
    so is their sum: [pd.to_datetime] returns one timestamp. *)
Lemma _compute_timeunit_utc local a :
  _compute_timeunit local "utc" a = Ok (DTimestamp epoch_1900).
Proof. vm_compute. reflexivity. Qed.

Lemma epoch_1900_reads :
  to_datetime_str "1900-01-01 00:00:00.000" = Ok epoch_1900.
Proof. vm_compute. reflexivity. Qed.

(** C10.  The spec string ["utc"] is accepted with field set [{utc}] and
    the workhorse returns the constant 1900-01-01T00:00:00.000 for every
    input; on a scalar timestamp [compute_timeunit] then subscripts that
    scalar and raises [TypeError] instead of returning it. *)
Theorem utc_alone_on_scalar local t :
  _parse_timeunit_string "utc" = Ok ["utc"] /\
  (forall a, _compute_timeunit local "utc" a = Ok (DTimestamp epoch_1900)) /\
  compute_timeunit local (DTimestamp t) "utc"
  = Raise TypeError "'Timestamp' object is not subscriptable".
Proof.
  split; [exact parse_utc|]. split; [apply _compute_timeunit_utc|].
  rewrite compute_timeunit_scalar, _compute_timeunit_utc. reflexivity.
Qed.

Lemma compute_timeunit_utc local a :
  compute_timeunit local (DArray a) "utc" =
  match index a with
  | None => Ok (DTimestamp epoch_1900)
  | Some _ =>
      Ok (DArray {| index := Some [0]; i8 := [value epoch_1900];
                    dtype_tz := None |})
  end.
Proof.
  rewrite compute_timeunit_array, _compute_timeunit_utc.
  destruct (index a); reflexivity.
Qed.

(** C7.  On the valid spec ["utc"] the shape of the input is lost: a
    [DatetimeIndex] of any length comes back as one scalar timestamp, and
    a [Series] of any length and labels as a [Series] of length one
    labelled 0; so it is for the two instants 2021-07-15T13:45:30.250 and
    2021-07-16T00:00:00 UTC, as an index and as a series labelled 5 and 7. *)
Theorem utc_alone_loses_shape local :
  (forall a,
     compute_timeunit local (DArray a) "utc" =
     match index a with
     | None => Ok (DTimestamp epoch_1900)
     | Some _ =>
         Ok (DArray {| index := Some [0]; i8 := [value epoch_1900];
                       dtype_tz := None |})
     end) /\
  compute_timeunit local
    (DArray {| index := None;
               i8 := [1626356730250000000; 1626393600000000000];
               dtype_tz := Some UTC |}) "utc"
  = Ok (DTimestamp epoch_1900) /\
  compute_timeunit local
    (DArray {| index := Some [5; 7];
               i8 := [1626356730250000000; 1626393600000000000];
               dtype_tz := Some UTC |}) "utc"
  = Ok (DArray {| index := Some [0]; i8 := [value epoch_1900];
                  dtype_tz := None |}).
Proof.
  split; [apply compute_timeunit_utc|].
  split; rewrite compute_timeunit_utc; reflexivity.
Qed.

(* ================================================================== *)
(** ** The [day] timeunit *)

Lemma day_anchor_reads : to_datetime_str "2006-01-01" = Ok day_anchor.
Proof. vm_compute. reflexivity. Qed.

Lemma _compute_timeunit_day local a :
  _compute_timeunit local "day" a =
  Ok (DArray {| index := index a;
                i8 := map (fun v => value day_anchor
                                    + ((dayofweek_of (wall local (dtype_tz a) v) + 1) mod 7)
                                      * ns_per_day) (i8 a);
                dtype_tz := None |}).
Proof.
  unfold _compute_timeunit. cbn [existsb String.eqb Ascii.eqb Bool.eqb orb].
  rewrite day_anchor_reads. cbn [bind].
  unfold Timestamp_add, to_timedelta_D, col_map, dayofweek, accessor.
  cbn [cindex cdata tz]. rewrite !map_map. reflexivity.
Qed.

Lemma compute_timeunit_day local x :
  compute_timeunit local (DTimestamp x) "day"
  = Ok (DTimestamp (anchor_plus ((weekday_index local x + 1) mod 7))).
Proof.
  rewrite compute_timeunit_scalar, _compute_timeunit_day.
  destruct x as [v z]. reflexivity.
Qed.

Lemma dayofweek_anchor_plus k :
  0 <= k < 7 -> dayofweek_of (value (anchor_plus k)) = (k + 6) mod 7.
Proof.
  intros Hk. unfold dayofweek_of, Calendar.weekday_of_days, anchor_plus.
  cbn [value]. unfold day_anchor, ns_per_day, ns_per_hour, ns_per_min, ns_per_s.
  cbn [value]. Z.div_mod_to_equations. lia.
Qed.

(** C4 (as amended).  [compute_timeunit(x, "day")] is the anchor 2006-01-01
    advanced by [(weekday_index(x) + 1) mod 7] days, with [weekday_index] 0
    for Monday; two timestamps on the same weekday give equal outputs; the
    seven outputs are the consecutive days 2006-01-01 to 2006-01-07; the
    anchor is a Sunday, and every output falls on the weekday of its
    input. *)
Theorem day_anchoring local :
  to_datetime_str "2006-01-01" = Ok day_anchor /\
  (forall x,
     compute_timeunit local (DTimestamp x) "day"
     = Ok (DTimestamp (anchor_plus ((weekday_index local x + 1) mod 7)))) /\
  (forall x1 x2,
     weekday_index local x1 = weekday_index local x2 ->
     compute_timeunit local (DTimestamp x1) "day"
     = compute_timeunit local (DTimestamp x2) "day") /\
  (forall x, 0 <= weekday_index local x < 7) /\
  (forall k, 0 <= k < 7 -> exists w, 0 <= w < 7 /\ (w + 1) mod 7 = k) /\
  dayofweek_of (value day_anchor) = 6 /\
  (forall x,
     dayofweek_of (value (anchor_plus ((weekday_index local x + 1) mod 7)))
     = weekday_index local x).
Proof.
  assert (Hrange : forall x, 0 <= weekday_index local x < 7).
  { intros x. unfold weekday_index, dayofweek_of, Calendar.weekday_of_days.
    apply Z.mod_pos_bound. lia. }
  split; [exact day_anchor_reads|].
  split; [apply compute_timeunit_day|].
  split; [intros x1 x2 H; rewrite !compute_timeunit_day, H; reflexivity|].
  split; [exact Hrange|].
  split; [intros k Hk; exists ((k + 6) mod 7); Z.div_mod_to_equations; lia|].
  split; [reflexivity|].
  intros x. specialize (Hrange x).
  rewrite dayofweek_anchor_plus by (apply Z.mod_pos_bound; lia).
  Z.div_mod_to_equations. lia.
Qed.

(** C4 (as stated) fails: the anchor the offsets are added to, 2006-01-01,
    is a Sunday (index 6), not a Monday (index 0); it is the output for a
    Sunday. *)
Lemma day_anchor_not_monday :
  to_datetime_str "2006-01-01" = Ok day_anchor /\
  dayofweek_of (value day_anchor) <> 0 /\
  (forall local x,
     weekday_index local x = 6 ->
     compute_timeunit local (DTimestamp x) "day" = Ok (DTimestamp day_anchor)).
Proof.
  split; [exact day_anchor_reads|]. split; [discriminate|].
  intros local x H. rewrite compute_timeunit_day, H. reflexivity.
Qed.

(* ================================================================== *)
(** ** The regular expression *)

Lemma at_end_spec s : re.at_end s = true -> s = "" \/ s = re.newline.
Proof.
  unfold re.at_end. intros H. apply orb_prop in H.
  destruct H as [H|H]; apply String.eqb_eq in H; auto.
Qed.

(** A match spells the string: it is the concatenation of the groups that
    took part, possibly followed by one newline, and these groups are
    among the names. *)
Lemma regex_match_sound names s g :
  re.regex_match names s = Some g ->
  (exists tail, re.at_end tail = true /\ s = (Str.join (keys g) ++ tail)%string) /\
  (forall k, In k (keys g) -> In k names).
Proof.
  revert s g. induction names as [|n names IH]; intros s g H; cbn [re.regex_match] in H.
  - destruct (re.at_end s) eqn:E; [|discriminate]. injection H as <-. split.
    + exists s. now split.
    + intros k [].
  - assert (Hskip : option_map (cons (n, None)) (re.regex_match names s) = Some g ->
                    (exists tail, re.at_end tail = true /\
                                  s = (Str.join (keys g) ++ tail)%string) /\
                    (forall k, In k (keys g) -> In k (n :: names))).
    { intros Hs. destruct (re.regex_match names s) as [g'|] eqn:E; [|discriminate].
      injection Hs as <-. destruct (IH s g' E) as [Hj Hin].
      split; [exact Hj|]. intros k Hk. right. now apply Hin. }
    destruct (Str.strip_prefix n s) as [rest|] eqn:Ep; [|now apply Hskip].
    destruct (re.regex_match names rest) as [g'|] eqn:E; [|now apply Hskip].
    injection H as <-. destruct (IH rest g' E) as [(tail & Ht & Hj) Hin].
    apply strip_prefix_append in Ep. unfold keys in *. cbn [filter snd truthy].
    destruct (String.eqb n "") eqn:En; cbn [negb map fst Str.join].
    + apply String.eqb_eq in En. subst n. cbn in Ep. subst s.
      split; [exists tail; now split|]. intros k Hk. right. now apply Hin.
    + split.
      * exists tail. split; [exact Ht|]. now rewrite append_assoc, <- Hj.
      * intros k [<-|Hk]; [now left | right; now apply Hin].
Qed.

Lemma parse_sound timeunit units :
  _parse_timeunit_string timeunit = Ok units ->
  (exists tail, re.at_end tail = true /\
                timeunit = (Str.join units ++ tail)%string) /\
  (forall k, In k units -> In k _simple_timeunits).
Proof.
  unfold _parse_timeunit_string, _timeunit_regex.
  destruct (re.regex_match _simple_timeunits timeunit) as [g|] eqn:E; [|discriminate].
  intros H. injection H as <-. exact (regex_match_sound _ _ _ E).
Qed.

Lemma mem_In k l : mem k l = true <-> In k l.
Proof.
  unfold mem. rewrite existsb_exists. split.
  - intros (x & Hx & E). apply String.eqb_eq in E. now subst.
  - intros H. exists k. split; [exact H | apply String.eqb_refl].
Qed.

(** Only [day] puts the letters [ay] into a spec. *)
Lemma contains_ay_join toks tail :
  (forall t, In t toks -> In t _simple_timeunits) ->
  contains_ay false (Str.join toks ++ tail)
  = mem "day" toks || contains_ay false tail.
Proof.
  induction toks as [|t toks IH]; intros Htok; [reflexivity|].
  assert (Ht : In t _simple_timeunits) by (apply Htok; now left).
  assert (IH' := IH (fun t' H => Htok t' (or_intror H))).
  cbn [Str.join mem existsb]. fold (mem "day" toks).
  rewrite append_assoc, <- orb_assoc, <- IH'.
  cbn in Ht.
  repeat (destruct Ht as [<-|Ht]; [reflexivity|]). destruct Ht.
Qed.

Lemma length_join_ge (t : string) toks :
  In t toks -> (String.length t <= String.length (Str.join toks))%nat.
Proof.
  induction toks as [|x toks IH]; intros H; [destruct H|].
  cbn [Str.join]. rewrite length_append. destruct H as [->|H]; [lia|].
  specialize (IH H). lia.
Qed.

Lemma length_join_two (a b : string) toks :
  In a toks -> In b toks -> a <> b ->
  (String.length a + String.length b <= String.length (Str.join toks))%nat.
Proof.
  induction toks as [|x toks IH]; intros Ha Hb Hab; [destruct Ha|].
  cbn [Str.join]. rewrite length_append.
  destruct Ha as [->|Ha], Hb as [->|Hb].
  - congruence.
  - pose proof (length_join_ge b toks Hb). lia.
  - pose proof (length_join_ge a toks Ha). lia.
  - specialize (IH Ha Hb Hab). lia.
Qed.

(** Whatever the data, the workhorse is reached: the zone handling at the
    head of [compute_timeunit] does not raise. *)
Lemma compute_timeunit_raise local date timeunit c msg :
  (forall a, _compute_timeunit local timeunit a = Raise c msg) ->
  compute_timeunit local date timeunit = Raise c msg.
Proof.
  intros H. destruct date as [t|a].
  - rewrite compute_timeunit_scalar, H. reflexivity.
  - rewrite compute_timeunit_array, !H. destruct (index a); reflexivity.
Qed.

(* ================================================================== *)
(** ** [day] together with another token *)

Lemma day_with_other_long toks :
  mem "day" toks = true -> has_other_granularity toks = true ->
  (7 <= String.length (Str.join toks))%nat.
Proof.
  intros Hd Ho. apply mem_In in Hd.
  unfold has_other_granularity in Ho. apply existsb_exists in Ho.
  destruct Ho as (t & Ht & Hg). apply andb_prop in Hg. destruct Hg as [Hg Hnd].
  apply negb_true_iff in Hnd. apply String.eqb_neq in Hnd.
  assert (Hlen : (4 <= String.length t)%nat).
  { apply mem_In in Hg. cbn in Hg.
    repeat (destruct Hg as [<-|Hg]; [cbn; try lia; congruence|]). destruct Hg. }
  pose proof (length_join_two "day" t toks Hd Ht (not_eq_sym Hnd)) as H.
  cbn [String.length] in H. lia.
Qed.

(** C5.  A spec that strings together tokens, in any order, among them
    [day] and another granularity token, makes [compute_timeunit] raise for
    every input: [ValueError] (unrecognized timeUnit) when the string does
    not match the grammar, [NotImplementedError] when it does.  No value is
    returned. *)
Theorem day_with_other_token_raises local date toks :
  all_tokens toks = true ->
  mem "day" toks = true ->
  has_other_granularity toks = true ->
  compute_timeunit local date (Str.join toks) =
  match _timeunit_regex (Str.join toks) with
  | None =>
      Raise ValueError ("Unrecognized timeUnit: " ++ repr (Str.join toks))
  | Some _ => Raise NotImplementedError "quarter and day timeunit"
  end.
Proof.
  intros Hall Hday Hother.
  pose proof (day_with_other_long toks Hday Hother) as Hlen.
  assert (Htok : forall t, In t toks -> In t _simple_timeunits).
  { intros t Ht. unfold all_tokens in Hall. rewrite forallb_forall in Hall.
    apply mem_In. now apply Hall. }
  set (s := Str.join toks) in *.
  assert (Hname : existsb (String.eqb s) ["day"; "utcday"] = false).
  { cbn [existsb]. destruct (String.eqb s "day") eqn:E1.
    - apply String.eqb_eq in E1. rewrite E1 in Hlen. cbn in Hlen. lia.
    - destruct (String.eqb s "utcday") eqn:E2; [|reflexivity].
      apply String.eqb_eq in E2. rewrite E2 in Hlen. cbn in Hlen. lia. }
  destruct (_timeunit_regex s) as [g|] eqn:E.
  - apply compute_timeunit_raise. intros a.
    unfold _compute_timeunit. rewrite Hname.
    unfold _parse_timeunit_string. rewrite E. cbn [bind].
    fold (keys g).
    destruct (regex_match_sound _ _ _ E) as [(tail & Ht & Hj) Hin].
    assert (Hm : mem "day" (keys g) = true).
    { pose proof (contains_ay_join (keys g) tail Hin) as H1.
      rewrite <- Hj in H1. unfold s in H1.
      rewrite <- (append_nil_r (Str.join toks)) in H1.
      rewrite (contains_ay_join toks "" Htok), Hday in H1.
      destruct (at_end_spec tail Ht) as [-> | ->];
        cbn [contains_ay re.newline orb andb] in H1;
        rewrite orb_false_r in H1; now symmetry. }
    rewrite Hm. reflexivity.
  - apply compute_timeunit_raise. intros a.
    unfold _compute_timeunit. rewrite Hname.
    unfold _parse_timeunit_string. rewrite E. reflexivity.
Qed.

Lemma day_with_other_token_raises_witness :
  compute_timeunit (fixed_offset 3600) (DTimestamp scenario_instant)
    (Str.join ["year"; "day"]) =
  match _timeunit_regex (Str.join ["year"; "day"]) with
  | None =>
      Raise ValueError
        ("Unrecognized timeUnit: " ++ repr (Str.join ["year"; "day"]))
  | Some _ => Raise NotImplementedError "quarter and day timeunit"
  end.
Proof.
  apply (day_with_other_token_raises (fixed_offset 3600)
           (DTimestamp scenario_instant) ["year"; "day"]);
    reflexivity.
Defined.

(** The two kinds of rejection. *)
Example yearday_rejected local date :
  compute_timeunit local date "yearday"
  = Raise NotImplementedError "quarter and day timeunit".
Proof. apply compute_timeunit_raise. intros a. reflexivity. Qed.

Example dateday_rejected local date :
  compute_timeunit local date "dateday"
  = Raise ValueError "Unrecognized timeUnit: 'dateday'".
Proof. apply compute_timeunit_raise. intros a. reflexivity. Qed.

(* ================================================================== *)
(** ** The empty field set *)

Lemma parse_empty : _parse_timeunit_string "" = Ok [].
Proof. reflexivity. Qed.

(** C6 (as amended).  A spec that matches the grammar and selects no token
    is the empty string (or a lone newline, which [$] lets through);
    [_parse_timeunit_string] returns the empty field set for it, and
    [compute_timeunit] raises [ValueError] for every input. *)
Theorem empty_field_set_raises local date timeunit :
  _parse_timeunit_string timeunit = Ok [] ->
  (timeunit = "" \/ timeunit = re.newline) /\
  _parse_timeunit_string "" = Ok [] /\
  compute_timeunit local date timeunit
  = Raise ValueError "0 is not a recognized timeunit".
Proof.
  intros H. destruct (parse_sound _ _ H) as [(tail & Ht & Hj) _].
  cbn [Str.join String.append] in Hj. subst tail.
  split; [now apply at_end_spec|]. split; [exact parse_empty|].
  apply compute_timeunit_raise. intros a.
  unfold _compute_timeunit. rewrite H.
  destruct (at_end_spec timeunit Ht) as [-> | ->]; reflexivity.
Qed.

Lemma empty_field_set_raises_witness :
  ("" = "" \/ "" = re.newline) /\
  _parse_timeunit_string "" = Ok [] /\
  compute_timeunit (fixed_offset 3600) (DTimestamp scenario_instant) ""
  = Raise ValueError "0 is not a recognized timeunit".
Proof.
  apply (empty_field_set_raises (fixed_offset 3600)
           (DTimestamp scenario_instant) "").
  reflexivity.
Defined.

(** C6 (as stated) fails: parsing the empty string raises nothing, it
    returns the empty field set. *)
Lemma parse_empty_returns :
  _parse_timeunit_string "" = Ok [] /\
  ~ (exists c msg, _parse_timeunit_string "" = @Raise (list string) c msg).
Proof.
  split; [exact parse_empty|]. intros (c & msg & H).
  rewrite parse_empty in H. discriminate H.
Qed.

(* ================================================================== *)
(** ** Decimal numerals *)

Lemma string_of_uint_digits d :
  all_digits (NilEmpty.string_of_uint d) = true.
Proof. induction d; cbn; auto. Qed.

Lemma digits_value_of_uint d :
  Str.digits_value (NilEmpty.string_of_uint d) = Some (Z.of_uint d).
Proof. unfold Str.digits_value. now rewrite NilEmpty.usu. Qed.

(** A non-negative number prints as digits that read back as the number. *)
Lemma str_nonneg n :
  0 <= n ->
  all_digits (Str.str n) = true /\ Str.digits_value (Str.str n) = Some n /\
  (0 < String.length (Str.str n))%nat.
Proof.
  intros Hn. unfold Str.str. destruct n as [|p|p]; [| |lia].
  - cbn. auto using Nat.lt_0_1.
  - cbn [Z.to_int NilZero.string_of_int].
    pose proof (DecimalPos.Unsigned.to_uint_nonnil p) as Hnn.
    unfold NilZero.string_of_uint.
    destruct (Pos.to_uint p) eqn:E; [congruence| ..];
      rewrite <- E; (split; [apply string_of_uint_digits|]);
      (split; [rewrite digits_value_of_uint; unfold Z.of_uint;
               now rewrite DecimalPos.Unsigned.of_to|]);
      rewrite E; cbn; lia.
Qed.

(** A negative number prints with a leading minus sign. *)
Lemma str_neg n :
  n < 0 -> exists r, Str.str n = String "-" r /\ (0 < String.length r)%nat.
Proof.
  intros Hn. unfold Str.str. destruct n as [|p|p]; [lia|lia|].
  cbn [Z.to_int NilZero.string_of_int]. eexists. split; [reflexivity|].
  pose proof (DecimalPos.Unsigned.to_uint_nonnil p) as Hnn.
  unfold NilZero.string_of_uint.
  destruct (Pos.to_uint p); [congruence| ..]; cbn; lia.
Qed.

Lemma all_digits_append a b :
  all_digits (a ++ b) = all_digits a && all_digits b.
Proof.
  induction a as [|c a IH]; cbn; [reflexivity|].
  now rewrite IH, andb_assoc.
Qed.

Lemma all_digits_zeros k : all_digits (Str.zeros k) = true.
Proof. induction k; cbn; auto. Qed.

Lemma length_zeros k : String.length (Str.zeros k) = k.
Proof. induction k; cbn; auto. Qed.

Lemma digits_value_zeros k s :
  Str.digits_value (Str.zeros k ++ s) = Str.digits_value s.
Proof.
  unfold Str.digits_value. induction k as [|k IH]; cbn; [reflexivity|].
  destruct (NilEmpty.uint_of_string (Str.zeros k ++ s)) as [d|] eqn:E;
    destruct (NilEmpty.uint_of_string s) as [d'|] eqn:E'; cbn in *;
    try discriminate; try reflexivity.
  exact IH.
Qed.

Lemma span_digits_append ds rest :
  all_digits ds = true -> no_leading_digit rest = true ->
  Str.span_digits (ds ++ rest) = (ds, rest).
Proof.
  intros Hd Hr.
  induction ds as [|c ds IH]; cbn [String.append Str.span_digits all_digits] in *.
  - destruct rest as [|c r]; [reflexivity|].
    cbn [no_leading_digit Str.span_digits] in *.
    apply negb_true_iff in Hr. now rewrite Hr.
  - apply andb_prop in Hd. destruct Hd as [Hc Hd].
    rewrite Hc, (IH Hd). reflexivity.
Qed.

(** The digits in front of a minus sign are only the padding. *)
Lemma span_digits_zeros_minus k r :
  Str.span_digits (Str.zeros k ++ String "-" r) = (Str.zeros k, String "-" r).
Proof.
  apply span_digits_append; [apply all_digits_zeros | reflexivity].
Qed.

(** Reading back a number that was printed and padded. *)
Lemma read_digits_printed width k n rest n' rest' :
  (k <= width)%nat -> (0 < width)%nat ->
  no_leading_digit rest = true ->
  read_digits width (Str.zfill k (Str.str n) ++ rest) = Some (n', rest') ->
  n' = n /\ rest' = rest /\ 0 <= n.
Proof.
  intros Hk Hw Hrest. unfold read_digits, Str.zfill.
  destruct (Z_lt_le_dec n 0) as [Hneg|Hpos].
  - destruct (str_neg n Hneg) as (r & -> & Hr).
    rewrite append_assoc. cbn [String.append].
    rewrite span_digits_zeros_minus, length_zeros.
    cbn [String.length].
    destruct (Nat.eqb_spec (k - S (String.length r)) width); [lia|discriminate].
  - destruct (str_nonneg n Hpos) as (Hd & Hv & _).
    rewrite span_digits_append;
      [|rewrite all_digits_append, all_digits_zeros; exact Hd | exact Hrest].
    rewrite digits_value_zeros, Hv.
    destruct (_ =? _)%nat; [|discriminate].
    intros H. injection H as <- <-. auto.
Qed.

Lemma read_fraction_printed k n rest f rest' :
  0 <= n -> no_leading_digit rest = true ->
  read_fraction (Str.zfill k (Str.str n) ++ rest) = Some (f, rest') ->
  f = n * 10 ^ Z.of_nat (9 - String.length (Str.zfill k (Str.str n))) /\
  rest' = rest /\
  (String.length (Str.zfill k (Str.str n)) <= 9)%nat.
Proof.
  intros Hpos Hrest. unfold read_fraction.
  destruct (str_nonneg n Hpos) as (Hd & Hv & _).
  rewrite span_digits_append;
    [| unfold Str.zfill; rewrite all_digits_append, all_digits_zeros; exact Hd
     | exact Hrest].
  unfold Str.zfill at 3. rewrite digits_value_zeros, Hv.
  destruct (_ && _) eqn:E; [|discriminate].
  apply andb_prop in E. destruct E as [_ E]. apply Nat.leb_le in E.
  intros H. injection H as <- <-. auto.
Qed.

Lemma str_length_small n :
  0 <= n < 1000 -> (String.length (Str.str n) <= 3)%nat.
Proof.
  intros Hn.
  assert (H : forallb (fun i => (String.length (Str.str (Z.of_nat i)) <=? 3)%nat)
                (seq 0 1000) = true) by (vm_compute; reflexivity).
  rewrite forallb_forall in H.
  specialize (H (Z.to_nat n)). rewrite Z2Nat.id in H by lia.
  apply Nat.leb_le, H, in_seq. lia.
Qed.

(* ================================================================== *)
(** ** The calendar *)

Ltac eqb_to_prop :=
  repeat match goal with
  | H : (_ =? _) = true |- _ => apply Z.eqb_eq in H
  | H : (_ =? _) = false |- _ => apply Z.eqb_neq in H
  | H : (_ <? _) = true |- _ => apply Z.ltb_lt in H
  | H : (_ <? _) = false |- _ => apply Z.ltb_ge in H
  | H : (_ <=? _) = true |- _ => apply Z.leb_le in H
  | H : (_ <=? _) = false |- _ => apply Z.leb_gt in H
  end.

Import Calendar.

Lemma yoe_recover yoe doy :
  0 <= yoe < 400 -> 0 <= doy <= 365 ->
  (doy = 365 -> (yoe + 1) mod 4 = 0 /\ ((yoe + 1) mod 100 <> 0 \/ yoe = 399)) ->
  let doe := yoe * 365 + yoe / 4 - yoe / 100 + doy in
  0 <= doe < 146097 /\ yoe_of_doe doe = yoe.
Proof.
  intros Hy Hd Hl doe. unfold yoe_of_doe. subst doe.
  assert (Hc : exists c r, yoe = 100 * c + r /\ 0 <= c < 4 /\ 0 <= r < 100).
  { exists (yoe / 100), (yoe mod 100). Z.div_mod_to_equations; lia. }
  destruct Hc as (c & r & -> & Hc & Hr).
  assert (Hcc : c = 0 \/ c = 1 \/ c = 2 \/ c = 3) by lia.
  destruct Hcc as [->|[->|[->| ->]]]; split; Z.div_mod_to_equations; lia.
Qed.

Lemma mp_recover m d :
  1 <= m <= 12 -> 1 <= d <= 31 ->
  (m = 4 \/ m = 6 \/ m = 9 \/ m = 11 -> d <= 30) -> (m = 2 -> d <= 29) ->
  let mp := month_index m in
  let doy := (153 * mp + 2) / 5 + d - 1 in
  0 <= doy <= 365 /\ (doy = 365 -> m = 2 /\ d = 29) /\
  (5 * doy + 2) / 153 = mp /\ doy - (153 * mp + 2) / 5 + 1 = d.
Proof.
  intros Hm Hd H30 H29 mp doy. subst doy mp. unfold month_index.
  assert (Hc : m = 1 \/ m = 2 \/ m = 3 \/ m = 4 \/ m = 5 \/ m = 6 \/
               m = 7 \/ m = 8 \/ m = 9 \/ m = 10 \/ m = 11 \/ m = 12) by lia.
  destruct Hc as [->|[->|[->|[->|[->|[->|[->|[->|[->|[->|[->| ->]]]]]]]]]]];
    cbn [Z.ltb Z.compare Pos.compare Pos.compare_cont];
    match goal with
    | |- context [(153 * ?k + 2) / 5] =>
        let c := eval vm_compute in ((153 * k + 2) / 5) in
        change ((153 * k + 2) / 5) with c
    end;
    repeat split; try lia; Z.div_mod_to_equations; lia.
Qed.

Lemma is_leap_yoe era yoe :
  0 <= yoe < 400 ->
  is_leap (era * 400 + yoe + 1) = true ->
  (yoe + 1) mod 4 = 0 /\ ((yoe + 1) mod 100 <> 0 \/ yoe = 399).
Proof.
  intros Hy. unfold is_leap. intros H.
  apply orb_prop in H. destruct H as [H|H].
  - apply andb_prop in H. destruct H as [H4 H100].
    apply negb_true_iff in H100. eqb_to_prop.
    split; [|left]; Z.div_mod_to_equations; lia.
  - eqb_to_prop. split; [|right]; Z.div_mod_to_equations; lia.
Qed.

Lemma days_in_month_bounds y m d :
  1 <= d <= days_in_month y m ->
  1 <= d <= 31 /\ (m = 4 \/ m = 6 \/ m = 9 \/ m = 11 -> d <= 30) /\
  (m = 2 -> d <= 29) /\ (m = 2 -> d = 29 -> is_leap y = true).
Proof.
  unfold days_in_month. intros Hd.
  destruct (m =? 2) eqn:E2; eqb_to_prop.
  - destruct (is_leap y); repeat split; try lia; congruence.
  - destruct ((m =? 4) || (m =? 6) || (m =? 9) || (m =? 11)) eqn:E30.
    + repeat split; lia.
    + repeat (apply orb_false_elim in E30; destruct E30 as [E30 ?]).
      eqb_to_prop. repeat split; lia.
Qed.

(** Every valid civil date is read back from its day count. *)
Lemma civil_roundtrip y m d :
  1 <= m <= 12 -> 1 <= d <= days_in_month y m ->
  civil_from_days (days_from_civil y m d) = (y, m, d).
Proof.
  intros Hm Hd.
  unfold civil_from_days, days_from_civil.
  set (y' := if m <=? 2 then y - 1 else y).
  set (era := y' / 400). set (yoe := y' - era * 400).
  set (mp := month_index m).
  set (doy := (153 * mp + 2) / 5 + d - 1).
  assert (Hyoe : 0 <= yoe < 400) by (subst yoe era; Z.div_mod_to_equations; lia).
  destruct (days_in_month_bounds y m d Hd) as (Hd31 & H30 & H29 & Hleap).
  destruct (mp_recover m d Hm Hd31 H30 H29) as (Hdoy & H365 & Hmp & Hdd).
  fold mp in Hdoy, H365, Hmp, Hdd. fold doy in Hdoy, H365, Hmp, Hdd.
  assert (Hl : doy = 365 ->
               (yoe + 1) mod 4 = 0 /\ ((yoe + 1) mod 100 <> 0 \/ yoe = 399)).
  { intros E. destruct (H365 E) as [Em Ed].
    apply (is_leap_yoe era); [exact Hyoe|].
    replace (era * 400 + yoe + 1) with y; [auto|].
    subst yoe y'. rewrite Em. cbn. lia. }
  destruct (yoe_recover yoe doy Hyoe Hdoy Hl) as [Hdoe Hrec].
  cbv zeta in Hdoe, Hrec.
  set (doe := yoe * 365 + yoe / 4 - yoe / 100 + doy) in *.
  replace (era * 146097 + doe - 719468 + 719468) with (doe + era * 146097) by lia.
  rewrite Z.div_add by lia. rewrite (Z.div_small doe) by lia. cbn [Z.add].
  replace (doe + era * 146097 - era * 146097) with doe by lia.
  rewrite Hrec.
  replace (doe - (365 * yoe + yoe / 4 - yoe / 100)) with doy by (subst doe; lia).
  rewrite Hmp, Hdd.
  assert (Hmm : (if mp <? 10 then mp + 3 else mp - 9) = m).
  { subst mp. unfold month_index. destruct (2 <? m) eqn:E; eqb_to_prop.
    - destruct (m - 3 <? 10) eqn:E'; eqb_to_prop; lia.
    - destruct (m + 9 <? 10) eqn:E'; eqb_to_prop; lia. }
  rewrite Hmm. f_equal. f_equal.
  subst yoe y'. destruct (m <=? 2); lia.
Qed.

(* ================================================================== *)
(** ** Fields of a timestamp built from fields *)

Lemma valid_fields_spec f :
  valid_fields f = true ->
  1 <= f_month f <= 12 /\
  1 <= f_day f <= days_in_month (f_year f) (f_month f) /\
  f_hour f < 24 /\ f_minute f < 60 /\ f_second f < 60.
Proof.
  unfold valid_fields. intros H.
  repeat (apply andb_prop in H; destruct H as [H ?]).
  eqb_to_prop. lia.
Qed.

Lemma fields_of_value f :
  valid_fields f = true ->
  0 <= f_hour f -> 0 <= f_minute f -> 0 <= f_second f ->
  0 <= f_nanos f < ns_per_s ->
  let v := value_of_fields f in
  year_of v = f_year f /\ month_of v = f_month f /\ day_of v = f_day f /\
  hour_of v = f_hour f /\ minute_of v = f_minute f /\
  second_of v = f_second f /\ microsecond_of v = f_nanos f / 1000.
Proof.
  intros Hv Hh Hm Hs Hn v.
  destruct (valid_fields_spec f Hv) as (Hmo & Hd & Hh' & Hm' & Hs').
  set (tod := f_hour f * ns_per_hour + f_minute f * ns_per_min
              + f_second f * ns_per_s + f_nanos f).
  assert (Htod : 0 <= tod < ns_per_day).
  { subst tod. unfold ns_per_day, ns_per_hour, ns_per_min, ns_per_s in *. lia. }
  assert (Ev : v = tod + days_from_civil (f_year f) (f_month f) (f_day f) * ns_per_day).
  { subst v tod. unfold value_of_fields. lia. }
  assert (Ediv : v / ns_per_day = days_from_civil (f_year f) (f_month f) (f_day f)).
  { rewrite Ev, Z.div_add by (unfold ns_per_day, ns_per_hour, ns_per_min, ns_per_s; lia).
    rewrite Z.div_small by exact Htod. reflexivity. }
  assert (Emod : v mod ns_per_day = tod).
  { rewrite Ev, Z.mod_add by (unfold ns_per_day, ns_per_hour, ns_per_min, ns_per_s; lia).
    apply Z.mod_small. exact Htod. }
  unfold year_of, month_of, day_of, hour_of, minute_of, second_of, microsecond_of.
  rewrite Ediv, Emod, (civil_roundtrip _ _ _ Hmo Hd).
  subst tod. unfold ns_per_day, ns_per_hour, ns_per_min, ns_per_s, ns_per_us in *.
  repeat split; Z.div_mod_to_equations; lia.
Qed.

(* ================================================================== *)
(** ** Reading back an assembled date string *)

Lemma length_zfill k s :
  (String.length s <= k)%nat -> String.length (Str.zfill k s) = k.
Proof.
  intros H. unfold Str.zfill. rewrite length_append, length_zeros. lia.
Qed.

Lemma parse_printed y m d h mi s nf kf f :
  0 <= nf ->
  parse_iso8601
    (Str.str y ++ "-" ++ Str.zfill 2 (Str.str m) ++ "-" ++
     Str.zfill 2 (Str.str d) ++ " " ++ Str.zfill 2 (Str.str h) ++ ":" ++
     Str.zfill 2 (Str.str mi) ++ ":" ++ Str.zfill 2 (Str.str s) ++ "." ++
     Str.zfill kf (Str.str nf))%string = Some f ->
  f = {| f_year := y; f_month := m; f_day := d;
         f_hour := h; f_minute := mi; f_second := s;
         f_nanos := nf * 10 ^ Z.of_nat (9 - String.length (Str.zfill kf (Str.str nf))) |}
  /\ 0 <= h /\ 0 <= mi /\ 0 <= s
  /\ (String.length (Str.zfill kf (Str.str nf)) <= 9)%nat.
Proof.
  intros Hnf. cbn [String.append]. unfold parse_iso8601, parse_time.
  match goal with |- context [read_digits 4 (?a ++ ?r)%string] =>
    destruct (read_digits 4 (a ++ r)%string) as [[y' s1]|] eqn:E1; [|discriminate];
    apply (read_digits_printed 4 0 y r) in E1; [|lia|lia|reflexivity]
  end.
  destruct E1 as (-> & -> & Hy). cbn [read_char]. rewrite Ascii.eqb_refl.
  match goal with |- context [read_digits 2 (?a ++ ?r)%string] =>
    destruct (read_digits 2 (a ++ r)%string) as [[m' s1]|] eqn:E1; [|discriminate];
    apply (read_digits_printed 2 2 m r) in E1; [|lia|lia|reflexivity]
  end.
  destruct E1 as (-> & -> & Hm). cbn [read_char]. rewrite Ascii.eqb_refl.
  match goal with |- context [read_digits 2 (?a ++ ?r)%string] =>
    destruct (read_digits 2 (a ++ r)%string) as [[d' s1]|] eqn:E1; [|discriminate];
    apply (read_digits_printed 2 2 d r) in E1; [|lia|lia|reflexivity]
  end.
  destruct E1 as (-> & -> & Hd). rewrite Ascii.eqb_refl. cbn [orb].
  match goal with |- context [read_digits 2 (?a ++ ?r)%string] =>
    destruct (read_digits 2 (a ++ r)%string) as [[h' s1]|] eqn:E1; [|discriminate];
    apply (read_digits_printed 2 2 h r) in E1; [|lia|lia|reflexivity]
  end.
  destruct E1 as (-> & -> & Hh). cbn [read_char]. rewrite Ascii.eqb_refl.
  match goal with |- context [read_digits 2 (?a ++ ?r)%string] =>
    destruct (read_digits 2 (a ++ r)%string) as [[mi' s1]|] eqn:E1; [|discriminate];
    apply (read_digits_printed 2 2 mi r) in E1; [|lia|lia|reflexivity]
  end.
  destruct E1 as (-> & -> & Hmi). cbn [read_char]. rewrite Ascii.eqb_refl.
  match goal with |- context [read_digits 2 (?a ++ ?r)%string] =>
    destruct (read_digits 2 (a ++ r)%string) as [[s' s1]|] eqn:E1; [|discriminate];
    apply (read_digits_printed 2 2 s r) in E1; [|lia|lia|reflexivity]
  end.
  destruct E1 as (-> & -> & Hs). rewrite Ascii.eqb_refl.
  destruct (read_fraction (Str.zfill kf (Str.str nf))) as [[fr s1]|] eqn:E1;
    [|discriminate].
  rewrite <- (append_nil_r (Str.zfill kf (Str.str nf))) in E1.
  apply (read_fraction_printed kf nf "") in E1; [|exact Hnf|reflexivity].
  destruct E1 as (-> & -> & Hlen).
  intros H. injection H as <-. auto.
Qed.

Lemma ms_of_bounds units w : 0 <= ms_of units w < 1000.
Proof.
  unfold ms_of, microsecond_of. destruct (mem "milliseconds" units); [|lia].
  Z.div_mod_to_equations. lia.
Qed.

Lemma nanos_of_ms units w :
  ms_of units w
  * 10 ^ Z.of_nat (9 - String.length (Str.zfill (ms_width units)
                                         (Str.str (ms_of units w))))
  = ms_of units w * 1000000.
Proof.
  pose proof (ms_of_bounds units w) as Hb. revert Hb.
  unfold ms_of, ms_width. destruct (mem "milliseconds" units); intros Hb.
  - rewrite length_zfill by (apply str_length_small; exact Hb). reflexivity.
  - reflexivity.
Qed.

(** The fields of a bucket are the numbers that were printed. *)
Lemma stamp_fields units w v :
  stamp units w = Ok v ->
  year_of v = Y_of units w /\ month_of v = M_of units w /\
  day_of v = D_of units w /\ hour_of v = h_of units w /\
  minute_of v = m_of units w /\ second_of v = s_of units w /\
  microsecond_of v / 1000 = ms_of units w /\
  1 <= M_of units w <= 12.
Proof.
  unfold stamp, to_datetime_str.
  destruct (parse_iso8601 (render units w)) as [f|] eqn:Ep; [|discriminate].
  pose proof (ms_of_bounds units w) as Hms.
  apply parse_printed in Ep; [|lia].
  destruct Ep as (Ef & Hh & Hmi & Hs & _). rewrite nanos_of_ms in Ef.
  subst f.
  match goal with |- context [valid_fields ?f] =>
    set (f0 := f); destruct (valid_fields f0) eqn:Hv; [|discriminate]
  end.
  destruct (_ && _); [|discriminate]. cbn [bind value].
  intros H. injection H as <-.
  assert (Hn : 0 <= f_nanos f0 < ns_per_s)
    by (cbn [f0 f_nanos]; unfold ns_per_s; lia).
  destruct (fields_of_value f0 Hv Hh Hmi Hs Hn) as (E1 & E2 & E3 & E4 & E5 & E6 & E7).
  destruct (valid_fields_spec f0 Hv) as (Hmo & _).
  cbn [f0 f_year f_month f_day f_hour f_minute f_second f_nanos] in *.
  repeat split; try assumption; try lia.
  rewrite E7. Z.div_mod_to_equations. lia.
Qed.

Lemma quarter_idempotent m : quarter (quarter m) = quarter m.
Proof. unfold quarter. Z.div_mod_to_equations. lia. Qed.

(** A bucket is its own bucket. *)
Lemma stamp_idempotent units w v :
  stamp units w = Ok v -> stamp units v = Ok v.
Proof.
  intros H.
  destruct (stamp_fields units w v H) as (E1 & E2 & E3 & E4 & E5 & E6 & E7 & _).
  assert (E : render units v = render units w).
  { unfold render.
    assert (Y_of units v = Y_of units w) as ->
      by (unfold Y_of in *; destruct (mem "year" units); congruence).
    assert (M_of units v = M_of units w) as ->.
    { unfold M_of in *. destruct (mem "month" units); [congruence|].
      destruct (mem "quarter" units); [|reflexivity].
      rewrite E2. apply quarter_idempotent. }
    assert (D_of units v = D_of units w) as ->
      by (unfold D_of in *; destruct (mem "date" units); congruence).
    assert (h_of units v = h_of units w) as ->
      by (unfold h_of in *; destruct (mem "hours" units); congruence).
    assert (m_of units v = m_of units w) as ->
      by (unfold m_of in *; destruct (mem "minutes" units); congruence).
    assert (s_of units v = s_of units w) as ->
      by (unfold s_of in *; destruct (mem "seconds" units); congruence).
    assert (ms_of units v = ms_of units w) as ->
      by (unfold ms_of in *; destruct (mem "milliseconds" units); congruence).
    reflexivity. }
  unfold stamp in *. rewrite E. exact H.
Qed.

Lemma day_bucket_idempotent w : day_bucket (day_bucket w) = day_bucket w.
Proof.
  unfold day_bucket. set (k := (dayofweek_of w + 1) mod 7).
  assert (Hk : 0 <= k < 7) by (apply Z.mod_pos_bound; lia).
  pose proof (dayofweek_anchor_plus k Hk) as H.
  unfold anchor_plus in H. cbn [value] in H. rewrite H.
  f_equal. f_equal. Z.div_mod_to_equations. lia.
Qed.

(* ================================================================== *)
(** ** The assembled column *)

Lemma zip_with_map {A B C D : Type} (g : B -> C -> D) (f1 : A -> B) (f2 : A -> C) l :
  zip_with g (map f1 l) (map f2 l) = map (fun x => g (f1 x) (f2 x)) l.
Proof. induction l as [|x l IH]; cbn; [reflexivity | now rewrite IH]. Qed.

Lemma mapM_map {A B C : Type} (g : B -> result C) (f : A -> B) l :
  mapM g (map f l) = mapM (fun x => g (f x)) l.
Proof. induction l as [|x l IH]; cbn; [reflexivity | now rewrite IH]. Qed.

Lemma mapM_length {A B : Type} (f : A -> result B) l l' :
  mapM f l = Ok l' -> List.length l' = List.length l.
Proof.
  revert l'. induction l as [|x l IH]; intros l' H; cbn in H.
  - now injection H as <-.
  - destruct (f x); [|discriminate]. cbn in H.
    destruct (mapM f l) as [bs|]; [|discriminate]. cbn in H.
    injection H as <-. cbn. now rewrite (IH bs).
Qed.

Lemma mapM_fixed {A : Type} (f : A -> result A) l l' :
  (forall x y, f x = Ok y -> f y = Ok y) ->
  mapM f l = Ok l' -> mapM f l' = Ok l'.
Proof.
  intros Hf. revert l'. induction l as [|x l IH]; intros l' H; cbn in H.
  - now injection H as <-.
  - destruct (f x) as [y|] eqn:E; [|discriminate]. cbn in H.
    destruct (mapM f l) as [bs|]; [|discriminate]. cbn in H.
    injection H as <-. cbn. now rewrite (Hf x y E), (IH bs).
Qed.

Section Assembling.

Variable local : zone.
Variable a : DatetimeArray.

Lemma Lifted_one c : Lifted local a (One c) false (fun _ => c).
Proof. split; [reflexivity | intros _ w; reflexivity]. Qed.

Lemma Lifted_add x y s1 s2 f1 f2 :
  Lifted local a x s1 f1 -> Lifted local a y s2 f2 ->
  Lifted local a (x +s y) (s1 || s2) (fun w => f1 w ++ f2 w)%string.
Proof.
  intros [-> C1] [-> C2]. split.
  - unfold lift, add, col_map. destruct s1, s2; cbn [orb cindex cdata].
    + now rewrite zip_with_map.
    + rewrite map_map. do 2 f_equal. apply map_ext. intros w.
      now rewrite (C2 eq_refl w).
    + rewrite map_map. do 2 f_equal. apply map_ext. intros w.
      now rewrite (C1 eq_refl w).
    + reflexivity.
  - intros E w. apply orb_false_elim in E. destruct E as [E1 E2].
    now rewrite (C1 E1 w), (C2 E2 w).
Qed.

Lemma Lifted_sep x c s f :
  Lifted local a x s f ->
  Lifted local a (x +s One c) s (fun w => f w ++ c)%string.
Proof.
  intros H. pose proof (Lifted_add _ _ _ _ _ _ H (Lifted_one c)) as H'.
  now rewrite orb_false_r in H'.
Qed.

Lemma Lifted_field {A : Type} (g : A -> string) (acc : Z -> A) (sel : bool)
  (col : Column string) (default : string) (f : Z -> string) :
  col = {| cindex := index a; cdata := map (fun v => g (acc (wall local (dtype_tz a) v))) (i8 a) |} ->
  (forall w, f w = if sel then g (acc w) else default) ->
  Lifted local a (if sel then Col col else One default) sel f.
Proof.
  intros -> Hf. split.
  - unfold lift, walls. destruct sel.
    + rewrite map_map. do 2 f_equal. apply map_ext. intros v. now rewrite Hf.
    + now rewrite Hf.
  - intros -> w. now rewrite !Hf.
Qed.

Lemma accessor_printed (acc : Z -> Z) k :
  str_zfill k (astype_str (accessor local acc a)) =
  {| cindex := index a;
     cdata := map (fun v => Str.zfill k (Str.str (acc (wall local (dtype_tz a) v))))
                  (i8 a) |}.
Proof.
  unfold str_zfill, astype_str, accessor, col_map. cbn [cindex cdata].
  now rewrite !map_map.
Qed.

(** The sum [Y + '-' + M + ... + '.' + ms] of [_compute_timeunit]. *)
Lemma assembled units :
  let Y := if mem "year" units
           then Col (astype_str (year local a)) else One "1900" in
  let M := if mem "month" units
           then Col (str_zfill 2 (astype_str (month local a)))
           else if mem "quarter" units
           then Col (str_zfill 2 (astype_str (col_map quarter (month local a))))
           else One "01" in
  let D := if mem "date" units
           then Col (str_zfill 2 (astype_str (day local a))) else One "01" in
  let h := if mem "hours" units
           then Col (str_zfill 2 (astype_str (hour local a))) else One "00" in
  let m := if mem "minutes" units
           then Col (str_zfill 2 (astype_str (minute local a))) else One "00" in
  let s := if mem "seconds" units
           then Col (str_zfill 2 (astype_str (second local a))) else One "00" in
  let ms := if mem "milliseconds" units
            then Col (str_zfill 3
                        (astype_str
                           (col_map (fun us => us / 1000) (microsecond local a))))
            else One "00" in
  Y +s One "-" +s M +s One "-" +s D +s One " " +s
  h +s One ":" +s m +s One ":" +s s +s One "." +s ms
  = lift local a (has_field units) (render units).
Proof.
  intros Y M D h m s ms.
  assert (HY : Lifted local a Y (mem "year" units)
                 (fun w => Str.str (Y_of units w))).
  { apply (Lifted_field Str.str year_of).
    - unfold astype_str, year, accessor, col_map. cbn [cindex cdata].
      now rewrite map_map.
    - intros w. unfold Y_of. now destruct (mem "year" units). }
  assert (HM : Lifted local a M (mem "month" units || mem "quarter" units)
                 (fun w => Str.zfill 2 (Str.str (M_of units w)))).
  { subst M. unfold M_of. destruct (mem "month" units); cbn [orb].
    - apply (Lifted_field (fun n => Str.zfill 2 (Str.str n)) month_of true _ "01").
      + apply accessor_printed.
      + reflexivity.
    - apply (Lifted_field (fun n => Str.zfill 2 (Str.str n))
               (fun w => quarter (month_of w))).
      + unfold str_zfill, astype_str, month, accessor, col_map.
        cbn [cindex cdata]. now rewrite !map_map.
      + intros w. now destruct (mem "quarter" units). }
  assert (HD : Lifted local a D (mem "date" units)
                 (fun w => Str.zfill 2 (Str.str (D_of units w)))).
  { apply (Lifted_field (fun n => Str.zfill 2 (Str.str n)) day_of).
    - apply accessor_printed.
    - intros w. unfold D_of. now destruct (mem "date" units). }
  assert (Hh : Lifted local a h (mem "hours" units)
                 (fun w => Str.zfill 2 (Str.str (h_of units w)))).
  { apply (Lifted_field (fun n => Str.zfill 2 (Str.str n)) hour_of).
    - apply accessor_printed.
    - intros w. unfold h_of. now destruct (mem "hours" units). }
  assert (Hm : Lifted local a m (mem "minutes" units)
                 (fun w => Str.zfill 2 (Str.str (m_of units w)))).
  { apply (Lifted_field (fun n => Str.zfill 2 (Str.str n)) minute_of).
    - apply accessor_printed.
    - intros w. unfold m_of. now destruct (mem "minutes" units). }
  assert (Hs : Lifted local a s (mem "seconds" units)
                 (fun w => Str.zfill 2 (Str.str (s_of units w)))).
  { apply (Lifted_field (fun n => Str.zfill 2 (Str.str n)) second_of).
    - apply accessor_printed.
    - intros w. unfold s_of. now destruct (mem "seconds" units). }
  assert (Hms : Lifted local a ms (mem "milliseconds" units)
                  (fun w => Str.zfill (ms_width units) (Str.str (ms_of units w)))).
  { subst ms. unfold ms_of, ms_width. destruct (mem "milliseconds" units).
    - apply (Lifted_field (fun n => Str.zfill 3 (Str.str n))
               (fun w => microsecond_of w / 1000) true _ "00").
      + unfold str_zfill, astype_str, microsecond, accessor, col_map.
        cbn [cindex cdata]. now rewrite !map_map.
      + reflexivity.
    - apply (Lifted_one "00"). }
  pose proof (Lifted_add _ _ _ _ _ _ (Lifted_sep _ "-" _ _ HY) HM) as H1.
  pose proof (Lifted_add _ _ _ _ _ _ (Lifted_sep _ "-" _ _ H1) HD) as H2.
  pose proof (Lifted_add _ _ _ _ _ _ (Lifted_sep _ " " _ _ H2) Hh) as H3.
  pose proof (Lifted_add _ _ _ _ _ _ (Lifted_sep _ ":" _ _ H3) Hm) as H4.
  pose proof (Lifted_add _ _ _ _ _ _ (Lifted_sep _ ":" _ _ H4) Hs) as H5.
  pose proof (Lifted_add _ _ _ _ _ _ (Lifted_sep _ "." _ _ H5) Hms) as [E _].
  rewrite E. unfold lift.
  replace (mem "year" units || (mem "month" units || mem "quarter" units)
           || mem "date" units || mem "hours" units || mem "minutes" units
           || mem "seconds" units || mem "milliseconds" units)
    with (has_field units)
    by (unfold has_field; now rewrite (orb_assoc (mem "year" units))).
  assert (Hf : forall w,
    ((((((((((((Str.str (Y_of units w) ++ "-") ++
     Str.zfill 2 (Str.str (M_of units w))) ++ "-") ++
     Str.zfill 2 (Str.str (D_of units w))) ++ " ") ++
     Str.zfill 2 (Str.str (h_of units w))) ++ ":") ++
     Str.zfill 2 (Str.str (m_of units w))) ++ ":") ++
     Str.zfill 2 (Str.str (s_of units w))) ++ ".") ++
     Str.zfill (ms_width units) (Str.str (ms_of units w)))%string
    = render units w).
  { intros w. unfold render. now rewrite !append_assoc. }
  destruct (has_field units).
  - do 2 f_equal. apply map_ext. exact Hf.
  - f_equal. apply Hf.
Qed.

End Assembling.

(** Outside the [day] case, with a field set that passes the two guards,
    [_compute_timeunit] parses the assembled column. *)
Lemma _compute_timeunit_general local name units a :
  existsb (String.eqb name) ["day"; "utcday"] = false ->
  _parse_timeunit_string name = Ok units ->
  mem "day" units = false -> units <> [] ->
  _compute_timeunit local name a
  = to_datetime (lift local a (has_field units) (render units)).
Proof.
  intros Hname Hparse Hday Hne. unfold _compute_timeunit.
  rewrite Hname, Hparse. cbn [bind]. rewrite Hday.
  destruct units as [|u0 us]; [congruence|].
  cbv zeta. f_equal. apply assembled.
Qed.

(** With a calendar field selected the result is element-wise: same
    labels, same length, and element [i] is the bucket of reading [i]. *)
Lemma _compute_timeunit_fields local name units a :
  existsb (String.eqb name) ["day"; "utcday"] = false ->
  _parse_timeunit_string name = Ok units ->
  mem "day" units = false -> has_field units = true ->
  _compute_timeunit local name a =
  vs <- mapM (stamp units) (walls local a) ;;
  Ok (DArray {| index := index a; i8 := vs; dtype_tz := None |}).
Proof.
  intros Hname Hparse Hday Hf.
  rewrite (_compute_timeunit_general local name units a Hname Hparse Hday)
    by (intros ->; discriminate Hf).
  rewrite Hf. unfold lift, to_datetime. cbn [cdata cindex].
  now rewrite mapM_map.
Qed.

Lemma _compute_timeunit_day_bucket local name a :
  existsb (String.eqb name) ["day"; "utcday"] = true ->
  _compute_timeunit local name a =
  Ok (DArray {| index := index a; i8 := map day_bucket (walls local a);
                dtype_tz := None |}).
Proof.
  intros Hname. unfold _compute_timeunit. rewrite Hname, day_anchor_reads.
  cbn [bind]. unfold Timestamp_add, to_timedelta_D, col_map, dayofweek, accessor,
    walls, day_bucket.
  cbn [cindex cdata tz]. now rewrite !map_map.
Qed.

(** One step of the matcher: the first group takes part or not. *)
Lemma regex_match_cons n names s g :
  n <> "" ->
  re.regex_match (n :: names) s = Some g ->
  exists g' r,
    re.regex_match names r = Some g' /\
    ((s = (n ++ r)%string /\ keys g = n :: keys g') \/ (s = r /\ keys g = keys g')).
Proof.
  intros Hn H. cbn [re.regex_match] in H.
  assert (Hskip : option_map (cons (n, None)) (re.regex_match names s) = Some g ->
                  exists g' r, re.regex_match names r = Some g' /\
                    ((s = (n ++ r)%string /\ keys g = n :: keys g') \/
                     (s = r /\ keys g = keys g'))).
  { intros Hs. destruct (re.regex_match names s) as [g'|] eqn:E; [|discriminate].
    injection Hs as <-. exists g', s. split; [exact E|]. right. now split. }
  destruct (Str.strip_prefix n s) as [rest|] eqn:Ep; [|now apply Hskip].
  destruct (re.regex_match names rest) as [g'|] eqn:E; [|now apply Hskip].
  injection H as <-. exists g', rest. split; [exact E|]. left.
  split; [now apply strip_prefix_append|].
  unfold keys. cbn [filter snd truthy].
  apply String.eqb_neq in Hn. now rewrite Hn.
Qed.

(** A field set without [day] and without calendar field is [{utc}] or
    empty. *)
Lemma no_field_is_utc name units :
  _parse_timeunit_string name = Ok units ->
  mem "day" units = false -> has_field units = false -> units <> [] ->
  units = ["utc"].
Proof.
  intros Hparse Hday Hf Hne.
  unfold _parse_timeunit_string, _timeunit_regex in Hparse.
  destruct (re.regex_match _simple_timeunits name) as [g|] eqn:Eg; [|discriminate].
  injection Hparse as Hu. fold (keys g) in Hu.
  change _simple_timeunits with ("utc" :: granularity_tokens) in Eg.
  apply regex_match_cons in Eg; [|discriminate].
  destruct Eg as (g' & r & Eg' & Hcase).
  destruct (regex_match_sound _ _ _ Eg') as [_ Hin].
  assert (Hnil : keys g' = []).
  { destruct (keys g') as [|k ks] eqn:Ek; [reflexivity|exfalso].
    assert (Hk : In k granularity_tokens) by (apply Hin; now left).
    assert (Hm : mem k units = true).
    { apply mem_In. rewrite <- Hu.
      destruct Hcase as [[_ ->]|[_ ->]]; [right; now left | now left]. }
    unfold has_field in Hf.
    repeat (apply orb_false_elim in Hf; destruct Hf as [Hf ?]).
    cbn in Hk.
    repeat (destruct Hk as [<-|Hk]; [congruence|]). destruct Hk. }
  rewrite Hnil in Hcase.
  destruct Hcase as [[_ Hk]|[_ Hk]]; congruence.
Qed.

(* ================================================================== *)
(** ** [_compute_timeunit], one reading at a time *)

Lemma mapM_ext {A B : Type} (f g : A -> result B) l :
  (forall x, f x = g x) -> mapM f l = mapM g l.
Proof.
  intros H. induction l as [|x l IH]; cbn; [reflexivity | now rewrite H, IH].
Qed.

Lemma mapM_Ok {A B : Type} (f : A -> B) l :
  mapM (fun x => Ok (f x)) l = Ok (map f l).
Proof. induction l as [|x l IH]; cbn; [reflexivity | now rewrite IH]. Qed.

Lemma mapM_Forall2 {A B : Type} (f : A -> result B) l l' :
  mapM f l = Ok l' -> Forall2 (fun x y => f x = Ok y) l l'.
Proof.
  revert l'. induction l as [|x l IH]; intros l' H; cbn in H.
  - injection H as <-. constructor.
  - destruct (f x) as [y|] eqn:E; [|discriminate]. cbn in H.
    destruct (mapM f l) as [bs|]; [|discriminate]. cbn in H.
    injection H as <-. constructor; [exact E | now apply IH].
Qed.

Lemma bucket_fixed timeunit w v :
  bucket timeunit w = Ok v -> bucket timeunit v = Ok v.
Proof.
  unfold bucket. destruct (existsb _ _).
  - intros H. injection H as <-. now rewrite day_bucket_idempotent.
  - destruct (_parse_timeunit_string timeunit) as [units|]; [|discriminate].
    cbn [bind]. apply stamp_idempotent.
Qed.

(** The three ways [_compute_timeunit] can go on a timeunit: element by
    element, raising whatever the data, or the field set [{utc}]. *)
Lemma _compute_timeunit_cases local name :
  (forall a, _compute_timeunit local name a =
             vs <- mapM (bucket name) (walls local a) ;;
             Ok (DArray {| index := index a; i8 := vs; dtype_tz := None |}))
  \/ (exists c msg, forall a, _compute_timeunit local name a = Raise c msg)
  \/ _parse_timeunit_string name = Ok ["utc"].
Proof.
  destruct (existsb (String.eqb name) ["day"; "utcday"]) eqn:Hname.
  { left. intros a. rewrite (_compute_timeunit_day_bucket local name a Hname).
    unfold bucket. rewrite Hname. now rewrite mapM_Ok. }
  destruct (_parse_timeunit_string name) as [units|c msg] eqn:Hparse.
  2: { right. left. exists c, msg. intros a.
       unfold _compute_timeunit. now rewrite Hname, Hparse. }
  destruct (mem "day" units) eqn:Hday.
  { right. left. do 2 eexists. intros a.
    unfold _compute_timeunit. rewrite Hname, Hparse. cbn [bind].
    rewrite Hday. reflexivity. }
  destruct units as [|u0 us] eqn:Hunits.
  { right. left. do 2 eexists. intros a.
    unfold _compute_timeunit. rewrite Hname, Hparse. reflexivity. }
  rewrite <- Hunits in *.
  destruct (has_field units) eqn:Hf.
  - left. intros a.
    rewrite (_compute_timeunit_fields local name units a Hname Hparse Hday Hf).
    f_equal. apply mapM_ext. intros w. unfold bucket.
    now rewrite Hname, Hparse.
  - right. right. f_equal.
    apply (no_field_is_utc name units Hparse Hday Hf).
    rewrite Hunits. discriminate.
Qed.

Lemma walls_normalize_naive local u y :
  reads_back local u -> dtype_tz y = None ->
  walls local (normalize local u y) = i8 y.
Proof.
  intros Hrb Hnaive. unfold walls, normalize. cbn [dtype_tz i8].
  rewrite Hnaive, map_map. cbn [utc_value].
  rewrite <- (map_id (i8 y)) at 2. apply map_ext. exact Hrb.
Qed.

Lemma walls_normalize local u a :
  walls local (normalize local u a)
  = map (fun v => wall local (Some (timezone_of u)) (utc_value local (dtype_tz a) v))
        (i8 a).
Proof. unfold walls, normalize. cbn [dtype_tz i8]. now rewrite map_map. Qed.

(** Unless the field set is [{utc}], a sequence keeps its shape: the
    labels and the length are those of the input and element [i] of the
    output is the bucket of element [i] of the input. *)
Lemma compute_timeunit_keeps_shape local a u r :
  _parse_timeunit_string u <> Ok ["utc"] ->
  compute_timeunit local (DArray a) u = Ok r ->
  exists vs,
    r = DArray {| index := index a; i8 := vs; dtype_tz := None |} /\
    List.length vs = List.length (i8 a) /\
    Forall2 (fun v b =>
               bucket u (wall local (Some (timezone_of u))
                           (utc_value local (dtype_tz a) v)) = Ok b)
            (i8 a) vs.
Proof.
  intros Hu H. rewrite compute_timeunit_array in H.
  destruct (_compute_timeunit_cases local u) as [HB|[(c & msg & HR)|Hutc]];
    [|rewrite !HR in H; destruct (index a); discriminate | contradiction].
  rewrite !HB in H. rewrite walls_normalize in H.
  destruct (mapM _ _) as [vs|] eqn:E; [|destruct (index a); discriminate].
  exists vs. cbn [bind normalize index] in H.
  split.
  - destruct (index a) as [l|] eqn:Ei; cbn [bind Series index] in H;
      injection H as <-; reflexivity.
  - split.
    + apply mapM_length in E. now rewrite length_map in E.
    + apply mapM_Forall2 in E.
      clear -E. revert vs E. induction (i8 a) as [|v l IH]; intros vs E;
        inversion E; subst; constructor; auto.
Qed.

(* ================================================================== *)
(** ** Idempotence *)

Lemma fixed_offset_reads_back o u :
  Str.startswith u "utc" = false \/ o = 0 ->
  reads_back (fixed_offset o) u.
Proof.
  intros H v. unfold wall, localize, offset_at, offset_of_wall, timezone_of.
  cbn [fixed_offset utcoffset wall_utcoffset].
  destruct H as [-> | ->]; [lia|]. destruct (Str.startswith u "utc"); lia.
Qed.

Lemma compute_timeunit_fixed local u x :
  reads_back local u -> _parse_timeunit_string u <> Ok ["utc"] ->
  (y <- compute_timeunit local x u ;; compute_timeunit local y u)
  = compute_timeunit local x u.
Proof.
  intros Hrb Hu.
  destruct (_compute_timeunit_cases local u) as [HB|[(c & msg & HR)|Hutc]];
    [| now rewrite (compute_timeunit_raise local x u c msg HR) | contradiction].
  destruct x as [t|a].
  - rewrite compute_timeunit_scalar, HB, walls_normalize.
    cbn [DatetimeIndex i8 map mapM dtype_tz].
    destruct (bucket u _) as [v|] eqn:E; [|reflexivity].
    cbn [bind getitem0 index i8 dtype_tz normalize DatetimeIndex].
    rewrite compute_timeunit_scalar, HB, walls_normalize_naive;
      [|exact Hrb|reflexivity].
    cbn [DatetimeIndex i8 map mapM value].
    rewrite (bucket_fixed u _ v E). reflexivity.
  - rewrite compute_timeunit_array, !HB.
    destruct (mapM (bucket u) (walls local (normalize local u a))) as [vs|] eqn:E;
      [|destruct (index a); reflexivity].
    cbn [bind normalize index].
    assert (Hnext :
      compute_timeunit local
        (DArray {| index := index a; i8 := vs; dtype_tz := None |}) u
      = match index a with
        | Some _ => Ok (Series (DArray {| index := index a; i8 := vs; dtype_tz := None |}))
        | None => Ok (DArray {| index := index a; i8 := vs; dtype_tz := None |})
        end).
    { rewrite compute_timeunit_array, !HB, walls_normalize_naive;
        [|exact Hrb|reflexivity].
      cbn [i8 index normalize].
      rewrite (mapM_fixed _ _ _ (bucket_fixed u) E).
      destruct (index a); reflexivity. }
    destruct (index a) as [l|]; cbn [bind Series index];
      rewrite Hnext; reflexivity.
Qed.



(** In a zone without transitions the proviso holds for every [u] that
    does not start with [utc], and for every [u] when the zone is UTC. *)
Corollary compute_timeunit_idempotent_fixed_offset o u x :
  Str.startswith u "utc" = false \/ o = 0 ->
  _parse_timeunit_string u <> Ok ["utc"] ->
  (y <- compute_timeunit (fixed_offset o) x u ;;
   compute_timeunit (fixed_offset o) y u)
  = compute_timeunit (fixed_offset o) x u.
Proof.
  intros H. apply compute_timeunit_fixed. now apply fixed_offset_reads_back.
Qed.


(* ================================================================== *)
(** ** Quarters *)

Lemma quarter_starts m :
  1 <= quarter m <= 12 -> In (quarter m) [1; 4; 7; 10].
Proof.
  unfold quarter. intros H. cbn [In].
  Z.div_mod_to_equations. lia.
Qed.

(** C8.  When the field set holds [quarter] and not [month], the month of
    the result is [month - ((month - 1) mod 3)] for the month of the
    reading, scalar or element by element; it is one of 1, 4, 7, 10; and on
    the months 1 to 12 the formula gives one of 1, 4, 7, 10, with 5 going
    to 4 and 11 to 10. *)
Theorem quarter_mapping local u units :
  _parse_timeunit_string u = Ok units ->
  mem "quarter" units = true -> mem "month" units = false ->
  (forall t r,
     compute_timeunit local (DTimestamp t) u = Ok (DTimestamp r) ->
     tz r = None /\
     month_of (value r) = quarter (month_of (reading local u t)) /\
     In (month_of (value r)) [1; 4; 7; 10]) /\
  (forall a r,
     _compute_timeunit local u a = Ok r ->
     exists vs,
       r = DArray {| index := index a; i8 := vs; dtype_tz := None |} /\
       Forall2 (fun w v => month_of v = quarter (month_of w) /\
                           In (month_of v) [1; 4; 7; 10])
               (walls local a) vs) /\
  (forall m, 1 <= m <= 12 -> In (quarter m) [1; 4; 7; 10]) /\
  quarter 5 = 4 /\ quarter 11 = 10.
Proof.
  intros Hparse Hq Hm.
  assert (Hname : existsb (String.eqb u) ["day"; "utcday"] = false).
  { cbn [existsb]. destruct (String.eqb u "day") eqn:E1.
    - apply String.eqb_eq in E1. subst u. injection Hparse as <-. discriminate Hq.
    - destruct (String.eqb u "utcday") eqn:E2; [|reflexivity].
      apply String.eqb_eq in E2. subst u. injection Hparse as <-. discriminate Hq. }
  assert (Hf : has_field units = true).
  { unfold has_field. rewrite Hq. now rewrite !orb_true_r. }
  assert (Hstamp : forall w v, stamp units w = Ok v ->
                     month_of v = quarter (month_of w) /\
                     In (month_of v) [1; 4; 7; 10]).
  { intros w v Hs.
    destruct (stamp_fields units w v Hs) as (_ & E2 & _ & _ & _ & _ & _ & Hr).
    unfold M_of in E2, Hr. rewrite Hm, Hq in E2, Hr.
    split; [exact E2|]. rewrite E2. now apply quarter_starts. }
  assert (Harr : forall a r,
     _compute_timeunit local u a = Ok r ->
     exists vs,
       r = DArray {| index := index a; i8 := vs; dtype_tz := None |} /\
       Forall2 (fun w v => month_of v = quarter (month_of w) /\
                           In (month_of v) [1; 4; 7; 10])
               (walls local a) vs).
  { intros a r H. destruct (mem "day" units) eqn:Hday.
    - unfold _compute_timeunit in H. rewrite Hname, Hparse in H.
      cbn [bind] in H. rewrite Hday in H. discriminate H.
    - rewrite (_compute_timeunit_fields local u units a Hname Hparse Hday Hf) in H.
      destruct (mapM (stamp units) (walls local a)) as [vs|] eqn:E; [|discriminate].
      injection H as <-. exists vs. split; [reflexivity|].
      apply mapM_Forall2 in E. clear -E Hstamp.
      induction E; constructor; auto. }
  split; [|split; [exact Harr|]].
  - intros t r H. rewrite compute_timeunit_scalar in H.
    destruct (_compute_timeunit local u _) as [r'|] eqn:E; [|discriminate].
    destruct (Harr _ _ E) as (vs & -> & HF).
    rewrite walls_normalize in HF. cbn [DatetimeIndex i8 map dtype_tz] in HF.
    inversion HF as [|w v ws vs' [Hv1 Hv2] Hrest]; subst.
    cbn [bind getitem0 index i8 normalize DatetimeIndex dtype_tz] in H.
    injection H as <-. cbn [tz value]. unfold reading. auto.
  - split; [|split; reflexivity].
    intros m Hr. apply quarter_starts. unfold quarter.
    Z.div_mod_to_equations. lia.
Qed.

Lemma quarter_mapping_witness :
  (forall t r,
     compute_timeunit (fixed_offset 3600) (DTimestamp t) "yearquarter"
     = Ok (DTimestamp r) ->
     tz r = None /\
     month_of (value r)
     = quarter (month_of (reading (fixed_offset 3600) "yearquarter" t)) /\
     In (month_of (value r)) [1; 4; 7; 10]) /\
  (forall a r,
     _compute_timeunit (fixed_offset 3600) "yearquarter" a = Ok r ->
     exists vs,
       r = DArray {| index := index a; i8 := vs; dtype_tz := None |} /\
       Forall2 (fun w v => month_of v = quarter (month_of w) /\
                           In (month_of v) [1; 4; 7; 10])
               (walls (fixed_offset 3600) a) vs) /\
  (forall m, 1 <= m <= 12 -> In (quarter m) [1; 4; 7; 10]) /\
  quarter 5 = 4 /\ quarter 11 = 10.
Proof.
  apply (quarter_mapping (fixed_offset 3600) "yearquarter" ["year"; "quarter"]);
    reflexivity.
Defined.

(** Scenario for C8: the third quarter of 2021 starts in July. *)
Example yearquarter_of_scenario_instant :
  compute_timeunit (fixed_offset 3600) (DTimestamp scenario_instant) "yearquarter"
  = Ok (DTimestamp {| value := 1625097600000000000; tz := None |}) /\
  month_of 1625097600000000000 = 7.
Proof. split; vm_compute; reflexivity. Qed.

(* ================================================================== *)
(** * Further properties *)

(* ================================================================== *)
(** ** The calendar, from day counts to dates *)

Lemma yoe_decompose doe :
  0 <= doe < 146097 ->
  let yoe := Calendar.yoe_of_doe doe in
  let doy := doe - (365 * yoe + yoe / 4 - yoe / 100) in
  0 <= yoe < 400 /\ 0 <= doy <= 365 /\
  (doy = 365 -> (yoe + 1) mod 4 = 0 /\ ((yoe + 1) mod 100 <> 0 \/ yoe = 399)).
Proof.
  intros Hd yoe doy. subst doy yoe. unfold Calendar.yoe_of_doe.
  assert (Hc : exists c r, doe = 36524 * c + r /\ 0 <= c <= 4 /\ 0 <= r < 36524).
  { exists (doe / 36524), (doe mod 36524). Z.div_mod_to_equations; lia. }
  destruct Hc as (c & r & -> & Hc & Hr).
  assert (Hcc : c = 0 \/ c = 1 \/ c = 2 \/ c = 3 \/ c = 4) by lia.
  destruct Hcc as [->|[->|[->|[->| ->]]]].
  all: split; [|split; [|intros E; split]].
  all: Z.div_mod_to_equations; lia.
Qed.

Lemma mp_decompose doy :
  0 <= doy <= 365 ->
  let mp := (5 * doy + 2) / 153 in
  let d := doy - (153 * mp + 2) / 5 + 1 in
  let m := if mp <? 10 then mp + 3 else mp - 9 in
  0 <= mp <= 11 /\ 1 <= m <= 12 /\ 1 <= d <= 31 /\
  (m = 4 \/ m = 6 \/ m = 9 \/ m = 11 -> d <= 30) /\
  (m = 2 -> d <= 29) /\ (m = 2 -> d = 29 -> doy = 365) /\
  Calendar.month_index m = mp /\ (153 * mp + 2) / 5 + d - 1 = doy.
Proof.
  intros Hd mp d m. subst m d.
  assert (Hmp : 0 <= mp <= 11) by (subst mp; Z.div_mod_to_equations; lia).
  assert (Hc : mp = 0 \/ mp = 1 \/ mp = 2 \/ mp = 3 \/ mp = 4 \/ mp = 5 \/
               mp = 6 \/ mp = 7 \/ mp = 8 \/ mp = 9 \/ mp = 10 \/ mp = 11) by lia.
  assert (Hdef : 153 * mp <= 5 * doy + 2 < 153 * mp + 153)
    by (subst mp; Z.div_mod_to_equations; lia).
  clearbody mp.
  destruct Hc as [->|[->|[->|[->|[->|[->|[->|[->|[->|[->|[->| ->]]]]]]]]]]];
    cbn -[Z.div Z.mul Z.add Z.sub]; repeat split; try lia;
    try (intros; Z.div_mod_to_equations; lia).
Qed.

Lemma not_leap_yoe era yoe :
  0 <= yoe < 400 ->
  (yoe + 1) mod 4 = 0 /\ ((yoe + 1) mod 100 <> 0 \/ yoe = 399) ->
  Calendar.is_leap (yoe + era * 400 + 1) = true.
Proof.
  intros Hy [H4 H100]. unfold Calendar.is_leap.
  destruct ((yoe + era * 400 + 1) mod 400 =? 0) eqn:E400;
    [now rewrite orb_true_r|].
  rewrite orb_false_r. apply Z.eqb_neq in E400.
  apply andb_true_intro. split.
  - apply Z.eqb_eq. Z.div_mod_to_equations. lia.
  - apply negb_true_iff, Z.eqb_neq. Z.div_mod_to_equations. lia.
Qed.

(** What is read from a day count is a date of the calendar, and the day
    count of that date. *)
Lemma civil_from_days_valid z :
  let '(y, m, d) := Calendar.civil_from_days z in
  1 <= m <= 12 /\ 1 <= d <= Calendar.days_in_month y m /\
  Calendar.days_from_civil y m d = z.
Proof.
  unfold Calendar.civil_from_days.
  set (z' := z + 719468). set (era := z' / 146097).
  set (doe := z' - era * 146097).
  assert (Hdoe : 0 <= doe < 146097) by (subst doe era; Z.div_mod_to_equations; lia).
  destruct (yoe_decompose doe Hdoe) as (Hyoe & Hdoy & Hleap).
  cbv zeta in Hyoe, Hdoy, Hleap.
  set (yoe := Calendar.yoe_of_doe doe) in *.
  set (doy := doe - (365 * yoe + yoe / 4 - yoe / 100)) in *.
  destruct (mp_decompose doy Hdoy) as (Hmp & Hm & Hd & H30 & H29 & H365 & Hmi & Hdy).
  cbv zeta in Hmp, Hm, Hd, H30, H29, H365, Hmi, Hdy.
  set (mp := (5 * doy + 2) / 153) in *.
  set (d := doy - (153 * mp + 2) / 5 + 1) in *.
  set (m := if mp <? 10 then mp + 3 else mp - 9) in *.
  split; [exact Hm|]. split; [split; [lia|]|].
  - unfold Calendar.days_in_month.
    destruct (m =? 2) eqn:E2.
    + apply Z.eqb_eq in E2. rewrite E2.
      cbn [Z.leb Z.compare Pos.compare Pos.compare_cont].
      specialize (H29 E2). specialize (H365 E2).
      destruct (Calendar.is_leap (yoe + era * 400 + 1)) eqn:El; [lia|].
      assert (d <> 29); [|lia]. intros E29.
      rewrite (not_leap_yoe era yoe Hyoe (Hleap (H365 E29))) in El. discriminate.
    + apply Z.eqb_neq in E2.
      destruct ((m =? 4) || (m =? 6) || (m =? 9) || (m =? 11)) eqn:E30; [|lia].
      assert (m = 4 \/ m = 6 \/ m = 9 \/ m = 11) as H.
      { repeat (apply orb_prop in E30; destruct E30 as [E30|E30]);
          apply Z.eqb_eq in E30; lia. }
      specialize (H30 H). lia.
  - unfold Calendar.days_from_civil. rewrite Hmi, Hdy.
    assert (Ey : (if m <=? 2 then yoe + era * 400 + (if m <=? 2 then 1 else 0) - 1
                  else yoe + era * 400 + (if m <=? 2 then 1 else 0))
                 = yoe + era * 400) by (destruct (m <=? 2); lia).
    rewrite Ey.
    assert (Ee : (yoe + era * 400) / 400 = era)
      by (rewrite Z.div_add by lia; rewrite Z.div_small by lia; lia).
    rewrite Ee.
    replace (yoe + era * 400 - era * 400) with yoe by lia.
    subst doy doe z'. lia.
Qed.

Lemma date_fields_valid w :
  1 <= month_of w <= 12 /\
  1 <= day_of w <= Calendar.days_in_month (year_of w) (month_of w) /\
  Calendar.days_from_civil (year_of w) (month_of w) (day_of w) = w / ns_per_day.
Proof.
  unfold month_of, day_of, year_of.
  pose proof (civil_from_days_valid (w / ns_per_day)) as H.
  destruct (Calendar.civil_from_days (w / ns_per_day)) as [[y m] d]. exact H.
Qed.

Lemma time_fields_bounds w :
  0 <= hour_of w < 24 /\ 0 <= minute_of w < 60 /\ 0 <= second_of w < 60 /\
  0 <= microsecond_of w < 1000000.
Proof.
  unfold hour_of, minute_of, second_of, microsecond_of,
    ns_per_day, ns_per_hour, ns_per_min, ns_per_s, ns_per_us.
  repeat split; Z.div_mod_to_equations; lia.
Qed.

(** A reading is its date and its time of day. *)
Lemma reading_of_fields w :
  w - w mod ns_per_ms
  = Calendar.days_from_civil (year_of w) (month_of w) (day_of w) * ns_per_day
    + hour_of w * ns_per_hour + minute_of w * ns_per_min
    + second_of w * ns_per_s + microsecond_of w / 1000 * 1000000.
Proof.
  destruct (date_fields_valid w) as (_ & _ & ->).
  unfold hour_of, minute_of, second_of, microsecond_of,
    ns_per_day, ns_per_hour, ns_per_min, ns_per_s, ns_per_us, ns_per_ms.
  Z.div_mod_to_equations. lia.
Qed.

(* ================================================================== *)
(** ** Printing and reading back, forwards *)

Lemma str_length_two n :
  0 <= n < 100 -> (String.length (Str.str n) <= 2)%nat.
Proof.
  intros Hn.
  assert (H : forallb (fun i => (String.length (Str.str (Z.of_nat i)) <=? 2)%nat)
                (seq 0 100) = true) by (vm_compute; reflexivity).
  rewrite forallb_forall in H.
  specialize (H (Z.to_nat n)). rewrite Z2Nat.id in H by lia.
  apply Nat.leb_le, H, in_seq. lia.
Qed.

Lemma str_length_four n :
  1000 <= n <= 9999 -> String.length (Str.str n) = 4%nat.
Proof.
  intros Hn.
  assert (H : forallb (fun i => (String.length (Str.str (Z.of_nat i)) =? 4)%nat)
                (seq (Z.to_nat 1000) (Z.to_nat 9000)) = true) by (vm_compute; reflexivity).
  rewrite forallb_forall in H.
  specialize (H (Z.to_nat n)). rewrite Z2Nat.id in H by lia.
  apply Nat.eqb_eq, H, in_seq. lia.
Qed.

Lemma read_digits_ok width k n rest :
  0 <= n -> String.length (Str.zfill k (Str.str n)) = width ->
  no_leading_digit rest = true ->
  read_digits width (Str.zfill k (Str.str n) ++ rest) = Some (n, rest).
Proof.
  intros Hn Hlen Hrest. unfold read_digits.
  destruct (str_nonneg n Hn) as (Hd & Hv & _).
  rewrite span_digits_append;
    [| unfold Str.zfill; rewrite all_digits_append, all_digits_zeros; exact Hd
     | exact Hrest].
  rewrite Hlen, Nat.eqb_refl. unfold Str.zfill.
  now rewrite digits_value_zeros, Hv.
Qed.

Lemma read_fraction_ok k n :
  0 <= n ->
  (1 <= String.length (Str.zfill k (Str.str n)) <= 9)%nat ->
  read_fraction (Str.zfill k (Str.str n))
  = Some (n * 10 ^ Z.of_nat (9 - String.length (Str.zfill k (Str.str n))), "").
Proof.
  intros Hn Hlen. unfold read_fraction.
  destruct (str_nonneg n Hn) as (Hd & Hv & _).
  rewrite <- (append_nil_r (Str.zfill k (Str.str n))) at 1.
  rewrite span_digits_append;
    [| unfold Str.zfill; rewrite all_digits_append, all_digits_zeros; exact Hd
     | reflexivity].
  destruct Hlen as [H1 H9]. apply Nat.leb_le in H1, H9. rewrite H1, H9.
  cbn [andb]. unfold Str.zfill at 1. now rewrite digits_value_zeros, Hv.
Qed.

Lemma length_zfill_two n :
  0 <= n < 100 -> String.length (Str.zfill 2 (Str.str n)) = 2%nat.
Proof. intros H. apply length_zfill, str_length_two, H. Qed.

Lemma parse_printed_ok y m d h mi s nf kf :
  1000 <= y <= 9999 -> 0 <= m < 100 -> 0 <= d < 100 -> 0 <= h < 100 ->
  0 <= mi < 100 -> 0 <= s < 100 -> 0 <= nf ->
  (1 <= String.length (Str.zfill kf (Str.str nf)) <= 9)%nat ->
  parse_iso8601
    (Str.str y ++ "-" ++ Str.zfill 2 (Str.str m) ++ "-" ++
     Str.zfill 2 (Str.str d) ++ " " ++ Str.zfill 2 (Str.str h) ++ ":" ++
     Str.zfill 2 (Str.str mi) ++ ":" ++ Str.zfill 2 (Str.str s) ++ "." ++
     Str.zfill kf (Str.str nf))%string
  = Some {| f_year := y; f_month := m; f_day := d;
            f_hour := h; f_minute := mi; f_second := s;
            f_nanos := nf * 10 ^ Z.of_nat (9 - String.length (Str.zfill kf (Str.str nf))) |}.
Proof.
  intros Hy Hm Hd Hh Hmi Hs Hnf Hlen. cbn [String.append].
  unfold parse_iso8601, parse_time.
  rewrite (read_digits_ok 4 0 y) by
    (try lia; try reflexivity; apply (str_length_four y Hy)).
  cbn [read_char]. rewrite Ascii.eqb_refl.
  rewrite (read_digits_ok 2 2 m) by
    (try lia; try reflexivity; apply length_zfill_two; lia).
  cbn [read_char]. rewrite Ascii.eqb_refl.
  rewrite (read_digits_ok 2 2 d) by
    (try lia; try reflexivity; apply length_zfill_two; lia).
  rewrite Ascii.eqb_refl. cbn [orb].
  rewrite (read_digits_ok 2 2 h) by
    (try lia; try reflexivity; apply length_zfill_two; lia).
  cbn [read_char]. rewrite Ascii.eqb_refl.
  rewrite (read_digits_ok 2 2 mi) by
    (try lia; try reflexivity; apply length_zfill_two; lia).
  cbn [read_char]. rewrite Ascii.eqb_refl.
  rewrite (read_digits_ok 2 2 s) by
    (try lia; try reflexivity; apply length_zfill_two; lia).
  rewrite Ascii.eqb_refl.
  now rewrite (read_fraction_ok kf nf Hnf Hlen).
Qed.

Lemma quarter_bounds m : 1 <= m <= 12 -> 1 <= quarter m <= 12.
Proof. unfold quarter. intros H. Z.div_mod_to_equations. lia. Qed.

Lemma ms_length units w :
  (1 <= String.length (Str.zfill (ms_width units) (Str.str (ms_of units w))) <= 9)%nat.
Proof.
  pose proof (ms_of_bounds units w) as Hb. revert Hb.
  unfold ms_of, ms_width. destruct (mem "milliseconds" units); intros Hb.
  - rewrite length_zfill by (apply str_length_small; exact Hb). lia.
  - cbn. lia.
Qed.

Lemma printed_bounds units w :
  1 <= M_of units w <= 12 /\ 1 <= D_of units w <= 31 /\
  0 <= h_of units w < 24 /\ 0 <= m_of units w < 60 /\ 0 <= s_of units w < 60.
Proof.
  destruct (date_fields_valid w) as (Hm & Hd & _).
  destruct (days_in_month_bounds _ _ _ Hd) as (Hd31 & _).
  destruct (time_fields_bounds w) as (Hh & Hmi & Hs & _).
  pose proof (quarter_bounds _ Hm) as Hq.
  unfold M_of, D_of, h_of, m_of, s_of.
  destruct (mem "month" units), (mem "quarter" units), (mem "date" units),
    (mem "hours" units), (mem "minutes" units), (mem "seconds" units); lia.
Qed.

(** The assembled string of a reading is read back as the fields that were
    printed, provided a printed year has four digits. *)
Lemma parse_render units w :
  (mem "year" units = true -> 1000 <= year_of w <= 9999) ->
  parse_iso8601 (render units w) = Some (fields_of units w).
Proof.
  intros Hy.
  destruct (printed_bounds units w) as (HM & HD & Hh & Hm & Hs).
  pose proof (ms_of_bounds units w) as Hms.
  unfold render. rewrite parse_printed_ok; try lia.
  - unfold fields_of. now rewrite nanos_of_ms.
  - unfold Y_of. destruct (mem "year" units); [now apply Hy | lia].
  - apply ms_length.
Qed.

(* ================================================================== *)
(** ** When a bucket exists *)

Lemma days_in_month_1900 y m :
  Calendar.days_in_month 1900 m
  = if m =? 2 then 28 else Calendar.days_in_month y m.
Proof. unfold Calendar.days_in_month. now destruct (m =? 2). Qed.

Lemma days_in_month_ge y m : 28 <= Calendar.days_in_month y m.
Proof.
  unfold Calendar.days_in_month.
  repeat match goal with |- context [if ?b then _ else _] => destruct b end; lia.
Qed.

Lemma days_in_month_quarter y m :
  1 <= m <= 12 ->
  Calendar.days_in_month y (quarter m)
  = if (4 <=? m) && (m <=? 6) then 30 else 31.
Proof.
  intros Hm.
  assert (Hc : m = 1 \/ m = 2 \/ m = 3 \/ m = 4 \/ m = 5 \/ m = 6 \/
               m = 7 \/ m = 8 \/ m = 9 \/ m = 10 \/ m = 11 \/ m = 12) by lia.
  destruct Hc as [->|[->|[->|[->|[->|[->|[->|[->|[->|[->|[->| ->]]]]]]]]]]];
    reflexivity.
Qed.

Ltac decide_comparisons :=
  repeat match goal with
  | |- context [?a <=? ?b] => destruct (Z.leb_spec a b)
  | |- context [?a =? ?b] => destruct (Z.eqb_spec a b)
  end; cbn [andb orb negb]; try reflexivity; try lia.

(** The printed day exists in the printed month and year unless the reading
    is one of the two days that the defaults cannot hold. *)
Lemma printed_day_fits units w :
  (D_of units w <=? Calendar.days_in_month (Y_of units w) (M_of units w))
  = negb (leap_day_without_year units w || may_31_in_quarter units w).
Proof.
  destruct (date_fields_valid w) as (Hm & Hd & _).
  destruct (days_in_month_bounds _ _ _ Hd) as (Hd31 & H30 & H29 & _).
  unfold D_of, Y_of, M_of, leap_day_without_year, may_31_in_quarter.
  destruct (mem "date" units).
  2: { rewrite !andb_false_r. cbn [andb orb negb]. apply Z.leb_le.
       match goal with |- 1 <= Calendar.days_in_month ?y ?m =>
         pose proof (days_in_month_ge y m) end. lia. }
  destruct (mem "month" units); cbn [andb negb orb].
  - rewrite !andb_false_r. cbn [andb]. rewrite orb_false_r.
    destruct (mem "year" units); cbn [andb negb].
    + apply Z.leb_le. lia.
    + rewrite (days_in_month_1900 (year_of w)).
      destruct (Z.eqb_spec (month_of w) 2) as [E|E]; cbn [andb].
      * specialize (H29 E). decide_comparisons.
      * apply Z.leb_le. lia.
  - destruct (mem "quarter" units); cbn [andb negb orb].
    + rewrite (days_in_month_quarter _ _ Hm). clear Hd.
      destruct (Z.leb_spec 4 (month_of w)), (Z.leb_spec (month_of w) 6);
        cbn [andb]; decide_comparisons.
    + match goal with |- context [Calendar.days_in_month ?y 1] =>
        change (Calendar.days_in_month y 1) with 31 end.
      apply Z.leb_le. lia.
Qed.

Lemma valid_fields_of units w :
  (mem "year" units = true -> 1 <= year_of w) ->
  valid_fields (fields_of units w)
  = negb (leap_day_without_year units w || may_31_in_quarter units w).
Proof.
  intros Hy. destruct (printed_bounds units w) as (HM & HD & Hh & Hm & Hs).
  unfold valid_fields, fields_of.
  cbn [f_year f_month f_day f_hour f_minute f_second].
  rewrite printed_day_fits.
  assert (E1 : (1 <=? Y_of units w) = true).
  { apply Z.leb_le. unfold Y_of. destruct (mem "year" units); [now apply Hy | lia]. }
  assert (E2 : (1 <=? M_of units w) = true) by (apply Z.leb_le; lia).
  assert (E3 : (M_of units w <=? 12) = true) by (apply Z.leb_le; lia).
  assert (E4 : (1 <=? D_of units w) = true) by (apply Z.leb_le; lia).
  assert (E5 : (h_of units w <? 24) = true) by (apply Z.ltb_lt; lia).
  assert (E6 : (m_of units w <? 60) = true) by (apply Z.ltb_lt; lia).
  assert (E7 : (s_of units w <? 60) = true) by (apply Z.ltb_lt; lia).
  rewrite E1, E2, E3, E4, E5, E6, E7. cbn [andb]. now rewrite !andb_true_r.
Qed.

Lemma days_from_civil_bounds y m d :
  1678 <= y <= 2261 -> 1 <= m <= 12 -> 1 <= d <= 31 ->
  -106751 <= Calendar.days_from_civil y m d <= 106749.
Proof.
  intros Hy Hm Hd. unfold Calendar.days_from_civil, Calendar.month_index.
  destruct (m <=? 2) eqn:E1; destruct (2 <? m) eqn:E2;
    try apply Z.leb_le in E1; try apply Z.leb_gt in E1;
    try apply Z.ltb_lt in E2; try apply Z.ltb_ge in E2; try lia;
    Z.div_mod_to_equations; lia.
Qed.

Lemma value_in_bounds units w :
  (mem "year" units = true -> 1678 <= year_of w <= 2261) ->
  (Timestamp_min <=? value_of_fields (fields_of units w))
  && (value_of_fields (fields_of units w) <=? Timestamp_max) = true.
Proof.
  intros Hy. destruct (printed_bounds units w) as (HM & HD & Hh & Hm & Hs).
  pose proof (ms_of_bounds units w) as Hms.
  assert (HY : 1678 <= Y_of units w <= 2261).
  { unfold Y_of. destruct (mem "year" units); [now apply Hy | lia]. }
  pose proof (days_from_civil_bounds _ _ _ HY HM HD) as Hdays.
  unfold value_of_fields, fields_of.
  cbn [f_year f_month f_day f_hour f_minute f_second f_nanos].
  apply andb_true_intro.
  split; apply Z.leb_le; unfold Timestamp_min, Timestamp_max, ns_per_day,
    ns_per_hour, ns_per_min, ns_per_s; change (2 ^ 63) with 9223372036854775808; lia.
Qed.

(** The outcome of bucketing one reading: its printed fields put together,
    or [ValueError] on the two days that the defaults cannot hold. *)
Lemma stamp_outcome units w :
  (mem "year" units = true -> 1678 <= year_of w <= 2261) ->
  stamp units w =
  if leap_day_without_year units w || may_31_in_quarter units w
  then Raise ValueError ("value out of range: " ++ render units w)
  else Ok (value_of_fields (fields_of units w)).
Proof.
  intros Hy. unfold stamp, to_datetime_str.
  rewrite parse_render by (intros H; specialize (Hy H); lia).
  rewrite valid_fields_of by (intros H; specialize (Hy H); lia).
  destruct (_ || _); cbn [negb]; [reflexivity|].
  now rewrite (value_in_bounds units w Hy).
Qed.

(* ================================================================== *)
(** ** [compute_timeunit] in terms of readings *)

Lemma not_day_name u units :
  _parse_timeunit_string u = Ok units -> mem "day" units = false ->
  existsb (String.eqb u) ["day"; "utcday"] = false.
Proof.
  intros Hparse Hday. cbn [existsb].
  destruct (String.eqb u "day") eqn:E1.
  - apply String.eqb_eq in E1. subst u. injection Hparse as <-. discriminate Hday.
  - destruct (String.eqb u "utcday") eqn:E2; [|reflexivity].
    apply String.eqb_eq in E2. subst u. injection Hparse as <-. discriminate Hday.
Qed.

Lemma readings_walls local u a :
  walls local (normalize local u a) = readings local u (DArray a).
Proof. apply walls_normalize. Qed.

(** When the workhorse goes element by element, so does [compute_timeunit],
    for a scalar and for a sequence alike. *)
Lemma compute_timeunit_elementwise local x u (f : Z -> result Z) :
  (forall a, _compute_timeunit local u a =
             vs <- mapM f (walls local a) ;;
             Ok (DArray {| index := index a; i8 := vs; dtype_tz := None |})) ->
  compute_timeunit local x u =
  vs <- mapM f (readings local u x) ;; Ok (with_values x vs).
Proof.
  intros Hf. destruct x as [t|a].
  - rewrite compute_timeunit_scalar, Hf, walls_normalize.
    cbn [DatetimeIndex i8 map mapM dtype_tz readings]. unfold reading.
    destruct (f _) as [v|]; reflexivity.
  - rewrite compute_timeunit_array, !Hf, readings_walls.
    destruct (mapM f _) as [vs|]; [|destruct (index a); reflexivity].
    cbn [bind normalize index with_values].
    destruct (index a) eqn:E; cbn [Series index]; rewrite ?E; reflexivity.
Qed.

Lemma compute_timeunit_stamps local x u units :
  _parse_timeunit_string u = Ok units ->
  mem "day" units = false -> has_field units = true ->
  compute_timeunit local x u =
  vs <- mapM (stamp units) (readings local u x) ;; Ok (with_values x vs).
Proof.
  intros Hparse Hday Hf. apply compute_timeunit_elementwise. intros a.
  apply (_compute_timeunit_fields local u units a
           (not_day_name u units Hparse Hday) Hparse Hday Hf).
Qed.

Lemma compute_timeunit_day_buckets local x u :
  existsb (String.eqb u) ["day"; "utcday"] = true ->
  compute_timeunit local x u
  = Ok (with_values x (map day_bucket (readings local u x))).
Proof.
  intros Hu.
  rewrite (compute_timeunit_elementwise local x u (fun w => Ok (day_bucket w))).
  - now rewrite mapM_Ok.
  - intros a. rewrite (_compute_timeunit_day_bucket local u a Hu).
    now rewrite mapM_Ok.
Qed.

Lemma mapM_all_ok {A B : Type} (f : A -> result B) (g : A -> B) l :
  (forall x, In x l -> f x = Ok (g x)) -> mapM f l = Ok (map g l).
Proof.
  induction l as [|x l IH]; intros H; cbn; [reflexivity|].
  rewrite (H x (or_introl eq_refl)), IH; [reflexivity|].
  intros y Hy. apply H. now right.
Qed.

Lemma mapM_raises {A B : Type} (f : A -> result B) (c : exc_class) l :
  (forall x, In x l -> (exists y, f x = Ok y) \/ raises (f x) c) ->
  (exists x, In x l /\ raises (f x) c) ->
  raises (mapM f l) c.
Proof.
  induction l as [|x l IH]; intros Hall (x0 & Hin & Hr); [destruct Hin|].
  cbn [mapM].
  destruct (Hall x (or_introl eq_refl)) as [[y Ey]|[msg Er]].
  - rewrite Ey. cbn [bind].
    assert (Hl : raises (mapM f l) c).
    { apply IH; [intros z Hz; apply Hall; now right|].
      destruct Hin as [->|Hin]; [|now exists x0].
      destruct Hr as [msg Er]. rewrite Er in Ey. discriminate. }
    destruct Hl as [msg ->]. now exists msg.
  - rewrite Er. now exists msg.
Qed.

(** The value of a bucket is the printed fields put together. *)
Lemma stamp_value units w v :
  stamp units w = Ok v -> v = value_of_fields (fields_of units w).
Proof.
  unfold stamp, to_datetime_str.
  destruct (parse_iso8601 (render units w)) as [f|] eqn:Ep; [|discriminate].
  pose proof (ms_of_bounds units w) as Hms.
  apply parse_printed in Ep; [|lia].
  destruct Ep as (Ef & _). rewrite nanos_of_ms in Ef.
  fold (fields_of units w) in Ef. subst f.
  destruct (valid_fields _); [|discriminate].
  destruct (_ && _); [|discriminate]. cbn [bind value].
  intros H. now injection H as <-.
Qed.

Lemma value_of_fields_resolution units w :
  value_of_fields (fields_of units w) mod ns_per_ms = 0 /\
  (mem "milliseconds" units = false ->
   value_of_fields (fields_of units w) mod ns_per_s = 0).
Proof.
  unfold value_of_fields, fields_of.
  cbn [f_year f_month f_day f_hour f_minute f_second f_nanos].
  unfold ns_per_day, ns_per_hour, ns_per_min, ns_per_s, ns_per_ms. split.
  - Z.div_mod_to_equations. lia.
  - intros E. unfold ms_of. rewrite E. Z.div_mod_to_equations. lia.
Qed.

Lemma day_bucket_midnight w : day_bucket w mod ns_per_day = 0.
Proof.
  unfold day_bucket, day_anchor. cbn [value].
  unfold ns_per_day, ns_per_hour, ns_per_min, ns_per_s.
  Z.div_mod_to_equations. lia.
Qed.

Lemma full_timeunit_parses :
  _parse_timeunit_string full_timeunit
  = Ok ["year"; "month"; "date"; "hours"; "minutes"; "seconds"; "milliseconds"].
Proof. vm_compute. reflexivity. Qed.

Lemma full_fields_value w :
  value_of_fields
    (fields_of ["year"; "month"; "date"; "hours"; "minutes"; "seconds";
                "milliseconds"] w)
  = w - w mod ns_per_ms.
Proof.
  rewrite reading_of_fields. unfold value_of_fields, fields_of.
  cbn [f_year f_month f_day f_hour f_minute f_second f_nanos].
  reflexivity.
Qed.

(* ================================================================== *)
(** ** The parser accepts exactly the selections of the tokens *)

Lemma selection_In {A : Type} (s l : list A) :
  selection s l -> In s (selections l).
Proof.
  induction 1 as [|x s l _ IH|x s l _ IH]; cbn [selections].
  - now left.
  - apply in_or_app. left. now apply in_map.
  - apply in_or_app. now right.
Qed.

Lemma list_eqb_eq l l' : list_eqb l l' = true -> l = l'.
Proof.
  revert l'. induction l as [|x l IH]; intros [|y l'] H; cbn in H;
    try discriminate; [reflexivity|].
  apply andb_prop in H. destruct H as [E H].
  apply String.eqb_eq in E. subst y. now rewrite (IH l' H).
Qed.

Lemma parses_back_all tail :
  re.at_end tail = true ->
  forallb (parses_back tail) (selections _simple_timeunits) = true.
Proof.
  intros H. unfold re.at_end in H. apply orb_prop in H.
  destruct H as [H|H]; apply String.eqb_eq in H; subst tail;
    vm_compute; reflexivity.
Qed.

Lemma regex_match_selection names s g :
  (forall n, In n names -> n <> "") ->
  re.regex_match names s = Some g -> selection (keys g) names.
Proof.
  revert s g. induction names as [|n names IH]; intros s g Hne H.
  - cbn [re.regex_match] in H. destruct (re.at_end s); [|discriminate].
    injection H as <-. constructor.
  - apply regex_match_cons in H; [|apply Hne; now left].
    destruct H as (g' & r & Hg' & Hcase).
    assert (Hs : selection (keys g') names)
      by (apply (IH r g'); [intros k Hk; apply Hne; now right | exact Hg']).
    destruct Hcase as [[_ ->]|[_ ->]]; now constructor.
Qed.

Lemma simple_timeunits_nonempty n : In n _simple_timeunits -> n <> "".
Proof.
  intros Hn. cbn in Hn.
  repeat (destruct Hn as [<-|Hn]; [discriminate|]). destruct Hn.
Qed.

Lemma parse_spelling timeunit units :
  _parse_timeunit_string timeunit = Ok units ->
  selection units _simple_timeunits /\
  exists tail, re.at_end tail = true /\
               timeunit = (Str.join units ++ tail)%string.
Proof.
  intros H. destruct (parse_sound _ _ H) as [Htail _]. split; [|exact Htail].
  unfold _parse_timeunit_string, _timeunit_regex in H.
  destruct (re.regex_match _simple_timeunits timeunit) as [g|] eqn:E;
    [|discriminate].
  injection H as <-. fold (keys g).
  apply (regex_match_selection _simple_timeunits timeunit g);
    [exact simple_timeunits_nonempty | exact E].
Qed.

(** X1.  What [_parse_timeunit_string] returns is a selection of the ten
    tokens in their canonical order, and the string is these tokens one
    after the other, possibly followed by one newline. *)
Theorem parse_returns_selection timeunit units :
  _parse_timeunit_string timeunit = Ok units ->
  selection units _simple_timeunits /\
  (timeunit = Str.join units \/
   timeunit = (Str.join units ++ re.newline)%string).
Proof.
  intros H. destruct (parse_spelling _ _ H) as (Hsel & tail & Ht & Hj).
  split; [exact Hsel|].
  destruct (at_end_spec tail Ht) as [-> | ->]; [left|right]; [|exact Hj].
  now rewrite append_nil_r in Hj.
Qed.

Lemma parse_returns_selection_witness :
  selection ["utc"; "year"; "quarter"] _simple_timeunits /\
  ("utcyearquarter" = Str.join ["utc"; "year"; "quarter"] \/
   "utcyearquarter" = (Str.join ["utc"; "year"; "quarter"] ++ re.newline)%string).
Proof.
  apply (parse_returns_selection "utcyearquarter" ["utc"; "year"; "quarter"]).
  reflexivity.
Defined.

(** X2.  Every selection of the ten tokens in their canonical order, written
    out without separators, parses to exactly that selection; so it does
    with one newline after it. *)
Theorem parse_accepts_selection sel :
  selection sel _simple_timeunits ->
  _parse_timeunit_string (Str.join sel) = Ok sel /\
  _parse_timeunit_string (Str.join sel ++ re.newline) = Ok sel.
Proof.
  intros H. apply selection_In in H.
  assert (Hback : forall tail, re.at_end tail = true ->
            _parse_timeunit_string (Str.join sel ++ tail) = Ok sel).
  { intros tail Ht. pose proof (parses_back_all tail Ht) as Hall.
    rewrite forallb_forall in Hall. specialize (Hall sel H).
    unfold parses_back in Hall.
    destruct (_parse_timeunit_string (Str.join sel ++ tail)) as [units|];
      [|discriminate].
    now rewrite (list_eqb_eq _ _ Hall). }
  split.
  - rewrite <- (append_nil_r (Str.join sel)). now apply Hback.
  - now apply Hback.
Qed.

Lemma parse_accepts_selection_witness :
  _parse_timeunit_string (Str.join ["year"; "month"; "hours"])
  = Ok ["year"; "month"; "hours"] /\
  _parse_timeunit_string (Str.join ["year"; "month"; "hours"] ++ re.newline)
  = Ok ["year"; "month"; "hours"].
Proof.
  apply (parse_accepts_selection ["year"; "month"; "hours"]).
  repeat first [apply sel_nil | apply sel_take | apply sel_skip].
Defined.

(* ================================================================== *)
(** ** What the result of [compute_timeunit] looks like *)

Lemma _compute_timeunit_only_utc local u a :
  _parse_timeunit_string u = Ok ["utc"] ->
  _compute_timeunit local u a = Ok (DTimestamp epoch_1900).
Proof.
  intros H.
  rewrite (_compute_timeunit_general local u ["utc"] a
             (not_day_name u ["utc"] H eq_refl) H eq_refl)
    by discriminate.
  vm_compute. reflexivity.
Qed.

(** A result is either built element by element from the readings of the
    argument, or it is the lone 1900-01-01 of the field set [{utc}]. *)
Lemma compute_timeunit_result local x u r :
  compute_timeunit local x u = Ok r ->
  (exists vs, mapM (bucket u) (readings local u x) = Ok vs /\
              r = with_values x vs) \/
  (_parse_timeunit_string u = Ok ["utc"] /\
   values_of r = [value epoch_1900] /\ tz_of r = None).
Proof.
  intros H.
  destruct (_compute_timeunit_cases local u) as [HB|[(c & msg & HR)|Hutc]].
  - left. rewrite (compute_timeunit_elementwise local x u _ HB) in H.
    destruct (mapM _ _) as [vs|]; [|discriminate].
    injection H as <-. now exists vs.
  - rewrite (compute_timeunit_raise local x u c msg HR) in H. discriminate.
  - right. split; [exact Hutc|]. destruct x as [t|a].
    + rewrite compute_timeunit_scalar, (_compute_timeunit_only_utc _ _ _ Hutc) in H.
      discriminate.
    + rewrite compute_timeunit_array, !(_compute_timeunit_only_utc _ _ _ Hutc) in H.
      destruct (index a); injection H as <-; split; reflexivity.
Qed.

Lemma tz_of_with_values x vs : tz_of (with_values x vs) = None.
Proof. destruct x; reflexivity. Qed.

Lemma values_of_with_values x vs :
  List.length vs = List.length (values_of x) ->
  values_of (with_values x vs) = vs.
Proof.
  destruct x as [t|a]; cbn [values_of with_values value i8]; [|reflexivity].
  destruct vs as [|v [|v' vs]]; cbn; intros H; try discriminate. reflexivity.
Qed.

Lemma length_readings local u x :
  List.length (readings local u x) = List.length (values_of x).
Proof. destruct x; cbn; [reflexivity | apply length_map]. Qed.

(** X3.  Whatever the input, its zone tag and the timeunit, a result of
    [compute_timeunit] carries no zone: a naive timestamp, index or series. *)
Theorem result_is_naive local x u r :
  compute_timeunit local x u = Ok r -> tz_of r = None.
Proof.
  intros H. destruct (compute_timeunit_result local x u r H)
    as [(vs & _ & ->)|(_ & _ & Hn)]; [apply tz_of_with_values | exact Hn].
Qed.

Lemma result_is_naive_witness :
  tz_of (DTimestamp {| value := -2208942000000000000; tz := None |}) = None.
Proof.
  apply (result_is_naive (fixed_offset 3600) (DTimestamp scenario_instant)
           "utchours").
  vm_compute. reflexivity.
Defined.

Lemma bucket_resolution u w v :
  bucket u w = Ok v ->
  v mod ns_per_ms = 0 /\
  (forall units, _parse_timeunit_string u = Ok units ->
                 mem "milliseconds" units = false -> v mod ns_per_s = 0).
Proof.
  unfold bucket. destruct (existsb _ _) eqn:Hname.
  - intros H. injection H as <-.
    pose proof (day_bucket_midnight w) as Hm. revert Hm.
    unfold ns_per_day, ns_per_hour, ns_per_min, ns_per_s, ns_per_ms.
    intros Hm. split; [|intros _ _ _]; Z.div_mod_to_equations; lia.
  - destruct (_parse_timeunit_string u) as [units|]; [|discriminate].
    cbn [bind]. intros H. apply stamp_value in H. subst v.
    destruct (value_of_fields_resolution units w) as [H1 H2].
    split; [exact H1|]. intros units' E. injection E as <-. exact H2.
Qed.

Lemma mapM_Forall {A B : Type} (f : A -> result B) (P : B -> Prop) l l' :
  (forall x y, f x = Ok y -> P y) -> mapM f l = Ok l' -> Forall P l'.
Proof.
  intros HP H. apply mapM_Forall2 in H.
  induction H; constructor; eauto.
Qed.

(** X4.  Every value [compute_timeunit] returns is a whole number of
    milliseconds, and a whole number of seconds unless the field set holds
    [milliseconds]: whatever the precision of the input, nothing below the
    millisecond survives. *)
Theorem result_resolution local x u r :
  compute_timeunit local x u = Ok r ->
  Forall (fun v => v mod ns_per_ms = 0) (values_of r) /\
  (forall units, _parse_timeunit_string u = Ok units ->
                 mem "milliseconds" units = false ->
                 Forall (fun v => v mod ns_per_s = 0) (values_of r)).
Proof.
  intros H. destruct (compute_timeunit_result local x u r H)
    as [(vs & Hvs & ->)|(Hu & Hv & _)].
  - rewrite values_of_with_values
      by (rewrite (mapM_length _ _ _ Hvs); apply length_readings).
    split.
    + apply (mapM_Forall _ _ _ _ (fun w v E => proj1 (bucket_resolution u w v E)) Hvs).
    + intros units Hp Hms.
      apply (mapM_Forall _ _ _ _
               (fun w v E => proj2 (bucket_resolution u w v E) units Hp Hms) Hvs).
  - rewrite Hv. split; [|intros _ _ _]; repeat constructor.
Qed.

Lemma result_resolution_witness :
  Forall (fun v => v mod ns_per_ms = 0)
    (values_of (DTimestamp {| value := -2208942000000000000; tz := None |})) /\
  (forall units, _parse_timeunit_string "utchours" = Ok units ->
                 mem "milliseconds" units = false ->
                 Forall (fun v => v mod ns_per_s = 0)
                   (values_of (DTimestamp {| value := -2208942000000000000;
                                             tz := None |}))).
Proof.
  apply (result_resolution (fixed_offset 3600) (DTimestamp scenario_instant)
           "utchours").
  vm_compute. reflexivity.
Defined.

(* ================================================================== *)
(** ** Default substitution *)

Lemma stamp_fields_exact units w v :
  stamp units w = Ok v ->
  year_of v = Y_of units w /\ month_of v = M_of units w /\
  day_of v = D_of units w /\ hour_of v = h_of units w /\
  minute_of v = m_of units w /\ second_of v = s_of units w /\
  microsecond_of v = ms_of units w * 1000.
Proof.
  intros H.
  destruct (stamp_fields units w v H) as (E1 & E2 & E3 & E4 & E5 & E6 & E7 & _).
  repeat (split; [assumption|]).
  apply stamp_value in H.
  destruct (value_of_fields_resolution units w) as [Hr _]. rewrite <- H in Hr.
  revert E7 Hr. unfold microsecond_of, ns_per_day, ns_per_hour, ns_per_min,
    ns_per_s, ns_per_us, ns_per_ms.
  intros E7 Hr. Z.div_mod_to_equations. lia.
Qed.

(** X5.  Default substitution.  For a field set without [day] that selects
    a calendar field, each element of the result has, component by
    component, the value read from the corresponding reading when the
    token is present and else the default: year 1900, month 1 (or the first
    month of the quarter when [quarter] is present), day 1, and 0 for
    hours, minutes, seconds and milliseconds. *)
Theorem default_substitution local x u units r :
  _parse_timeunit_string u = Ok units ->
  mem "day" units = false -> has_field units = true ->
  compute_timeunit local x u = Ok r ->
  exists vs,
    r = with_values x vs /\
    Forall2 (fun w v =>
               year_of v = (if mem "year" units then year_of w else 1900) /\
               month_of v = (if mem "month" units then month_of w
                             else if mem "quarter" units
                             then quarter (month_of w) else 1) /\
               day_of v = (if mem "date" units then day_of w else 1) /\
               hour_of v = (if mem "hours" units then hour_of w else 0) /\
               minute_of v = (if mem "minutes" units then minute_of w else 0) /\
               second_of v = (if mem "seconds" units then second_of w else 0) /\
               microsecond_of v = (if mem "milliseconds" units
                                   then microsecond_of w / 1000 else 0) * 1000)
            (readings local u x) vs.
Proof.
  intros Hparse Hday Hf H.
  rewrite (compute_timeunit_stamps local x u units Hparse Hday Hf) in H.
  destruct (mapM _ _) as [vs|] eqn:E; [|discriminate].
  injection H as <-. exists vs. split; [reflexivity|].
  apply mapM_Forall2 in E. induction E as [|w v ws vs' Hs _ IH]; constructor;
    [|exact IH].
  exact (stamp_fields_exact units w v Hs).
Qed.

Lemma default_substitution_witness :
  exists vs,
    DTimestamp new_year_2021 = with_values (DTimestamp scenario_instant) vs /\
    Forall2 (fun w v =>
               year_of v = (if mem "year" ["utc"; "year"] then year_of w else 1900) /\
               month_of v = (if mem "month" ["utc"; "year"] then month_of w
                             else if mem "quarter" ["utc"; "year"]
                             then quarter (month_of w) else 1) /\
               day_of v = (if mem "date" ["utc"; "year"] then day_of w else 1) /\
               hour_of v = (if mem "hours" ["utc"; "year"] then hour_of w else 0) /\
               minute_of v = (if mem "minutes" ["utc"; "year"] then minute_of w else 0) /\
               second_of v = (if mem "seconds" ["utc"; "year"] then second_of w else 0) /\
               microsecond_of v = (if mem "milliseconds" ["utc"; "year"]
                                   then microsecond_of w / 1000 else 0) * 1000)
            (readings (fixed_offset 3600) "utcyear" (DTimestamp scenario_instant)) vs.
Proof.
  apply (default_substitution (fixed_offset 3600) (DTimestamp scenario_instant)
           "utcyear" ["utc"; "year"] (DTimestamp new_year_2021));
    vm_compute; reflexivity.
Defined.

(* ================================================================== *)
(** ** When [compute_timeunit] returns *)

Lemma stamp_ok_or_value_error units w :
  year_in_range units w ->
  (unprintable units w = false /\
   stamp units w = Ok (value_of_fields (fields_of units w))) \/
  (unprintable units w = true /\ raises (stamp units w) ValueError).
Proof.
  intros Hy. rewrite (stamp_outcome units w Hy). fold (unprintable units w).
  destruct (unprintable units w); [right|left]; split; try reflexivity.
  eexists. reflexivity.
Qed.



(** X7.  A field set that prints month and day of the month without the
    year makes [compute_timeunit] raise [ValueError] on every input that
    holds a 29 February: the default year 1900 has none. *)
Theorem leap_day_raises local x u units :
  _parse_timeunit_string u = Ok units ->
  mem "day" units = false -> mem "month" units = true ->
  mem "date" units = true -> mem "year" units = false ->
  (exists w, In w (readings local u x) /\ month_of w = 2 /\ day_of w = 29) ->
  raises (compute_timeunit local x u) ValueError.
Proof.
  intros Hparse Hday Hm Hd Hy (w & Hw & Em & Ed).
  assert (Hf : has_field units = true)
    by (unfold has_field; rewrite Hm; now rewrite !orb_true_r).
  assert (Hrange : forall w', year_in_range units w')
    by (intros w' H; congruence).
  rewrite (compute_timeunit_stamps local x u units Hparse Hday Hf).
  assert (Hr : raises (mapM (stamp units) (readings local u x)) ValueError).
  { apply mapM_raises.
    - intros w' _.
      destruct (stamp_ok_or_value_error units w' (Hrange w')) as [[_ E]|[_ E]];
        [left; eexists; exact E | right; exact E].
    - exists w. split; [exact Hw|].
      destruct (stamp_ok_or_value_error units w (Hrange w)) as [[E _]|[_ E]];
        [|exact E].
      unfold unprintable, leap_day_without_year in E.
      rewrite Hm, Hd, Hy, Em, Ed in E. discriminate E. }
  destruct Hr as [msg ->]. now exists msg.
Qed.

Lemma leap_day_raises_witness :
  raises (compute_timeunit (fixed_offset 0)
            (DTimestamp {| value := 1582977600 * ns_per_s; tz := Some UTC |})
            "monthdate") ValueError.
Proof.
  apply (leap_day_raises (fixed_offset 0)
           (DTimestamp {| value := 1582977600 * ns_per_s; tz := Some UTC |})
           "monthdate" ["month"; "date"]);
    try reflexivity.
  exists (1582977600 * ns_per_s). split; [now left|].
  split; vm_compute; reflexivity.
Defined.

Lemma dated_fields_value units w :
  mem "year" units = true -> mem "month" units = true ->
  mem "date" units = true ->
  value_of_fields (fields_of units w)
  = w / ns_per_day * ns_per_day + h_of units w * ns_per_hour
    + m_of units w * ns_per_min + s_of units w * ns_per_s
    + ms_of units w * 1000000.
Proof.
  intros Hy Hm Hd. unfold value_of_fields, fields_of, Y_of, M_of, D_of.
  cbn [f_year f_month f_day f_hour f_minute f_second f_nanos].
  rewrite Hy, Hm, Hd.
  destruct (date_fields_valid w) as (_ & _ & ->). reflexivity.
Qed.

Lemma truncated_value u p :
  In (u, p) truncating_timeunits ->
  exists units,
    _parse_timeunit_string u = Ok units /\
    mem "day" units = false /\ has_field units = true /\
    mem "year" units = true /\
    forall w, unprintable units w = false /\
              value_of_fields (fields_of units w) = w - w mod p.
Proof.
  intros H. cbn [truncating_timeunits In] in H.
  repeat (destruct H as [H|H];
    [injection H as <- <-; eexists;
     split; [vm_compute; reflexivity|];
     split; [reflexivity|]; split; [reflexivity|]; split; [reflexivity|];
     intros w; split; [reflexivity|];
     rewrite dated_fields_value by reflexivity;
     unfold h_of, m_of, s_of, ms_of;
     cbn [mem existsb String.eqb Ascii.eqb Bool.eqb orb];
     unfold hour_of, minute_of, second_of, microsecond_of,
       ns_per_day, ns_per_hour, ns_per_min, ns_per_s, ns_per_us, ns_per_ms;
     Z.div_mod_to_equations; lia|]).
  destruct H.
Qed.

(** X8.  The timeunits that name year, month and date and then the time
    of day down to some unit (the day, the hour, the minute, the second or
    the millisecond), with or without [utc], cut each reading down to that
    unit: the result holds [w - w mod p] for the reading [w] and the length
    [p] of the unit, for scalars and sequences, on readings of the years
    1678 to 2261. *)
Theorem prefix_timeunit_truncates local x u p :
  In (u, p) truncating_timeunits ->
  Forall (fun w => 1678 <= year_of w <= 2261) (readings local u x) ->
  compute_timeunit local x u
  = Ok (with_values x (map (fun w => w - w mod p) (readings local u x))).
Proof.
  intros Hin Hy.
  destruct (truncated_value u p Hin) as (units & Hparse & Hday & Hf & _ & Hv).
  rewrite (compute_timeunit_stamps local x u units Hparse Hday Hf).
  rewrite Forall_forall in Hy.
  rewrite (mapM_all_ok _ (fun w => w - w mod p)); [reflexivity|].
  intros w Hw. rewrite stamp_outcome by (intros _; apply Hy, Hw).
  destruct (Hv w) as [Hu ->]. unfold unprintable in Hu. now rewrite Hu.
Qed.

Lemma prefix_timeunit_truncates_witness :
  compute_timeunit (fixed_offset 3600) (DTimestamp scenario_instant)
    "yearmonthdatehours"
  = Ok (with_values (DTimestamp scenario_instant)
          (map (fun w => w - w mod ns_per_hour)
               (readings (fixed_offset 3600) "yearmonthdatehours"
                  (DTimestamp scenario_instant)))).
Proof.
  apply (prefix_timeunit_truncates (fixed_offset 3600)
           (DTimestamp scenario_instant) "yearmonthdatehours" ns_per_hour).
  - right. left. reflexivity.
  - repeat constructor; vm_compute; discriminate.
Defined.

(** X9.  In a zone without transitions the full timeunit returns a naive
    timestamp at millisecond resolution of the years 1678 to 2261
    unchanged. *)
Theorem full_timeunit_identity o T :
  tz T = None -> ms_resolution T -> 1678 <= year_of (value T) <= 2261 ->
  compute_timeunit (fixed_offset o) (DTimestamp T) full_timeunit
  = Ok (DTimestamp T).
Proof.
  intros Hn Hms Hy. destruct T as [v z]. cbn [tz value] in *. subst z.
  assert (Er : readings (fixed_offset o) full_timeunit
                 (DTimestamp {| value := v; tz := None |}) = [v]).
  { cbn [readings]. unfold reading, wall, utc_value, localize, offset_at,
      offset_of_wall. cbn. f_equal. lia. }
  rewrite (compute_timeunit_stamps _ _ full_timeunit _ full_timeunit_parses)
    by reflexivity.
  rewrite Er. cbn [mapM].
  rewrite stamp_outcome by (intros _; exact Hy).
  unfold leap_day_without_year, may_31_in_quarter.
  cbn [mem existsb String.eqb Ascii.eqb Bool.eqb andb orb negb bind].
  rewrite full_fields_value. unfold ms_resolution in Hms. cbn [value] in Hms.
  rewrite Hms, Z.sub_0_r. reflexivity.
Qed.

Lemma full_timeunit_identity_witness :
  compute_timeunit (fixed_offset 3600)
    (DTimestamp {| value := 1626356730250000000; tz := None |}) full_timeunit
  = Ok (DTimestamp {| value := 1626356730250000000; tz := None |}).
Proof.
  apply (full_timeunit_identity 3600
           {| value := 1626356730250000000; tz := None |}).
  - reflexivity.
  - reflexivity.
  - vm_compute. split; discriminate.
Defined.

(* ================================================================== *)
(** ** The day timeunits on every shape *)

Lemma day_bucket_in_week w :
  exists k, 0 <= k < 7 /\ day_bucket w = value (anchor_plus k) /\
            dayofweek_of (day_bucket w) = dayofweek_of w.
Proof.
  assert (Hw : 0 <= dayofweek_of w < 7)
    by (unfold dayofweek_of, Calendar.weekday_of_days; apply Z.mod_pos_bound; lia).
  exists ((dayofweek_of w + 1) mod 7).
  assert (Hk : 0 <= (dayofweek_of w + 1) mod 7 < 7) by (apply Z.mod_pos_bound; lia).
  split; [exact Hk|]. split; [reflexivity|].
  unfold day_bucket. fold (anchor_plus ((dayofweek_of w + 1) mod 7)).
  change (value day_anchor + (dayofweek_of w + 1) mod 7 * ns_per_day)
    with (value (anchor_plus ((dayofweek_of w + 1) mod 7))).
  rewrite (dayofweek_anchor_plus _ Hk). Z.div_mod_to_equations. lia.
Qed.



(* ================================================================== *)
(** ** What [compute_timeunit] looks at *)

Lemma accessor_walls {A : Type} local (f : Z -> A) a :
  accessor local f a = {| cindex := index a; cdata := map f (walls local a) |}.
Proof. unfold accessor, walls. now rewrite map_map. Qed.

(** The workhorse sees its argument through the labels and the wall-clock
    readings only. *)
Lemma _compute_timeunit_walls local local' name a a' :
  index a = index a' -> walls local a = walls local' a' ->
  _compute_timeunit local name a = _compute_timeunit local' name a'.
Proof.
  intros Hi Hw.
  unfold _compute_timeunit, year, month, day, hour, minute, second,
    microsecond, dayofweek.
  rewrite !accessor_walls, Hi, Hw. reflexivity.
Qed.

Lemma compute_timeunit_readings local local' x x' u :
  is_scalar x = is_scalar x' -> labels_of x = labels_of x' ->
  readings local u x = readings local' u x' ->
  compute_timeunit local x u = compute_timeunit local' x' u.
Proof.
  intros Hs Hl Hr. destruct x as [t|a], x' as [t'|a']; try discriminate Hs.
  - rewrite !compute_timeunit_scalar.
    rewrite (_compute_timeunit_walls local local' u
               (normalize local u (DatetimeIndex [t]))
               (normalize local' u (DatetimeIndex [t']))); [reflexivity..| ].
    rewrite !readings_walls. cbn [readings] in Hr.
    cbn [readings DatetimeIndex i8 dtype_tz map]. exact Hr.
  - cbn [labels_of] in Hl. rewrite !compute_timeunit_array, <- Hl.
    rewrite (_compute_timeunit_walls local local' u
               (normalize local u a) (normalize local' u a'));
      [reflexivity | exact Hl | now rewrite !readings_walls].
Qed.

Lemma tz_convert_readings local x x' z u :
  tz_convert x z = Ok x' ->
  is_scalar x' = is_scalar x /\ labels_of x' = labels_of x /\
  readings local u x' = readings local u x.
Proof.
  unfold tz_convert. destruct x as [[v [t|]]|[ix vs [t|]]];
    cbn [tz_of tz dtype_tz]; intros H; try discriminate;
    injection H as <-; repeat split.
Qed.

Lemma tz_localize_readings local x x' u :
  tz_of x = None -> tz_localize local x (Some tzlocal) = Ok x' ->
  is_scalar x' = is_scalar x /\ labels_of x' = labels_of x /\
  readings local u x' = readings local u x.
Proof.
  unfold tz_localize. intros Hn. rewrite Hn.
  destruct x as [[v t]|[ix vs t]]; cbn [tz_of tz dtype_tz] in Hn; subst t;
    intros H; injection H as <-; repeat split.
  cbn [readings dtype_tz i8]. rewrite map_map. reflexivity.
Qed.

(** X11.  [compute_timeunit] looks at the instants of its argument, not at
    the zone they are expressed in: an aware date converted to another zone
    ([tz_convert]), and a naive date localised to the local zone, give the
    result of the original, value or exception. *)
Theorem compute_timeunit_ignores_tag local x x' u :
  (exists z, tz_convert x z = Ok x') \/
  (tz_of x = None /\ tz_localize local x (Some tzlocal) = Ok x') ->
  compute_timeunit local x' u = compute_timeunit local x u.
Proof.
  intros [[z H]|[Hn H]].
  - destruct (tz_convert_readings local x x' z u H) as (Hs & Hl & Hr).
    now apply compute_timeunit_readings.
  - destruct (tz_localize_readings local x x' u Hn H) as (Hs & Hl & Hr).
    now apply compute_timeunit_readings.
Qed.

Lemma compute_timeunit_ignores_tag_witness :
  compute_timeunit us_eastern_spring_2021
    (DTimestamp {| value := 1626356730250000000; tz := Some tzlocal |}) "yearmonth"
  = compute_timeunit us_eastern_spring_2021 (DTimestamp scenario_instant)
      "yearmonth".
Proof.
  apply (compute_timeunit_ignores_tag us_eastern_spring_2021
           (DTimestamp scenario_instant)).
  left. exists tzlocal. reflexivity.
Defined.

(** X12.  For a timeunit that starts with [utc], the result on a
    zone-aware date does not depend on the local zone of the process. *)
Theorem utc_timeunit_ignores_local_zone local local' x u :
  tz_of x <> None -> Str.startswith u "utc" = true ->
  compute_timeunit local x u = compute_timeunit local' x u.
Proof.
  intros Ha Hu. apply compute_timeunit_readings; try reflexivity.
  destruct x as [[v [t|]]|[ix vs [t|]]]; cbn [tz_of tz dtype_tz] in Ha;
    try congruence;
    cbn [readings dtype_tz i8]; unfold reading, timezone_of; rewrite Hu;
    reflexivity.
Qed.

Lemma utc_timeunit_ignores_local_zone_witness :
  compute_timeunit us_eastern_spring_2021 (DTimestamp scenario_instant)
    "utcyearmonth"
  = compute_timeunit (fixed_offset 3600) (DTimestamp scenario_instant)
      "utcyearmonth".
Proof.
  apply (utc_timeunit_ignores_local_zone us_eastern_spring_2021
           (fixed_offset 3600) (DTimestamp scenario_instant) "utcyearmonth").
  - discriminate.
  - reflexivity.
Defined.

(* ================================================================== *)
(** ** The zone test and the field set *)

Lemma utc_consistent_all tail :
  re.at_end tail = true ->
  forallb (utc_consistent tail) (selections _simple_timeunits) = true.
Proof.
  intros H. unfold re.at_end in H. apply orb_prop in H.
  destruct H as [H|H]; apply String.eqb_eq in H; subst tail;
    vm_compute; reflexivity.
Qed.

(** X13.  On every string the parser accepts, the zone test of
    [compute_timeunit], [timeunit.startswith('utc')], agrees with the field
    set: the fields are read in UTC exactly when [utc] is a member. *)
Theorem utc_prefix_is_utc_field timeunit units :
  _parse_timeunit_string timeunit = Ok units ->
  Str.startswith timeunit "utc" = mem "utc" units /\
  timezone_of timeunit = (if mem "utc" units then UTC else tzlocal).
Proof.
  intros H. destruct (parse_spelling _ _ H) as (Hsel & tail & Ht & ->).
  assert (E : Str.startswith (Str.join units ++ tail) "utc" = mem "utc" units).
  { pose proof (utc_consistent_all tail Ht) as Hall.
    rewrite forallb_forall in Hall.
    specialize (Hall units (selection_In _ _ Hsel)).
    unfold utc_consistent in Hall. now apply Bool.eqb_prop in Hall. }
  split; [exact E|]. unfold timezone_of. now rewrite E.
Qed.

Lemma utc_prefix_is_utc_field_witness :
  Str.startswith "utcyearmonth" "utc" = mem "utc" ["utc"; "year"; "month"] /\
  timezone_of "utcyearmonth"
  = (if mem "utc" ["utc"; "year"; "month"] then UTC else tzlocal).
Proof.
  apply (utc_prefix_is_utc_field "utcyearmonth" ["utc"; "year"; "month"]).
  reflexivity.
Defined.

(* ================================================================== *)
(** ** Strings that are not timeunits *)

Lemma spelled_parses timeunit :
  spelled timeunit -> exists units, _parse_timeunit_string timeunit = Ok units.
Proof.
  intros (sel & Hsel & Hs). apply selection_In in Hsel.
  assert (Hback : forall tail, re.at_end tail = true ->
            _parse_timeunit_string (Str.join sel ++ tail) = Ok sel).
  { intros tail Ht. pose proof (parses_back_all tail Ht) as Hall.
    rewrite forallb_forall in Hall. specialize (Hall sel Hsel).
    unfold parses_back in Hall.
    destruct (_parse_timeunit_string (Str.join sel ++ tail)) as [units|];
      [|discriminate].
    now rewrite (list_eqb_eq _ _ Hall). }
  exists sel. destruct Hs as [-> | ->].
  - rewrite <- (append_nil_r (Str.join sel)). now apply Hback.
  - now apply Hback.
Qed.

Lemma parses_spelled timeunit units :
  _parse_timeunit_string timeunit = Ok units -> spelled timeunit.
Proof.
  intros H. destruct (parse_spelling _ _ H) as (Hsel & tail & Ht & Hj).
  exists units. split; [exact Hsel|].
  destruct (at_end_spec tail Ht) as [-> | ->]; [left|right]; [|exact Hj].
  now rewrite append_nil_r in Hj.
Qed.

(** X14.  A string that is not some of the ten tokens in their canonical
    order (with at most one newline after them) is refused whatever the
    date: [compute_timeunit] raises [ValueError] on every input, scalar or
    sequence, aware or naive. *)
Theorem unspelled_timeunit_raises local x timeunit :
  ~ spelled timeunit ->
  raises (compute_timeunit local x timeunit) ValueError.
Proof.
  intros Hn.
  destruct (_parse_timeunit_string timeunit) as [units|c msg] eqn:Hparse.
  { destruct Hn. exact (parses_spelled _ _ Hparse). }
  assert (Hc : c = ValueError /\
               msg = ("Unrecognized timeUnit: " ++ repr timeunit)%string).
  { unfold _parse_timeunit_string in Hparse.
    destruct (_timeunit_regex timeunit); [discriminate|].
    injection Hparse as <- <-. now split. }
  destruct Hc as [-> ->].
  assert (Hname : existsb (String.eqb timeunit) ["day"; "utcday"] = false).
  { cbn [existsb].
    destruct (String.eqb timeunit "day") eqn:E1;
      [apply String.eqb_eq in E1; subst; discriminate Hparse|].
    destruct (String.eqb timeunit "utcday") eqn:E2;
      [apply String.eqb_eq in E2; subst; discriminate Hparse|].
    reflexivity. }
  eexists. apply compute_timeunit_raise. intros a.
  unfold _compute_timeunit. rewrite Hname, Hparse. reflexivity.
Qed.

Lemma unspelled_timeunit_raises_witness :
  raises (compute_timeunit (fixed_offset 3600) (DTimestamp scenario_instant)
            "monthyear") ValueError.
Proof.
  apply (unspelled_timeunit_raises (fixed_offset 3600)
           (DTimestamp scenario_instant) "monthyear").
  intros Hs. destruct (spelled_parses _ Hs) as [units E].
  vm_compute in E. discriminate E.
Defined.

(* ================================================================== *)
(** ** The two conversions *)

Lemma timestamp_to_date_cases local n tz utc :
  timestamp_to_date local n tz utc =
  Ok (match n with
      | Num q =>
          DTimestamp
            {| value := if utc || tz then cast_from_unit_ms q
                        else wall local (Some tzlocal) (cast_from_unit_ms q);
               pd.tz := if utc then Some UTC
                        else if tz then Some tzlocal else None |}
      | NumArray l =>
          DArray
            {| index := None;
               i8 := if utc || tz then map cast_from_unit_ms l
                     else map (fun q => wall local (Some tzlocal)
                                          (cast_from_unit_ms q)) l;
               dtype_tz := if utc then Some UTC
                           else if tz then Some tzlocal else None |}
      end).
Proof.
  unfold timestamp_to_date, to_datetime_ms, tz_localize, tz_convert, localize,
    offset_of_wall.
  destruct n as [q|l]; cbn [tz_of pd.tz dtype_tz bind value index i8];
    rewrite ?Z.sub_0_r.
  - destruct utc, tz; reflexivity.
  - assert (E : map (fun w => w - 0) (map cast_from_unit_ms l)
                = map cast_from_unit_ms l).
    { rewrite <- (map_id (map cast_from_unit_ms l)) at 2.
      apply map_ext. intros w. lia. }
    rewrite E. destruct utc, tz; cbn [orb bind tz_of dtype_tz index i8];
      rewrite ?map_map; reflexivity.
Qed.

(** X15.  What [timestamp_to_date] returns is a scalar for one number and a
    [DatetimeIndex], never a series, for an array, with one element per
    number; it is tagged UTC when [utc] is set, whatever [tz] is, tagged
    with the local zone when only [tz] is set, and naive otherwise. *)
Theorem timestamp_to_date_tag local n tz utc d :
  timestamp_to_date local n tz utc = Ok d ->
  tz_of d = (if utc then Some UTC else if tz then Some tzlocal else None) /\
  labels_of d = None /\
  is_scalar d = (match n with Num _ => true | NumArray _ => false end) /\
  List.length (values_of d) = List.length (numbers_of n).
Proof.
  rewrite timestamp_to_date_cases. intros H. injection H as <-.
  destruct n as [q|l]; cbn [tz_of pd.tz dtype_tz labels_of index is_scalar
    values_of i8 value numbers_of]; repeat split.
  destruct (utc || tz); now rewrite length_map.
Qed.

Lemma timestamp_to_date_tag_witness :
  tz_of (DTimestamp {| value := 1500000; pd.tz := Some UTC |})
  = (if true then Some UTC else if true then Some tzlocal else None) /\
  labels_of (DTimestamp {| value := 1500000; pd.tz := Some UTC |}) = None /\
  is_scalar (DTimestamp {| value := 1500000; pd.tz := Some UTC |})
  = (match Num (3 # 2) with Num _ => true | NumArray _ => false end) /\
  List.length (values_of (DTimestamp {| value := 1500000; pd.tz := Some UTC |}))
  = List.length (numbers_of (Num (3 # 2))).
Proof.
  apply (timestamp_to_date_tag (fixed_offset 3600) (Num (3 # 2)) true true).
  vm_compute. reflexivity.
Defined.

Lemma bucket_of_number_aware local n tz utc u :
  utc || tz = true ->
  bucket_of_number local n tz utc u = bucket_of_number local n false true u.
Proof.
  intros H. unfold bucket_of_number. rewrite !timestamp_to_date_cases.
  cbn [bind]. rewrite H. cbn [orb].
  apply compute_timeunit_readings; destruct n, utc, tz;
    try discriminate H; reflexivity.
Qed.

(** X16.  Bucketing a converted timestamp does not depend on how it was
    tagged: [compute_timeunit(timestamp_to_date(n, tz, utc), u)] is the
    same for [utc=True] and for [tz=True], whatever the local zone. *)
Theorem bucketing_ignores_aware_flags local n tz utc tz' utc' u :
  utc || tz = true -> utc' || tz' = true ->
  bucket_of_number local n tz utc u = bucket_of_number local n tz' utc' u.
Proof.
  intros H H'.
  now rewrite (bucket_of_number_aware local n tz utc u H),
              (bucket_of_number_aware local n tz' utc' u H').
Qed.

Lemma bucketing_ignores_aware_flags_witness :
  bucket_of_number us_eastern_spring_2021 (Num (1615689000000 # 1)) true false
    "yearmonthdatehours"
  = bucket_of_number us_eastern_spring_2021 (Num (1615689000000 # 1)) false true
      "yearmonthdatehours".
Proof.
  apply (bucketing_ignores_aware_flags us_eastern_spring_2021
           (Num (1615689000000 # 1)) true false false true);
    reflexivity.
Defined.

(** X17.  When no local reading is shown twice (always so in a zone without
    transitions), the default conversion to a naive local reading is
    bucketed like the aware ones: the three settings of the flags of
    [timestamp_to_date] give the same [compute_timeunit] result. *)
Theorem bucketing_ignores_flags local n tz utc u :
  unambiguous local ->
  bucket_of_number local n tz utc u = bucket_of_number local n false true u.
Proof.
  intros Hu. destruct (utc || tz) eqn:E.
  - now apply bucket_of_number_aware.
  - apply orb_false_elim in E. destruct E as [-> ->].
    unfold bucket_of_number. rewrite !timestamp_to_date_cases. cbn [bind orb].
    apply compute_timeunit_readings; destruct n as [q|l]; try reflexivity.
    + cbn [readings]. unfold reading. cbn [pd.tz value utc_value].
      now rewrite Hu.
    + cbn [readings dtype_tz i8 utc_value]. rewrite !map_map.
      apply map_ext. intros q. now rewrite Hu.
Qed.

Lemma bucketing_ignores_flags_witness :
  bucket_of_number (fixed_offset 3600) (Num (1615689000000 # 1)) false false
    "yearmonthdatehours"
  = bucket_of_number (fixed_offset 3600) (Num (1615689000000 # 1)) false true
      "yearmonthdatehours".
Proof.
  apply (bucketing_ignores_flags (fixed_offset 3600) (Num (1615689000000 # 1))
           false false "yearmonthdatehours").
  intros v. unfold localize, wall, offset_of_wall, offset_at. cbn. lia.
Defined.

(** X18.  [date_to_timestamp] looks at the instants only: converting an
    aware date to another zone first changes nothing, nor does the local
    zone of the process; and what it returns has one number per element. *)
Theorem date_to_timestamp_ignores_tag local local' x x' z :
  tz_convert x z = Ok x' ->
  date_to_timestamp local' x' = date_to_timestamp local x /\
  (forall n, date_to_timestamp local x = Ok n ->
             List.length (numbers_of n) = List.length (values_of x)).
Proof.
  unfold tz_convert, date_to_timestamp.
  destruct x as [[v [t|]]|[ix vs [t|]]]; cbn [tz_of pd.tz dtype_tz];
    intros H; try discriminate; injection H as <-.
  - split; [reflexivity|]. intros n H. injection H as <-. reflexivity.
  - cbn [isinstance_Series index tz_of dtype_tz].
    destruct ix; (split; [reflexivity|]); intros n H; [discriminate|].
    injection H as <-. cbn [numbers_of values_of i8]. apply length_map.
Qed.

Lemma date_to_timestamp_ignores_tag_witness :
  date_to_timestamp (fixed_offset 3600)
    (DTimestamp {| value := 1626356730250000000; pd.tz := Some tzlocal |})
  = date_to_timestamp us_eastern_spring_2021 (DTimestamp scenario_instant) /\
  (forall n, date_to_timestamp us_eastern_spring_2021
               (DTimestamp scenario_instant) = Ok n ->
             List.length (numbers_of n)
             = List.length (values_of (DTimestamp scenario_instant))).
Proof.
  apply (date_to_timestamp_ignores_tag us_eastern_spring_2021
           (fixed_offset 3600) (DTimestamp scenario_instant) _ tzlocal).
  reflexivity.
Defined.
